(** * Live auction system: bid placement and auction lifecycle

    A shallow embedding of the server side of the auction marketplace:
    the Auction and Bid schemas (models/Auction.js, models/Bid.js), the
    identity attached by the [protect] middleware, and the handlers
    [placeBid] (controllers/bidController.js), [createAuction],
    [updateAuction], [deleteAuction] and [toggleLikeAuction]
    (controllers/auctionController.js).

    Beyond these: the reads [getAuctionById] with [incrementViews],
    [getBidsForAuction] and [getMyBids]; [listAuctions] up to its query;
    the route tables of routes/auctionRoutes.js and routes/bidRoutes.js;
    and the client's [getBidStatus] (utils/dateUtils.ts).

    Conventions of the embedding.
    - A JavaScript Number that carries money is a rational [Qc]; the
      handlers only compare and copy such numbers, so the order of the
      rationals is the order of the finite doubles.  Counters
      ([bidCount], [views]) and epoch milliseconds are [Z].
    - A [Date] is [option Z]: its [getTime()], with [None] for the
      Invalid Date (NaN).
    - An ObjectId is the string of its 24 hexadecimal digits.
    - The Auction collection is a finite map from [_id] to document; the
      Bid collection is the list of its documents in insertion order.
    - A handler is a function from the request, the environment (clock,
      fresh id, NODE_ENV, storage faults) and the database to its reply
      and the database it leaves behind. *)

From Stdlib Require Import ZArith QArith Qcanon Ascii String.
From stdpp Require Import base decidable option numbers strings list gmap.
From stdpp Require Import sorting.

Local Open Scope string_scope.
Local Open Scope Z_scope.

(** ** Identifiers *)

Abbreviation ObjectId := string (only parsing).

(** The value found in [req.user.id]: the handlers receive either the
    string form of an id or the ObjectId itself. *)
Inductive JsId :=
| IdString (s : string)
| IdObject (o : ObjectId).

(** [auction.seller.toString() === userId]: strict equality of a string
    with [userId]; it is false whenever [userId] is not a string. *)
Definition sellerIs (s : ObjectId) (userId : JsId) : bool :=
  match userId with
  | IdString t => bool_decide (s = t)
  | IdObject _ => false
  end.

(** ** Dates and the derived status *)

Abbreviation JsDate := (option Z) (only parsing).

Inductive Status := upcoming | active | ending_soon | ended | invalid_dates.

Definition statusName (s : Status) : string :=
  match s with
  | upcoming => "upcoming"
  | active => "active"
  | ending_soon => "ending-soon"
  | ended => "ended"
  | invalid_dates => "invalid-dates"
  end.

Global Instance Status_eq_dec : EqDecision Status.
Proof. solve_decision. Defined.

(** ** Documents of the two collections *)

Record Document := { doc_name : string; doc_url : string; doc_type : string }.

Global Instance Document_eq_dec : EqDecision Document.
Proof. solve_decision. Defined.

Record Auction := {
  title : string;
  description : string;
  imageUrl : option string;
  images : list string;
  startingBid : Qc;
  currentBid : Qc;
  highestBidder : option ObjectId;
  bidCount : Z;
  views : Z;
  likedBy : list ObjectId;
  seller : ObjectId;
  startTime : JsDate;
  endTime : JsDate;
  documents : list Document;
  category : option string;
  location : option string;
  createdAt : Z;
  updatedAt : Z
}.

Global Instance Auction_eq_dec : EqDecision Auction.
Proof. solve_decision. Defined.

Record Bid := {
  bid_id : ObjectId;
  auction : ObjectId;
  bidder : ObjectId;
  amount : Qc;
  bid_createdAt : Z;
  bid_updatedAt : Z
}.

Global Instance Bid_eq_dec : EqDecision Bid.
Proof. solve_decision. Defined.

Record DB := {
  auctions : gmap ObjectId Auction;
  bids : list Bid
}.

(** [AuctionSchema.virtual('status')], read at the instant [now]. *)
Definition oneHour : Z := 60 * 60 * 1000.

Definition status (now : Z) (a : Auction) : Status :=
  match startTime a, endTime a with
  | Some start, Some end_ =>
      if now <? start then upcoming
      else if (start <=? now) && (now <? end_) then
        if end_ - now <? oneHour then ending_soon else active
      else ended
  | _, _ => invalid_dates
  end.

(** [AuctionSchema.virtual('likes')]. *)
Definition likes (a : Auction) : nat := length (likedBy a).

(** ** Field updates on an auction document *)

Definition set_title (v : string) (a : Auction) : Auction :=
  let (_, d, iu, im, sb, cb, hb, bc, vw, lb, se, st, et, dc, ca, lo, cr, up) := a in
  Build_Auction v d iu im sb cb hb bc vw lb se st et dc ca lo cr up.
Definition set_description (v : string) (a : Auction) : Auction :=
  let (t, _, iu, im, sb, cb, hb, bc, vw, lb, se, st, et, dc, ca, lo, cr, up) := a in
  Build_Auction t v iu im sb cb hb bc vw lb se st et dc ca lo cr up.
Definition set_imageUrl (v : option string) (a : Auction) : Auction :=
  let (t, d, _, im, sb, cb, hb, bc, vw, lb, se, st, et, dc, ca, lo, cr, up) := a in
  Build_Auction t d v im sb cb hb bc vw lb se st et dc ca lo cr up.
Definition set_images (v : list string) (a : Auction) : Auction :=
  let (t, d, iu, _, sb, cb, hb, bc, vw, lb, se, st, et, dc, ca, lo, cr, up) := a in
  Build_Auction t d iu v sb cb hb bc vw lb se st et dc ca lo cr up.
Definition set_startingBid (v : Qc) (a : Auction) : Auction :=
  let (t, d, iu, im, _, cb, hb, bc, vw, lb, se, st, et, dc, ca, lo, cr, up) := a in
  Build_Auction t d iu im v cb hb bc vw lb se st et dc ca lo cr up.
Definition set_currentBid (v : Qc) (a : Auction) : Auction :=
  let (t, d, iu, im, sb, _, hb, bc, vw, lb, se, st, et, dc, ca, lo, cr, up) := a in
  Build_Auction t d iu im sb v hb bc vw lb se st et dc ca lo cr up.
Definition set_highestBidder (v : option ObjectId) (a : Auction) : Auction :=
  let (t, d, iu, im, sb, cb, _, bc, vw, lb, se, st, et, dc, ca, lo, cr, up) := a in
  Build_Auction t d iu im sb cb v bc vw lb se st et dc ca lo cr up.
Definition set_bidCount (v : Z) (a : Auction) : Auction :=
  let (t, d, iu, im, sb, cb, hb, _, vw, lb, se, st, et, dc, ca, lo, cr, up) := a in
  Build_Auction t d iu im sb cb hb v vw lb se st et dc ca lo cr up.
Definition set_views (v : Z) (a : Auction) : Auction :=
  let (t, d, iu, im, sb, cb, hb, bc, _, lb, se, st, et, dc, ca, lo, cr, up) := a in
  Build_Auction t d iu im sb cb hb bc v lb se st et dc ca lo cr up.
Definition set_likedBy (v : list ObjectId) (a : Auction) : Auction :=
  let (t, d, iu, im, sb, cb, hb, bc, vw, _, se, st, et, dc, ca, lo, cr, up) := a in
  Build_Auction t d iu im sb cb hb bc vw v se st et dc ca lo cr up.
Definition set_startTime (v : JsDate) (a : Auction) : Auction :=
  let (t, d, iu, im, sb, cb, hb, bc, vw, lb, se, _, et, dc, ca, lo, cr, up) := a in
  Build_Auction t d iu im sb cb hb bc vw lb se v et dc ca lo cr up.
Definition set_endTime (v : JsDate) (a : Auction) : Auction :=
  let (t, d, iu, im, sb, cb, hb, bc, vw, lb, se, st, _, dc, ca, lo, cr, up) := a in
  Build_Auction t d iu im sb cb hb bc vw lb se st v dc ca lo cr up.
Definition set_documents (v : list Document) (a : Auction) : Auction :=
  let (t, d, iu, im, sb, cb, hb, bc, vw, lb, se, st, et, _, ca, lo, cr, up) := a in
  Build_Auction t d iu im sb cb hb bc vw lb se st et v ca lo cr up.
Definition set_category (v : option string) (a : Auction) : Auction :=
  let (t, d, iu, im, sb, cb, hb, bc, vw, lb, se, st, et, dc, _, lo, cr, up) := a in
  Build_Auction t d iu im sb cb hb bc vw lb se st et dc v lo cr up.
Definition set_location (v : option string) (a : Auction) : Auction :=
  let (t, d, iu, im, sb, cb, hb, bc, vw, lb, se, st, et, dc, ca, _, cr, up) := a in
  Build_Auction t d iu im sb cb hb bc vw lb se st et dc ca v cr up.
Definition set_updatedAt (v : Z) (a : Auction) : Auction :=
  let (t, d, iu, im, sb, cb, hb, bc, vw, lb, se, st, et, dc, ca, lo, cr, _) := a in
  Build_Auction t d iu im sb cb hb bc vw lb se st et dc ca lo cr v.

(** ** Errors, environment and replies *)

(** A thrown JavaScript [Error]: its [name], [message], the [statusCode]
    the auction handlers attach, and, for a Mongoose ValidationError,
    the messages of [error.errors]. *)
Record JsError := {
  err_name : string;
  err_message : string;
  err_statusCode : option Z;
  err_errors : list string
}.

Definition mkError (msg : string) : JsError :=
  {| err_name := "Error"; err_message := msg; err_statusCode := None; err_errors := [] |}.

Definition httpError (code : Z) (msg : string) : JsError :=
  {| err_name := "Error"; err_message := msg; err_statusCode := Some code; err_errors := [] |}.

(** The storage calls a handler awaits; each may reject. *)
Inductive DbOp :=
| OpFindById | OpFindByIdAndUpdate | OpSave | OpCommit | OpFindByIdAndDelete.

(** What a request finds around it: the clock ([new Date()], and the
    instant Mongoose stamps on a write), the ObjectId generated for a
    new document, whether NODE_ENV is "production", and the storage
    calls that reject, with the error they reject with. *)
Record Env := {
  now : Z;
  newId : ObjectId;
  production : bool;
  fault : DbOp -> option JsError
}.

(** The identity [protect] leaves in [req.user]. *)
Record ReqUser := { user_id : JsId; user_isAdmin : bool }.

(** The part of a stored user the middleware reads. *)
Record User := { u_id : ObjectId; u_isAdmin : bool; u_isBanned : bool }.

(** [protect], after the token was verified and [foundUser] loaded:
    a banned user is refused, otherwise
    [userPayload.id = userPayload._id], the ObjectId value. *)
Definition protect (foundUser : User) : JsError + ReqUser :=
  if u_isBanned foundUser then inl (httpError 403 "User account is banned.")
  else inr {| user_id := IdObject (u_id foundUser); user_isAdmin := u_isAdmin foundUser |}.

Record AuctionSummary := {
  sum_id : ObjectId;
  sum_currentBid : Qc;
  sum_highestBidder : option ObjectId;
  sum_bidCount : Z
}.

(** The JSON body of a reply of bidController, with its HTTP status. *)
Record BidReply := {
  httpStatus : Z;
  success : bool;
  message : string;
  r_currentBid : option Qc;
  r_startingBid : option Qc;
  r_bid : option Bid;
  r_auction : option AuctionSummary;
  r_error : option JsError
}.

Definition rejection (code : Z) (msg : string) : BidReply :=
  {| httpStatus := code; success := false; message := msg;
     r_currentBid := None; r_startingBid := None;
     r_bid := None; r_auction := None; r_error := None |}.

(** [handleServerError]. *)
Definition handleServerError (env : Env) (error : JsError) (msg : string) : BidReply :=
  {| httpStatus := 500; success := false;
     message := if production env then msg else err_message error;
     r_currentBid := None; r_startingBid := None;
     r_bid := None; r_auction := None;
     r_error := if production env then None else Some error |}.

(** ** Sessions and transactions

    A session holds the committed store and, while a transaction is
    open, the working copy its reads and writes go to.  Committing
    installs the working copy; aborting drops it. *)
Record Session := { store : DB; txn : option DB }.

Definition view (s : Session) : DB := default (store s) (txn s).

Definition startSession (db : DB) : Session := {| store := db; txn := None |}.

Definition startTransaction (s : Session) : Session :=
  {| store := store s; txn := Some (store s) |}.

(** A computation in a session: it throws ([inl]) or returns ([inr]). *)
Definition Tx (A : Type) : Type := Session -> (JsError + A) * Session.

Definition ret {A} (x : A) : Tx A := fun s => (inr x, s).
Definition throw {A} (e : JsError) : Tx A := fun s => (inl e, s).
Definition bind {A B} (m : Tx A) (k : A -> Tx B) : Tx B :=
  fun s => match m s with
           | (inl e, s') => (inl e, s')
           | (inr x, s') => k x s'
           end.

Notation "x <- m ;; k" := (bind m (fun x => k))
  (at level 100, m at next level, right associativity).

(** A storage call rejects when the environment says so. *)
Definition storageCall (env : Env) (op : DbOp) : Tx unit :=
  match fault env op with
  | Some e => throw e
  | None => ret tt
  end.

Definition abortTransaction : Tx unit :=
  fun s => (inr tt, {| store := store s; txn := None |}).

Definition commitTransaction (env : Env) : Tx unit :=
  _ <- storageCall env OpCommit ;;
  fun s => (inr tt, {| store := view s; txn := None |}).

(** [Auction.findById(id).session(session)]. *)
Definition findById (env : Env) (id : ObjectId) : Tx (option Auction) :=
  _ <- storageCall env OpFindById ;;
  fun s => (inr (auctions (view s) !! id), s).

Definition writeView (db : DB) : Tx unit :=
  fun s => (inr tt, match txn s with
                    | Some _ => {| store := store s; txn := Some db |}
                    | None => {| store := db; txn := None |}
                    end).

(** [Auction.findByIdAndUpdate(id, update, { new: true })]: the updated
    document, or [null] when no document has this id.  The schema's
    [timestamps] option makes every update set [updatedAt]. *)
Definition findByIdAndUpdate (env : Env) (id : ObjectId) (update : Auction -> Auction)
  : Tx (option Auction) :=
  _ <- storageCall env OpFindByIdAndUpdate ;;
  fun s =>
    match auctions (view s) !! id with
    | None => (inr None, s)
    | Some a =>
        let a' := set_updatedAt (now env) (update a) in
        bind (writeView {| auctions := <[id := a']> (auctions (view s)); bids := bids (view s) |})
             (fun _ => ret (Some a')) s
    end.

(** The errors Mongoose throws; their messages are abbreviated (the
    library adds the offending value and the failing paths). *)
Definition castError (path : string) : JsError :=
  {| err_name := "CastError";
     err_message := "Cast to ObjectId failed at path " ++ path;
     err_statusCode := None; err_errors := [] |}.

Definition validationError (model : string) (msgs : list string) : JsError :=
  {| err_name := "ValidationError";
     err_message := model ++ " validation failed";
     err_statusCode := None; err_errors := msgs |}.

(** The validators of BidSchema that can fail on a document built by
    [placeBid]: [amount] has [min: 0.01]. *)
Definition minBidAmount : Qc := Q2Qc (1 # 100).

Definition validateBid (b : Bid) : list string :=
  if bool_decide (amount b < minBidAmount)%Qc then ["Bid amount must be positive."] else [].

(** [newBid.save({ session })]: validation, then the insert. *)
Definition saveBid (env : Env) (b : Bid) : Tx Bid :=
  match validateBid b with
  | [] =>
      _ <- storageCall env OpSave ;;
      fun s => bind (writeView {| auctions := auctions (view s);
                                  bids := bids (view s) ++ [b] |})
                    (fun _ => ret b) s
  | msgs => throw (validationError "Bid" msgs)
  end.

(** ** The handlers

    Three functions of the JavaScript and Mongoose runtime stay
    abstract: [mongoose.Types.ObjectId.isValid] on strings, the
    conversion of a Number to the text a template literal shows, and
    [String.prototype.trim] (the schema's [trim: true]). *)
Section Handlers.

Variable isValid : string -> bool.
Variable numberToString : Qc -> string.
Variable trim : string -> string.

Set Default Proof Using "Type".

(** Mongoose's cast of a value to an ObjectId. *)
Definition castObjectId (v : JsId) : option ObjectId :=
  match v with
  | IdString s => if isValid s then Some s else None
  | IdObject o => Some o
  end.

Definition castId (path : string) (v : JsId) : Tx ObjectId :=
  match castObjectId v with
  | Some o => ret o
  | None => throw (castError path)
  end.

(** *** bidController.placeBid *)

(** [req.params.auctionId], [req.body.amount] ([None] when it is not a
    number) and [req.user]. *)
Record BidRequest := {
  req_auctionId : string;
  req_amount : option Qc;
  req_user : ReqUser
}.

Definition invalidAmount : BidReply :=
  rejection 400 "Invalid bid amount. Must be a positive number.".

Definition auctionNotFound : BidReply := rejection 404 "Auction not found.".

Definition sellerCannotBid : BidReply :=
  rejection 403 "Sellers cannot bid on their own auctions.".

Definition auctionNotActive (auctionStatus : Status) : BidReply :=
  rejection 400 ("Auction is not active. Status: " ++ statusName auctionStatus).

Definition bidNotHigher (a : Auction) : BidReply :=
  {| httpStatus := 400; success := false;
     message := "Your bid must be higher than the current bid of "
                ++ numberToString (currentBid a) ++ ".";
     r_currentBid := Some (currentBid a); r_startingBid := None;
     r_bid := None; r_auction := None; r_error := None |}.

Definition belowStartingBid (a : Auction) : BidReply :=
  {| httpStatus := 400; success := false;
     message := "The first bid must be at least the starting bid of "
                ++ numberToString (startingBid a) ++ ".";
     r_currentBid := None; r_startingBid := Some (startingBid a);
     r_bid := None; r_auction := None; r_error := None |}.

Definition bidPlaced (newBid : Bid) (id : ObjectId) (updatedAuction : Auction) : BidReply :=
  {| httpStatus := 201; success := true; message := "Bid placed successfully!";
     r_currentBid := None; r_startingBid := None;
     r_bid := Some newBid;
     r_auction := Some {| sum_id := id;
                          sum_currentBid := currentBid updatedAuction;
                          sum_highestBidder := highestBidder updatedAuction;
                          sum_bidCount := bidCount updatedAuction |};
     r_error := None |}.

(** [{ $set: { currentBid: amount, highestBidder: bidderId },
       $inc: { bidCount: 1 } }]. *)
Definition bidUpdate (amt : Qc) (bidderId : ObjectId) (a : Auction) : Auction :=
  set_bidCount (bidCount a + 1) (set_highestBidder (Some bidderId) (set_currentBid amt a)).

(** [new Bid({ auction, bidder, amount })], with the timestamps its
    [save] gives it. *)
Definition newBidDoc (env : Env) (auctionId bidderId : ObjectId) (amt : Qc) : Bid :=
  {| bid_id := newId env; auction := auctionId; bidder := bidderId; amount := amt;
     bid_createdAt := now env; bid_updatedAt := now env |}.

(** The [try] block of [placeBid].  Mongoose casts [bidderId] to an
    ObjectId when it prepares the update, before the storage call. *)
Definition placeBidTry (env : Env) (auctionId : ObjectId) (bidderId : JsId) (amt : Qc)
  : Tx BidReply :=
  found <- findById env auctionId ;;
  match found with
  | None => _ <- abortTransaction ;; ret auctionNotFound
  | Some a =>
      if sellerIs (seller a) bidderId then
        _ <- abortTransaction ;; ret sellerCannotBid
      else
        let auctionStatus := status (now env) a in
        if bool_decide (auctionStatus <> active)
           && bool_decide (auctionStatus <> ending_soon) then
          _ <- abortTransaction ;; ret (auctionNotActive auctionStatus)
        else if bool_decide (amt ≤ currentBid a)%Qc then
          _ <- abortTransaction ;; ret (bidNotHigher a)
        else if bool_decide (bidCount a = 0)
                && bool_decide (amt < startingBid a)%Qc then
          _ <- abortTransaction ;; ret (belowStartingBid a)
        else
          bidderOid <- castId "highestBidder" bidderId ;;
          updated <- findByIdAndUpdate env auctionId (bidUpdate amt bidderOid) ;;
          match updated with
          | None => throw (mkError "Failed to update auction during bid placement.")
          | Some updatedAuction =>
              newBid <- saveBid env (newBidDoc env auctionId bidderOid amt) ;;
              _ <- commitTransaction env ;;
              ret (bidPlaced newBid auctionId updatedAuction)
          end
  end.

(** [placeBid]: the two input checks, then the transaction; an error
    thrown inside the [try] block aborts the transaction. *)
Definition placeBid (env : Env) (req : BidRequest) (db : DB) : BidReply * DB :=
  if negb (isValid (req_auctionId req)) then
    (rejection 400 "Invalid Auction ID format.", db)
  else
    match req_amount req with
    | None => (invalidAmount, db)
    | Some amt =>
        if bool_decide (amt ≤ 0)%Qc then (invalidAmount, db)
        else
          let session := startTransaction (startSession db) in
          match placeBidTry env (req_auctionId req) (user_id (req_user req)) amt session with
          | (inr reply, s) => (reply, store s)
          | (inl error, s) =>
              let '(_, s') := abortTransaction s in
              (handleServerError env error "Failed to place bid due to a server error.",
               store s')
          end
    end.

(** *** auctionController *)

(** What an auction handler does with the request: it answers with
    [res.status(code).json({ success: true, message, data })], or hands
    an error to [next]. *)
Inductive AuctionReply :=
| Json (code : Z) (msg : string) (data : option Auction)
| Next (error : JsError).

(** The [catch] block shared by the auction handlers. *)
Definition catchError (error : JsError) : AuctionReply :=
  match err_statusCode error with
  | Some _ => Next error
  | None => Next {| err_name := err_name error; err_message := err_message error;
                    err_statusCode := Some 500; err_errors := err_errors error |}
  end.

(** The [catch] block of [createAuction] and [updateAuction]. *)
Definition catchValidation (error : JsError) : AuctionReply :=
  if bool_decide (err_name error = "ValidationError") then
    Next (httpError 400 ("Validation Error: " ++ String.concat ", " (err_errors error)))
  else catchError error.

(** A handler that uses no transaction: its storage calls act on the
    store at once. *)
Definition runHandler (catch : JsError -> AuctionReply) (m : Tx AuctionReply) (db : DB)
  : AuctionReply * DB :=
  match m (startSession db) with
  | (inr reply, s) => (reply, store s)
  | (inl error, s) => (catch error, store s)
  end.

(** Comparisons of two Dates: of their time values, false when one is
    NaN. *)
Definition dateLe (x y : JsDate) : bool :=
  match x, y with Some a, Some b => a <=? b | _, _ => false end.
Definition dateGt (x y : JsDate) : bool :=
  match x, y with Some a, Some b => b <? a | _, _ => false end.

(** The validators of AuctionSchema, with the messages of the failing
    ones. *)
Definition required (path : string) (v : string) : list string :=
  if bool_decide (v = "") then ["Path `" ++ path ++ "` is required."] else [].

Definition minZero (path : string) (v : Qc) : list string :=
  if bool_decide (v < 0)%Qc then
    ["Path `" ++ path ++ "` (" ++ numberToString v
       ++ ") is less than minimum allowed value (0)."]
  else [].

Definition validateDocument (d : Document) : list string :=
  required "name" (doc_name d) ++ required "url" (doc_url d) ++ required "type" (doc_type d).

Definition truthy (o : option string) : bool :=
  match o with Some s => negb (bool_decide (s = "")) | None => false end.

Definition validateAuction (a : Auction) : list string :=
  required "title" (title a)
  ++ required "description" (description a)
  ++ (if (0 <? Z.of_nat (length (images a))) || truthy (imageUrl a) then []
      else ["At least one image URL in images array or a primary imageUrl is required"])
  ++ minZero "startingBid" (startingBid a)
  ++ minZero "currentBid" (currentBid a)
  ++ minZero "bidCount" (Qc_of_Z (bidCount a))
  ++ minZero "views" (Qc_of_Z (views a))
  ++ (if startTime a is None then ["Cast to date failed for path `startTime`"] else [])
  ++ (if endTime a is None then ["Cast to date failed for path `endTime`"]
      else if dateGt (endTime a) (startTime a) then []
      else ["End time must be after start time"])
  ++ flat_map validateDocument (documents a).

(** [createAuction]: the request body, each key absent ([None]) or
    present; a time is given by the Date [new Date] makes of it. *)
Record CreateBody := {
  c_title : option string;
  c_description : option string;
  c_startingBid : option Qc;
  c_endTime : option JsDate;
  c_startTime : option JsDate;
  c_imageUrl : option string;
  c_images : option (list string);
  c_category : option string;
  c_location : option string;
  c_documents : option (list Document)
}.

Definition trimDocument (d : Document) : Document :=
  {| doc_name := trim (doc_name d); doc_url := trim (doc_url d);
     doc_type := trim (doc_type d) |}.

(** [new Auction({ ..., seller: sellerId, currentBid: startingBid })]
    with the defaults of the schema. *)
Definition newAuction (env : Env) (body : CreateBody) (title_ description_ : string)
    (startingBid_ : Qc) (auctionStartTime auctionEndTime : JsDate) (sellerId : ObjectId)
  : Auction :=
  {| title := trim title_;
     description := trim description_;
     imageUrl := trim <$> c_imageUrl body;
     images := default [] (c_images body);
     startingBid := startingBid_;
     currentBid := startingBid_;
     highestBidder := None;
     bidCount := 0;
     views := 0;
     likedBy := [];
     seller := sellerId;
     startTime := auctionStartTime;
     endTime := auctionEndTime;
     documents := trimDocument <$> default [] (c_documents body);
     category := trim <$> c_category body;
     location := trim <$> c_location body;
     createdAt := now env;
     updatedAt := now env |}.

(** [newAuction.save()]: validation, then the insert under the new id. *)
Definition insertAuction (env : Env) (a : Auction) : Tx Auction :=
  match validateAuction a with
  | [] =>
      _ <- storageCall env OpSave ;;
      fun s =>
        match auctions (view s) !! newId env with
        | Some _ => throw (mkError "E11000 duplicate key error") s
        | None =>
            bind (writeView {| auctions := <[newId env := a]> (auctions (view s));
                               bids := bids (view s) |})
                 (fun _ => ret a) s
        end
  | msgs => throw (validationError "Auction" msgs)
  end.

Definition createAuction (env : Env) (user : ReqUser) (body : CreateBody) (db : DB)
  : AuctionReply * DB :=
  match c_title body, c_description body, c_startingBid body, c_endTime body with
  | Some title_, Some description_, Some startingBid_, Some auctionEndTime =>
      if bool_decide (title_ = "") || bool_decide (description_ = "") then
        (Next (httpError 400
           "Missing required auction fields (title, description, startingBid, endTime)"), db)
      else
        let auctionStartTime := default (Some (now env)) (c_startTime body) in
        if dateLe auctionEndTime auctionStartTime then
          (Next (httpError 400 "End time must be after start time"), db)
        else if dateLe auctionEndTime (Some (now env))
                && dateLe auctionStartTime (Some (now env)) then
          (Next (httpError 400 "End time must be in the future"), db)
        else
          runHandler catchValidation
            (sellerId <- match castObjectId (user_id user) with
                         | Some o => ret o
                         | None => throw (validationError "Auction"
                                            ["Cast to ObjectId failed for path `seller`"])
                         end ;;
             saved <- insertAuction env
                        (newAuction env body title_ description_ startingBid_
                           auctionStartTime auctionEndTime sellerId) ;;
             ret (Json 201 "Auction created successfully" (Some saved)))
            db
  | _, _, _, _ =>
      (Next (httpError 400
         "Missing required auction fields (title, description, startingBid, endTime)"), db)
  end.

(** [updateAuction]: the request body.  [b_currentBid] is the key the
    handler itself may add to the body. *)
Record UpdateBody := {
  b_title : option string;
  b_description : option string;
  b_imageUrl : option string;
  b_images : option (list string);
  b_category : option string;
  b_location : option string;
  b_documents : option (list Document);
  b_endTime : option JsDate;
  b_startTime : option JsDate;
  b_startingBid : option Qc;
  b_currentBid : option Qc
}.

Definition body_with_currentBid (v : Qc) (b : UpdateBody) : UpdateBody :=
  {| b_title := b_title b; b_description := b_description b; b_imageUrl := b_imageUrl b;
     b_images := b_images b; b_category := b_category b; b_location := b_location b;
     b_documents := b_documents b; b_endTime := b_endTime b; b_startTime := b_startTime b;
     b_startingBid := b_startingBid b; b_currentBid := Some v |}.

(** [Object.keys(req.body)], for the keys of the schema. *)
Definition bodyKeys (b : UpdateBody) : list string :=
  (if b_title b is Some _ then ["title"] else [])
  ++ (if b_description b is Some _ then ["description"] else [])
  ++ (if b_imageUrl b is Some _ then ["imageUrl"] else [])
  ++ (if b_images b is Some _ then ["images"] else [])
  ++ (if b_category b is Some _ then ["category"] else [])
  ++ (if b_location b is Some _ then ["location"] else [])
  ++ (if b_documents b is Some _ then ["documents"] else [])
  ++ (if b_endTime b is Some _ then ["endTime"] else [])
  ++ (if b_startTime b is Some _ then ["startTime"] else [])
  ++ (if b_startingBid b is Some _ then ["startingBid"] else [])
  ++ (if b_currentBid b is Some _ then ["currentBid"] else []).

(** [auction[key] = req.body[key]], through the setters of the schema. *)
Definition assignKey (b : UpdateBody) (key : string) (a : Auction) : Auction :=
  if bool_decide (key = "title") then from_option (fun v => set_title (trim v) a) a (b_title b)
  else if bool_decide (key = "description") then
    from_option (fun v => set_description (trim v) a) a (b_description b)
  else if bool_decide (key = "imageUrl") then
    from_option (fun v => set_imageUrl (Some (trim v)) a) a (b_imageUrl b)
  else if bool_decide (key = "images") then
    from_option (fun v => set_images v a) a (b_images b)
  else if bool_decide (key = "category") then
    from_option (fun v => set_category (Some (trim v)) a) a (b_category b)
  else if bool_decide (key = "location") then
    from_option (fun v => set_location (Some (trim v)) a) a (b_location b)
  else if bool_decide (key = "documents") then
    from_option (fun v => set_documents (trimDocument <$> v) a) a (b_documents b)
  else if bool_decide (key = "endTime") then
    from_option (fun v => set_endTime v a) a (b_endTime b)
  else if bool_decide (key = "startTime") then
    from_option (fun v => set_startTime v a) a (b_startTime b)
  else if bool_decide (key = "startingBid") then
    from_option (fun v => set_startingBid v a) a (b_startingBid b)
  else if bool_decide (key = "currentBid") then
    from_option (fun v => set_currentBid v a) a (b_currentBid b)
  else a.

(** The [forEach] over the keys of the body. *)
Definition applyUpdates (allowedUpdates : list string) (b : UpdateBody) (a : Auction)
  : Auction :=
  foldl (fun acc key => if bool_decide (key ∈ allowedUpdates) then assignKey b key acc
                        else acc)
        a (bodyKeys b).

(** [auction.save()] on a loaded document: validation (here of the
    whole document: a stored document satisfies the validators of the
    paths left alone), then the write of what changed, which also sets
    [updatedAt]; nothing is written when no path changed. *)
Definition saveAuction (env : Env) (id : ObjectId) (before after : Auction) : Tx Auction :=
  match validateAuction after with
  | [] =>
      if bool_decide (after = before) then ret after
      else
        _ <- storageCall env OpSave ;;
        let saved := set_updatedAt (now env) after in
        fun s => bind (writeView {| auctions := <[id := saved]> (auctions (view s));
                                    bids := bids (view s) |})
                      (fun _ => ret saved) s
  | msgs => throw (validationError "Auction" msgs)
  end.

Definition baseUpdates : list string :=
  ["title"; "description"; "imageUrl"; "images"; "category"; "location"; "documents"].

Definition updateAuctionTry (env : Env) (auctionId : string) (user : ReqUser)
    (body : UpdateBody) : Tx AuctionReply :=
  let userId := user_id user in
  let isAdmin := user_isAdmin user in
  if negb (isValid auctionId) then ret (Next (httpError 400 "Invalid auction ID format"))
  else
    found <- findById env auctionId ;;
    match found with
    | None => ret (Next (httpError 404 "Auction not found"))
    | Some a =>
        if negb (sellerIs (seller a) userId) && negb isAdmin then
          ret (Next (httpError 403 "Not authorized to update this auction"))
        else
          let currentStatus := status (now env) a in
          if bool_decide (currentStatus = ended) && negb isAdmin then
            ret (Next (httpError 400 "Cannot update an ended auction"))
          else
            let changesStartingBid :=
              match b_startingBid body with
              | Some v => bool_decide (startingBid a <> v)
              | None => false
              end in
            if changesStartingBid
               && (bool_decide (currentStatus = active)
                   || bool_decide (currentStatus = ended)
                   || (0 <? bidCount a))
               && negb isAdmin then
              ret (Next (httpError 400
                     "Cannot change starting bid after auction starts or receives bids"))
            else
              let body1 :=
                match b_startingBid body with
                | Some v =>
                    if changesStartingBid && bool_decide (bidCount a = 0)
                    then body_with_currentBid v body else body
                | None => body
                end in
              let timesAllowed :=
                isAdmin || (bool_decide (currentStatus = upcoming)
                            && sellerIs (seller a) userId) in
              let newEndTime := default (endTime a) (b_endTime body1) in
              let newStartTime := default (startTime a) (b_startTime body1) in
              if timesAllowed && dateLe newEndTime newStartTime then
                ret (Next (httpError 400 "End time must be after start time"))
              else
                let allowed1 : list string :=
                  (baseUpdates
                   ++ (if timesAllowed then ["endTime"; "startTime"] else []))%list in
                let allowedUpdates : list string :=
                  (allowed1
                   ++ (if isAdmin || (bool_decide (currentStatus = upcoming)
                                      && sellerIs (seller a) userId
                                      && bool_decide (bidCount a = 0))
                       then ["startingBid"] else []))%list in
                saved <- saveAuction env auctionId a (applyUpdates allowedUpdates body1 a) ;;
                ret (Json 200 "Auction updated successfully" (Some saved))
    end.

Definition updateAuction (env : Env) (auctionId : string) (user : ReqUser)
    (body : UpdateBody) (db : DB) : AuctionReply * DB :=
  runHandler catchValidation (updateAuctionTry env auctionId user body) db.

(** [Auction.findByIdAndDelete(id)]. *)
Definition findByIdAndDelete (env : Env) (id : ObjectId) : Tx unit :=
  _ <- storageCall env OpFindByIdAndDelete ;;
  fun s => writeView {| auctions := delete id (auctions (view s)); bids := bids (view s) |} s.

Definition deleteAuctionTry (env : Env) (auctionId : string) (user : ReqUser)
  : Tx AuctionReply :=
  let userId := user_id user in
  let isAdmin := user_isAdmin user in
  if negb (isValid auctionId) then ret (Next (httpError 400 "Invalid auction ID format"))
  else
    found <- findById env auctionId ;;
    match found with
    | None => ret (Next (httpError 404 "Auction not found"))
    | Some a =>
        if negb (sellerIs (seller a) userId) && negb isAdmin then
          ret (Next (httpError 403 "Not authorized to delete this auction"))
        else
          let currentStatus := status (now env) a in
          if bool_decide (currentStatus ∈ [active; ended])
             && (0 <? bidCount a) && negb isAdmin then
            ret (Next (httpError 400
                   "Cannot delete an auction that is active or ended with bids"))
          else
            _ <- findByIdAndDelete env auctionId ;;
            ret (Json 200 "Auction deleted successfully" None)
    end.

Definition deleteAuction (env : Env) (auctionId : string) (user : ReqUser) (db : DB)
  : AuctionReply * DB :=
  runHandler catchError (deleteAuctionTry env auctionId user) db.

(** [likerId.equals(userId)]. *)
Definition idEquals (likerId : ObjectId) (userId : JsId) : bool :=
  match castObjectId userId with
  | Some o => bool_decide (likerId = o)
  | None => false
  end.

(** [{ $pull: { likedBy: userId } }] and
    [{ $addToSet: { likedBy: userId } }] on the array. *)
Definition pull (userId : ObjectId) (l : list ObjectId) : list ObjectId :=
  filter (fun x => x <> userId) l.

Definition addToSet (userId : ObjectId) (l : list ObjectId) : list ObjectId :=
  if bool_decide (userId ∈ l) then l else l ++ [userId].

Definition toggleLikeAuctionTry (env : Env) (auctionId : string) (user : ReqUser)
  : Tx AuctionReply :=
  let userId := user_id user in
  if negb (isValid auctionId) then ret (Next (httpError 400 "Invalid auction ID format"))
  else
    found <- findById env auctionId ;;
    match found with
    | None => ret (Next (httpError 404 "Auction not found"))
    | Some a =>
        let isLiked := existsb (fun likerId => idEquals likerId userId) (likedBy a) in
        uid <- castId "likedBy" userId ;;
        if isLiked then
          updated <- findByIdAndUpdate env auctionId
                       (fun d => set_likedBy (pull uid (likedBy d)) d) ;;
          ret (Json 200 "Auction unliked successfully" updated)
        else
          updated <- findByIdAndUpdate env auctionId
                       (fun d => set_likedBy (addToSet uid (likedBy d)) d) ;;
          ret (Json 200 "Auction liked successfully" updated)
    end.

Definition toggleLikeAuction (env : Env) (auctionId : string) (user : ReqUser) (db : DB)
  : AuctionReply * DB :=
  runHandler catchError (toggleLikeAuctionTry env auctionId user) db.

(** *** Reads

    [populate] replaces a reference by the user document it names, cut
    down to [_id] and the selected paths that the schema of User has;
    the reference becomes null when no user has this id. *)

(** The part of a stored user that the handlers select from. *)
Record Profile := {
  p_name : string;
  p_email : string;
  p_profilePictureUrl : option string
}.

Record PopulatedUser := {
  pu_id : ObjectId;
  pu_name : option string;
  pu_email : option string;
  pu_profilePictureUrl : option (option string)
}.

Definition selectUser (select : list string) (id : ObjectId) (u : Profile) : PopulatedUser :=
  {| pu_id := id;
     pu_name := if bool_decide ("name" ∈ select) then Some (p_name u) else None;
     pu_email := if bool_decide ("email" ∈ select) then Some (p_email u) else None;
     pu_profilePictureUrl :=
       if bool_decide ("profilePictureUrl" ∈ select) then Some (p_profilePictureUrl u)
       else None |}.

Definition populate (users : gmap ObjectId Profile) (select : list string) (id : ObjectId)
  : option PopulatedUser :=
  selectUser select id <$> users !! id.

(** [AuctionSchema.methods.incrementViews]:
    [updateOne({ _id }, { $inc: { views: 1 } })], which under the
    [timestamps] option also sets [updatedAt], and matches nothing when
    the auction is gone.  [failure] is the error the call rejects
    with, when it does. *)
Definition incrementViews (env : Env) (failure : option JsError) (id : ObjectId) : Tx unit :=
  match failure with
  | Some error => throw error
  | None =>
      fun s =>
        match auctions (view s) !! id with
        | Some d =>
            writeView {| auctions := <[id := set_updatedAt (now env)
                                               (set_views (views d + 1) d)]>
                                       (auctions (view s));
                         bids := bids (view s) |} s
        | None => ret tt s
        end
  end.

(** [getAuctionById]: the answer carries the auction with [seller] and
    [highestBidder] populated. *)
Record AuctionDetail := {
  d_auction : Auction;
  d_seller : option PopulatedUser;
  d_highestBidder : option PopulatedUser
}.

Inductive DetailReply :=
| DetailJson (code : Z) (data : AuctionDetail)
| DetailNext (error : JsError).

(** [if (!error.statusCode) error.statusCode = 500]. *)
Definition withStatusCode (error : JsError) : JsError :=
  match err_statusCode error with
  | Some _ => error
  | None => {| err_name := err_name error; err_message := err_message error;
               err_statusCode := Some 500; err_errors := err_errors error |}
  end.

(** The handler does not await [auction.incrementViews()]: the answer
    is serialised from the document as it was read, the update follows,
    and its rejection is logged and dropped. *)
Definition getAuctionById (users : gmap ObjectId Profile) (env : Env)
    (viewFailure : option JsError) (auctionId : string) (db : DB) : DetailReply * DB :=
  if negb (isValid auctionId) then (DetailNext (httpError 400 "Invalid auction ID format"), db)
  else
    match findById env auctionId (startSession db) with
    | (inl error, s) => (DetailNext (withStatusCode error), store s)
    | (inr None, s) => (DetailNext (httpError 404 "Auction not found"), store s)
    | (inr (Some a), s) =>
        let data :=
          {| d_auction := a;
             d_seller := populate users ["fullName"; "profilePictureUrl"; "email"] (seller a);
             d_highestBidder := highestBidder a ≫= populate users ["fullName"] |} in
        (DetailJson 200 data, store (incrementViews env viewFailure auctionId s).2)
    end.

(** *** Any sequence of requests *)

Inductive Call :=
| CallPlaceBid (req : BidRequest)
| CallCreateAuction (user : ReqUser) (body : CreateBody)
| CallUpdateAuction (auctionId : string) (user : ReqUser) (body : UpdateBody)
| CallDeleteAuction (auctionId : string) (user : ReqUser)
| CallToggleLikeAuction (auctionId : string) (user : ReqUser)
| CallGetAuctionById (auctionId : string) (viewFailure : option JsError).

(** The database one request leaves. *)
Definition step (users : gmap ObjectId Profile) (env : Env) (call : Call) (db : DB) : DB :=
  match call with
  | CallPlaceBid req => (placeBid env req db).2
  | CallCreateAuction user body => (createAuction env user body db).2
  | CallUpdateAuction auctionId user body => (updateAuction env auctionId user body db).2
  | CallDeleteAuction auctionId user => (deleteAuction env auctionId user db).2
  | CallToggleLikeAuction auctionId user => (toggleLikeAuction env auctionId user db).2
  | CallGetAuctionById auctionId viewFailure =>
      (getAuctionById users env viewFailure auctionId db).2
  end.

(** Requests served one after the other, each in its own environment. *)
Definition run (users : gmap ObjectId Profile) (calls : list (Env * Call)) (db : DB) : DB :=
  foldl (fun acc call => step users call.1 call.2 acc) db calls.

(** The ids that the [createAuction] requests of a sequence draw. *)
Definition createIds (calls : list (Env * Call)) : list ObjectId :=
  omap (fun call => match call.2 with
                    | CallCreateAuction _ _ => Some (newId call.1)
                    | _ => None
                    end) calls.

(** *** bidController: the listings *)

(** [.sort({ createdAt: -1 })]: a Bid comes no later in the listing
    than the Bids created before it. *)
Definition newerFirst (b1 b2 : Bid) : Prop := bid_createdAt b2 <= bid_createdAt b1.

Global Instance newerFirst_dec : RelDecision newerFirst.
Proof. intros b1 b2. unfold newerFirst. apply _. Defined.

Definition sortNewestFirst (l : list Bid) : list Bid := merge_sort newerFirst l.

(** A Bid with [bidder] populated. *)
Record PopulatedBid := { pb_bid : Bid; pb_bidder : option PopulatedUser }.

Inductive BidsReply :=
| BidsJson (count : nat) (listed : list PopulatedBid)
| BidsFailed (reply : BidReply).

(** [getBidsForAuction].  [findFailure] is the error [Bid.find] rejects
    with, when it does. *)
Definition getBidsForAuction (users : gmap ObjectId Profile) (env : Env)
    (findFailure : option JsError) (auctionId : string) (db : DB) : BidsReply :=
  if negb (isValid auctionId) then BidsFailed (rejection 400 "Invalid Auction ID format.")
  else
    match findById env auctionId (startSession db) with
    | (inl error, _) => BidsFailed (handleServerError env error "Failed to retrieve bids.")
    | (inr None, _) => BidsFailed (rejection 404 "Auction not found.")
    | (inr (Some _), _) =>
        match findFailure with
        | Some error => BidsFailed (handleServerError env error "Failed to retrieve bids.")
        | None =>
            let found := sortNewestFirst (filter (fun b => auction b = auctionId) (bids db)) in
            let listed :=
              (fun b => {| pb_bid := b;
                           pb_bidder := populate users ["name"; "profilePictureUrl"; "_id"]
                                          (bidder b) |}) <$> found in
            BidsJson (length listed) listed
        end
    end.

(** The auction a Bid of [getMyBids] is populated with: the selection
    [title imageUrl endTime currentBid status highestBidder] and the
    [status] virtual that [toObject] adds.  The selection leaves
    [startTime] out, so the getter reads [this.startTime] as undefined,
    of which [new Date] makes an Invalid Date. *)
Record PopulatedAuction := {
  pa_id : ObjectId;
  pa_title : string;
  pa_imageUrl : option string;
  pa_endTime : JsDate;
  pa_currentBid : Qc;
  pa_highestBidder : option ObjectId;
  pa_status : Status
}.

Definition selectForBid (now_ : Z) (id : ObjectId) (a : Auction) : PopulatedAuction :=
  {| pa_id := id; pa_title := title a; pa_imageUrl := imageUrl a; pa_endTime := endTime a;
     pa_currentBid := currentBid a; pa_highestBidder := highestBidder a;
     pa_status := status now_ (set_startTime None a) |}.

(** An entry of the answer of [getMyBids]; the auction is null when it
    was deleted. *)
Record MyBid := {
  mb_bid : Bid;
  mb_auction : option PopulatedAuction;
  mb_isHighestBidder : bool
}.

Inductive MyBidsReply :=
| MyBidsJson (count : nat) (listed : list MyBid)
| MyBidsFailed (reply : BidReply).

(** [bidObj.auction.highestBidder?.toString() === userId], false when
    the auction is missing. *)
Definition isHighestBidder (userId : JsId) (populated : option PopulatedAuction) : bool :=
  match populated with
  | Some p =>
      match pa_highestBidder p with
      | Some h => sellerIs h userId
      | None => false
      end
  | None => false
  end.

(** [getMyBids]: the query casts [userId] to an ObjectId. *)
Definition getMyBids (env : Env) (findFailure : option JsError) (user : ReqUser) (db : DB)
  : MyBidsReply :=
  let userId := user_id user in
  match castObjectId userId with
  | None =>
      MyBidsFailed (handleServerError env (castError "bidder") "Failed to retrieve your bids.")
  | Some uid =>
      match findFailure with
      | Some error =>
          MyBidsFailed (handleServerError env error "Failed to retrieve your bids.")
      | None =>
          let found := sortNewestFirst (filter (fun b => bidder b = uid) (bids db)) in
          let bidsWithStatus :=
            (fun b =>
               let populated :=
                 selectForBid (now env) (auction b) <$> auctions db !! auction b in
               {| mb_bid := b; mb_auction := populated;
                  mb_isHighestBidder := isHighestBidder userId populated |}) <$> found in
          MyBidsJson (length bidsWithStatus) bidsWithStatus
      end
  end.

(** *** The client: [getBidStatus] of dateUtils.ts *)

(** A value that is undefined, null or a string. *)
Inductive JsRef := RefUndefined | RefNull | RefString (s : string).

Global Instance JsRef_eq_dec : EqDecision JsRef.
Proof. solve_decision. Defined.

(** [bid.auction]: a populated object with its [status] and
    [highestBidder], a string, or a falsy value. *)
Inductive AuctionField :=
| AuctionObject (auctionStatus : JsRef) (highestBidderId : JsRef)
| AuctionId (s : string)
| AuctionAbsent.

(** [bid.bidder]: a string, an object with its [_id], or nothing. *)
Inductive BidderField :=
| BidderId (s : string)
| BidderObject (_id : JsRef)
| BidderAbsent.

Record IBid := {
  ib_auction : AuctionField;
  ib_bidder : BidderField;
  ib_isHighestBidder : option bool
}.

Inductive BidStatus := winning | outbid | won | lost | bidEnded | unknown.

Definition getBidStatus (bid : option IBid) (userId : option string) : BidStatus :=
  match bid with
  | None => unknown
  | Some bid =>
      match ib_auction bid with
      | AuctionAbsent => unknown
      | AuctionId s => unknown
      | AuctionObject auctionStatus highestBidderId =>
          if negb (truthy userId) then unknown
          else
            let bidderId :=
              match ib_bidder bid with
              | BidderId s => RefString s
              | BidderObject i => i
              | BidderAbsent => RefUndefined
              end in
            if bool_decide (auctionStatus = RefString "ended") then
              if bool_decide (highestBidderId = bidderId) then won else lost
            else if bool_decide (auctionStatus = RefString "active")
                    || bool_decide (auctionStatus = RefString "ending-soon") then
              if bool_decide (ib_isHighestBidder bid = Some true) then winning else outbid
            else unknown
      end
  end.

(** What [res.json] sends of an entry of [getMyBids]. *)
Definition myBidJson (entry : MyBid) : IBid :=
  {| ib_auction :=
       match mb_auction entry with
       | Some p =>
           AuctionObject (RefString (statusName (pa_status p)))
             (from_option RefString RefNull (pa_highestBidder p))
       | None => AuctionAbsent
       end;
     ib_bidder := BidderId (bidder (mb_bid entry));
     ib_isHighestBidder := Some (mb_isHighestBidder entry) |}.

(** *** auctionController: the listing *)

(** What the listing takes from the language: [parseInt(s, 10)] and
    [parseFloat(s)], [None] for NaN, and the error [new RegExp(s, "i")]
    throws when it does not accept the pattern. *)
Record QueryRuntime := {
  parseInt10 : string -> option Z;
  parseFloat : string -> option Qc;
  regExpError : string -> option JsError
}.

(** [req.query] of [listAuctions]: each parameter absent or a string. *)
Record ListQuery := {
  q_page : option string;
  q_limit : option string;
  q_sortBy : option string;
  q_sortOrder : option string;
  q_category : option string;
  q_sellerId : option string;
  q_minPrice : option string;
  q_maxPrice : option string;
  q_status : option string;
  q_search : option string
}.

(** What [parseQueryOptions] returns; [sortOptions] has one key. *)
Record QueryOptions := {
  o_page : Z;
  o_limit : option Z;
  o_skip : option Z;
  o_sortOptions : string * Z
}.

(** [n || d] on numbers: [d] when [n] is NaN or 0. *)
Definition orNumber (n d : option Z) : option Z :=
  match n with
  | Some v => if bool_decide (v = 0) then d else Some v
  | None => d
  end.

Definition parseQueryOptions (js : QueryRuntime) (defaultPageLimit : option string)
    (query : ListQuery)
  : QueryOptions :=
  let page := default 1 (orNumber (q_page query ≫= parseInt10 js) (Some 1)) in
  let limit :=
    orNumber (q_limit query ≫= parseInt10 js)
      (parseInt10 js
         (if truthy defaultPageLimit then default "" defaultPageLimit else "10")) in
  let skip := (fun l => (page - 1) * l) <$> limit in
  let sortOptions :=
    if truthy (q_sortBy query) then
      (default "" (q_sortBy query),
       if bool_decide (q_sortOrder query = Some "desc") then -1 else 1)
    else ("endTime", 1) in
  {| o_page := page; o_limit := limit; o_skip := skip; o_sortOptions := sortOptions |}.

(** A condition of the filter on a date: [{ $gt: t }] or [{ $lte: t }]. *)
Inductive DateTest := DateGt (t : Z) | DateLte (t : Z).

Record Filter := {
  f_category : option string;
  f_seller : option string;
  f_minPrice : option (option Qc);
  f_maxPrice : option (option Qc);
  f_startTime : option DateTest;
  f_endTime : option DateTest;
  f_search : option string
}.

(** The query [listAuctions] has prepared when it calls [Auction.find]. *)
Record ListPlan := { l_options : QueryOptions; l_filter : Filter }.

Definition thrown (name msg : string) : JsError :=
  {| err_name := name; err_message := msg; err_statusCode := None; err_errors := [] |}.

(** [listAuctions] up to its query: the error it hands to [next], or
    the options and the filter.  [sortOptions] is declared [const], and
    each branch of the status filter that is taken without [sortBy]
    assigns to it. *)
Definition listAuctionsQuery (js : QueryRuntime) (defaultPageLimit : option string)
    (now_ : Z) (query : ListQuery)
  : JsError + ListPlan :=
  let options := parseQueryOptions js defaultPageLimit query in
  if truthy (q_sellerId query) && negb (isValid (default "" (q_sellerId query))) then
    inl (httpError 400 "Invalid seller ID format")
  else
    let '(startTest, endTest, assigns) :=
      if truthy (q_status query) then
        let st := default "" (q_status query) in
        if bool_decide (st = "upcoming") then (Some (DateGt now_), None, true)
        else if bool_decide (st = "active") || bool_decide (st = "ending-soon") then
          (Some (DateLte now_), Some (DateGt now_), true)
        else if bool_decide (st = "ended") then (None, Some (DateLte now_), true)
        else (None, None, false)
      else (Some (DateLte now_), Some (DateGt now_), true) in
    if assigns && negb (truthy (q_sortBy query)) then
      inl (withStatusCode (thrown "TypeError" "Assignment to constant variable."))
    else
      match (if truthy (q_search query)
             then regExpError js (default "" (q_search query)) else None) with
      | Some error => inl (withStatusCode error)
      | None =>
      inr {| l_options := options;
             l_filter :=
               {| f_category := if truthy (q_category query) then q_category query else None;
                  f_seller := if truthy (q_sellerId query) then q_sellerId query else None;
                  f_minPrice := if truthy (q_minPrice query)
                                then Some (q_minPrice query ≫= parseFloat js) else None;
                  f_maxPrice := if truthy (q_maxPrice query)
                                then Some (q_maxPrice query ≫= parseFloat js) else None;
                  f_startTime := startTest;
                  f_endTime := endTest;
                  f_search := if truthy (q_search query) then q_search query else None |} |}
      end.

(** Whether a stored date passes a condition of the filter. *)
Definition dateTest (test : option DateTest) (d : JsDate) : bool :=
  match test, d with
  | None, _ => true
  | Some (DateGt t), Some v => t <? v
  | Some (DateLte t), Some v => v <=? t
  | Some _, None => false
  end.

(** Whether an auction passes the conditions of the filter on its
    times. *)
Definition inWindow (f : Filter) (a : Auction) : bool :=
  dateTest (f_startTime f) (startTime a) && dateTest (f_endTime f) (endTime a).

(** *** The routers

    A router tries its routes in the order of their registration and
    hands the request to the first whose method and path match.  The
    controllers of this repository answer or hand an error to [next];
    none passes the request on to a later route. *)

Inductive Method := GET | POST | PUT | DELETE | PATCH.

Global Instance Method_eq_dec : EqDecision Method.
Proof. solve_decision. Defined.

(** A segment of the path of a route: text, or a named parameter. *)
Inductive Segment := Literal (text : string) | Param (name : string).

Inductive Controller :=
| ListAuctions | GetAuctionById | CreateAuction | UpdateAuction | DeleteAuction
| ToggleLikeAuction | GetMyAuctions | GetLikedAuctions
| PlaceBid | GetBidsForAuction | GetMyBids.

Record Route := {
  r_method : Method;
  r_path : list Segment;
  r_protect : bool;
  r_controller : Controller
}.

(** Text is compared without regard to case. *)
Definition lowerAscii (c : ascii) : ascii :=
  let n := nat_of_ascii c in
  if ((65 <=? n)%nat && (n <=? 90)%nat)%bool then ascii_of_nat (n + 32) else c.

Fixpoint lower (s : string) : string :=
  match s with
  | EmptyString => EmptyString
  | String c rest => String (lowerAscii c) (lower rest)
  end.

(** The parameters a path gives to a route, when it matches: the path
    is the list of its segments below the mount point. *)
Fixpoint matchPath (pattern : list Segment) (path : list string)
  : option (list (string * string)) :=
  match pattern, path with
  | [], [] => Some []
  | Literal text :: pattern, s :: path =>
      if bool_decide (lower s = lower text) then matchPath pattern path else None
  | Param name :: pattern, s :: path =>
      if bool_decide (s = "") then None
      else (fun params => (name, s) :: params) <$> matchPath pattern path
  | _, _ => None
  end.

Fixpoint dispatch (routes : list Route) (method : Method) (path : list string)
  : option (Route * list (string * string)) :=
  match routes with
  | [] => None
  | r :: rest =>
      if bool_decide (r_method r = method) then
        match matchPath (r_path r) path with
        | Some params => Some (r, params)
        | None => dispatch rest method path
        end
      else dispatch rest method path
  end.

(** [req.params[name]]. *)
Definition param (name : string) (params : list (string * string)) : option string :=
  snd <$> List.find (fun p => bool_decide (p.1 = name)) params.

(** routes/auctionRoutes.js, mounted on [/api/auctions/]. *)
Definition auctionRoutes : list Route :=
  [ {| r_method := GET; r_path := []; r_protect := false; r_controller := ListAuctions |};
    {| r_method := GET; r_path := [Param "id"]; r_protect := false;
       r_controller := GetAuctionById |};
    {| r_method := POST; r_path := []; r_protect := true; r_controller := CreateAuction |};
    {| r_method := PUT; r_path := [Param "id"]; r_protect := true;
       r_controller := UpdateAuction |};
    {| r_method := DELETE; r_path := [Param "id"]; r_protect := true;
       r_controller := DeleteAuction |};
    {| r_method := PATCH; r_path := [Param "id"; Literal "like"]; r_protect := true;
       r_controller := ToggleLikeAuction |};
    {| r_method := GET; r_path := [Literal "my-auctions"]; r_protect := true;
       r_controller := GetMyAuctions |};
    {| r_method := GET; r_path := [Literal "liked-auctions"]; r_protect := true;
       r_controller := GetLikedAuctions |} ].

(** routes/bidRoutes.js, mounted on [/api/bids/]: a path without a
    parameter, so that the router inherits none. *)
Definition bidRoutes : list Route :=
  [ {| r_method := POST; r_path := []; r_protect := true; r_controller := PlaceBid |};
    {| r_method := GET; r_path := []; r_protect := false;
       r_controller := GetBidsForAuction |};
    {| r_method := GET; r_path := [Literal "me"]; r_protect := true;
       r_controller := GetMyBids |} ].

(** [placeBid] and [getBidsForAuction] as the router calls them:
    [auctionId] is [req.params.auctionId], and [isValid] refuses
    undefined. *)
Definition placeBidRouted (env : Env) (params : list (string * string))
    (amount : option Qc) (user : ReqUser) (db : DB) : BidReply * DB :=
  match param "auctionId" params with
  | Some auctionId =>
      placeBid env {| req_auctionId := auctionId; req_amount := amount; req_user := user |} db
  | None => (rejection 400 "Invalid Auction ID format.", db)
  end.

Definition getBidsForAuctionRouted (users : gmap ObjectId Profile) (env : Env)
    (findFailure : option JsError) (params : list (string * string)) (db : DB) : BidsReply :=
  match param "auctionId" params with
  | Some auctionId => getBidsForAuction users env findFailure auctionId db
  | None => BidsFailed (rejection 400 "Invalid Auction ID format.")
  end.

(** ** Notions used in the statements *)

(** The string an id value denotes. *)
Definition idValue (v : JsId) : string :=
  match v with IdString s => s | IdObject o => o end.

(** The Bid records that reference auction [id], oldest first. *)
Definition bidsOn (id : ObjectId) (db : DB) : list Bid :=
  filter (fun b => auction b = id) (bids db).

(** [b] is a bid of [l] with the greatest amount. *)
Definition IsMaxBid (b : Bid) (l : list Bid) : Prop :=
  b ∈ l /\ forall b', b' ∈ l -> (amount b' ≤ amount b)%Qc.

(** The denormalised bid state of auction [id] agrees with the Bid
    collection. *)
Definition Consistent (id : ObjectId) (db : DB) : Prop :=
  exists a,
    auctions db !! id = Some a
    /\ bidCount a = Z.of_nat (length (bidsOn id db))
    /\ (bidsOn id db = [] -> currentBid a = startingBid a /\ highestBidder a = None)
    /\ (bidsOn id db <> [] -> exists b, IsMaxBid b (bidsOn id db))
    /\ (forall b, IsMaxBid b (bidsOn id db) ->
          currentBid a = amount b /\ highestBidder a = Some (bidder b)).

(** The form in which [placeBid] maintains it: the bids on [id] have
    strictly increasing amounts, and the auction carries the last. *)
Definition LogInvariant (id : ObjectId) (db : DB) : Prop :=
  exists a,
    auctions db !! id = Some a
    /\ bidCount a = Z.of_nat (length (bidsOn id db))
    /\ ((bidsOn id db = [] /\ currentBid a = startingBid a /\ highestBidder a = None)
        \/ exists older b,
             bidsOn id db = (older ++ [b])%list
             /\ Forall (fun b' => (amount b' < amount b)%Qc) older
             /\ currentBid a = amount b
             /\ highestBidder a = Some (bidder b)).

(** The array a toggle leaves. *)
Definition toggled (uid : ObjectId) (l : list ObjectId) : list ObjectId :=
  if bool_decide (uid ∈ l) then pull uid l else addToSet uid l.

(** A sequence of [placeBid] requests, each in its own environment. *)
Definition runBids (calls : list (Env * BidRequest)) (db : DB) : DB :=
  foldl (fun acc call => (placeBid call.1 call.2 acc).2) db calls.

(** No storage call rejects. *)
Definition noFault (env : Env) : Prop := forall op, fault env op = None.

(** The place of a status in the life of an auction. *)
Definition statusRank (s : Status) : Z :=
  match s with
  | upcoming => 0
  | active => 1
  | ending_soon => 2
  | ended => 3
  | invalid_dates => 4
  end.

(** The fields no key of a request body reaches. *)
Definition bidState (a : Auction) :=
  (currentBid a, highestBidder a, bidCount a, seller a, likedBy a, views a, createdAt a).

(** What every stored auction keeps through the handlers: its bid
    state agrees with the Bids that reference it, which are in
    strictly increasing amounts; no id is listed twice among its likes;
    its price and its views are not negative; and it ends after it
    starts. *)
Definition WellFormed (id : ObjectId) (db : DB) (a : Auction) : Prop :=
  bidCount a = Z.of_nat (length (bidsOn id db))
  /\ ((bidsOn id db = [] /\ highestBidder a = None)
      \/ exists older b,
           bidsOn id db = (older ++ [b])%list
           /\ Forall (fun b' => (amount b' < amount b)%Qc) older
           /\ currentBid a = amount b
           /\ highestBidder a = Some (bidder b))
  /\ NoDup (likedBy a)
  /\ (0 ≤ currentBid a)%Qc
  /\ 0 <= views a
  /\ exists start end_, startTime a = Some start /\ endTime a = Some end_ /\ start < end_.



(** [a'] is a later state of the auction [a]: the same seller and
    creation time, and a price, a bid count and a view count that are
    not less. *)
Definition LaterState (a a' : Auction) : Prop :=
  (currentBid a ≤ currentBid a')%Qc
  /\ bidCount a <= bidCount a'
  /\ views a <= views a'
  /\ seller a' = seller a
  /\ createdAt a' = createdAt a.

(** ** Sample data

    Concrete runtime functions, identities, documents and databases on
    which the statements below are exercised. *)

Definition isHexDigit (c : ascii) : bool :=
  let n := nat_of_ascii c in
  ((48 <=? n) && (n <=? 57) || (97 <=? n) && (n <=? 102))%nat.

Definition isHex24 (s : string) : bool :=
  (String.length s =? 24)%nat && forallb isHexDigit (list_ascii_of_string s).

Definition showOpaque (q : Qc) : string := "#".

Definition noTrim (s : string) : string := s.

Definition lotId : ObjectId := "64a0000000000000000000a1".
Definition sellerOid : ObjectId := "64a0000000000000000000b1".
Definition aliceOid : ObjectId := "64a0000000000000000000c1".
Definition bobOid : ObjectId := "64a0000000000000000000c2".

Definition quietEnv (t : Z) (fresh : ObjectId) : Env :=
  {| now := t; newId := fresh; production := false; fault := fun _ => None |}.

(** An auction open from 1 000 to 10 000 000 ms, with no bid yet. *)
Definition lot (start current : Qc) : Auction :=
  {| title := "Lamp"; description := "A brass lamp"; imageUrl := Some "lamp.png";
     images := []; startingBid := start; currentBid := current;
     highestBidder := None; bidCount := 0; views := 0; likedBy := [];
     seller := sellerOid; startTime := Some 1000; endTime := Some 10000000;
     documents := []; category := None; location := None;
     createdAt := 0; updatedAt := 0 |}.

Definition oneLot (a : Auction) : DB := {| auctions := {[ lotId := a ]}; bids := [] |}.

Definition emptyDB : DB := {| auctions := ∅; bids := [] |}.

Definition bidOf (who : JsId) (amt : Qc) : BidRequest :=
  {| req_auctionId := lotId; req_amount := Some amt;
     req_user := {| user_id := who; user_isAdmin := false |} |}.

Definition bidId1 : ObjectId := "64a0000000000000000000d1".
Definition bidId2 : ObjectId := "64a0000000000000000000d2".
Definition bidId3 : ObjectId := "64a0000000000000000000d3".

Definition tenLot : Auction := lot (Qc_of_Z 10) (Qc_of_Z 10).

(** A lot that starts at a tenth of a cent. *)
Definition milliLot : Auction := lot (Q2Qc (1 # 1000)) (Q2Qc (1 # 1000)).

Definition lampBody : CreateBody :=
  {| c_title := Some "Lamp"; c_description := Some "A brass lamp";
     c_startingBid := Some (Qc_of_Z 10);
     c_endTime := Some (Some 10000000); c_startTime := Some (Some 1000);
     c_imageUrl := Some "lamp.png"; c_images := None;
     c_category := None; c_location := None; c_documents := None |}.

Definition newStartingBid (v : Qc) : UpdateBody :=
  {| b_title := None; b_description := None; b_imageUrl := None; b_images := None;
     b_category := None; b_location := None; b_documents := None;
     b_endTime := None; b_startTime := None;
     b_startingBid := Some v; b_currentBid := None |}.

Definition sellerUser : User :=
  {| u_id := sellerOid; u_isAdmin := false; u_isBanned := false |}.

Definition adminUser : User :=
  {| u_id := aliceOid; u_isAdmin := true; u_isBanned := false |}.

(** A reading of [parseInt(s, 10)] and [parseFloat(s)] on unsigned
    decimal numerals, with a [RegExp] that accepts every pattern. *)
Fixpoint digitsValue (acc : Z) (s : string) : option Z :=
  match s with
  | EmptyString => Some acc
  | String c rest =>
      let n := Z.of_nat (nat_of_ascii c) in
      if (48 <=? n) && (n <=? 57) then digitsValue (10 * acc + (n - 48)) rest else None
  end.

Definition decimal (s : string) : option Z :=
  if bool_decide (s = "") then None else digitsValue 0 s.

Definition decimalPrice (s : string) : option Qc := Qc_of_Z <$> decimal s.

Definition sampleRuntime : QueryRuntime :=
  {| parseInt10 := decimal; parseFloat := decimalPrice; regExpError := fun _ => None |}.

(** Two profiles. *)
Definition sampleUsers : gmap ObjectId Profile :=
  {[ sellerOid := {| p_name := "Sam"; p_email := "sam@example.org";
                     p_profilePictureUrl := None |};
     bobOid := {| p_name := "Bob"; p_email := "bob@example.org";
                  p_profilePictureUrl := Some "bob.png" |} ]}.

(** The sample lot after a bid of 15 by Bob at 2 000 ms. *)
Definition bidLot : Auction :=
  set_updatedAt 2000 (bidUpdate (Qc_of_Z 15) bobOid tenLot).

Definition bobBid : Bid := newBidDoc (quietEnv 2000 bidId1) lotId bobOid (Qc_of_Z 15).

Definition bidDB : DB := {| auctions := {[ lotId := bidLot ]}; bids := [bobBid] |}.

Definition bobUser : User := {| u_id := bobOid; u_isAdmin := false; u_isBanned := false |}.

(** A request for the listing with no parameter, and one for the
    auctions that are ending soon, sorted by end time. *)
Definition noQuery : ListQuery :=
  {| q_page := None; q_limit := None; q_sortBy := None; q_sortOrder := None;
     q_category := None; q_sellerId := None; q_minPrice := None; q_maxPrice := None;
     q_status := None; q_search := None |}.

Definition endingSoonQuery : ListQuery :=
  {| q_page := None; q_limit := Some "12"; q_sortBy := Some "endTime";
     q_sortOrder := Some "asc"; q_category := None; q_sellerId := None;
     q_minPrice := None; q_maxPrice := None; q_status := Some "ending-soon";
     q_search := None |}.

(** A day in the life of the lamp: listed, bid on, liked, viewed,
    retitled by an admin, bid on again, and a second listing that draws
    the next id. *)
Definition retitle : UpdateBody :=
  {| b_title := Some "Brass lamp"; b_description := None; b_imageUrl := None;
     b_images := None; b_category := None; b_location := None; b_documents := None;
     b_endTime := None; b_startTime := None; b_startingBid := None; b_currentBid := None |}.

Definition lampDay : list (Env * Call) :=
  [ (quietEnv 0 lotId,
     CallCreateAuction {| user_id := IdObject sellerOid; user_isAdmin := false |} lampBody);
    (quietEnv 2000 bidId1, CallPlaceBid (bidOf (IdObject bobOid) (Qc_of_Z 15)));
    (quietEnv 2500 bidId1,
     CallToggleLikeAuction lotId {| user_id := IdObject aliceOid; user_isAdmin := false |});
    (quietEnv 2600 bidId1, CallGetAuctionById lotId None);
    (quietEnv 2700 bidId1,
     CallUpdateAuction lotId {| user_id := IdObject aliceOid; user_isAdmin := true |}
       retitle);
    (quietEnv 3000 bidId2, CallPlaceBid (bidOf (IdObject aliceOid) (Qc_of_Z 20)));
    (quietEnv 3500 bidId3,
     CallCreateAuction {| user_id := IdObject bobOid; user_isAdmin := false |} lampBody) ].

(** * Properties *)

Local Open Scope list_scope.

(** Drops the runtime functions a statement does not mention. *)
Ltac clear_runtime :=
  try clear trim; try clear numberToString; try clear isValid.

(** Opens the session: the storage calls and the monad, down to
    functions on the store and the working copy. *)
Ltac open_session :=
  unfold runHandler, bind, findById, findByIdAndUpdate, findByIdAndDelete, saveBid,
    saveAuction, insertAuction, commitTransaction, castId, storageCall, writeView, bind,
    ret, throw, abortTransaction, startTransaction, startSession, view.

(** ** [placeBid] without the session

    The transaction of [placeBid] read as one decision: what it
    answers and the database it leaves, test by test. *)
Lemma placeBid_unfold env req db :
  placeBid env req db =
  let failed error :=
    (handleServerError env error "Failed to place bid due to a server error.", db) in
  if negb (isValid (req_auctionId req)) then (rejection 400 "Invalid Auction ID format.", db)
  else
    match req_amount req with
    | None => (invalidAmount, db)
    | Some amt =>
    if bool_decide (amt ≤ 0)%Qc then (invalidAmount, db) else
    match fault env OpFindById with
    | Some error => failed error
    | None =>
    match auctions db !! req_auctionId req with
    | None => (auctionNotFound, db)
    | Some a =>
    if sellerIs (seller a) (user_id (req_user req)) then (sellerCannotBid, db)
    else if bool_decide (status (now env) a <> active)
            && bool_decide (status (now env) a <> ending_soon)
    then (auctionNotActive (status (now env) a), db)
    else if bool_decide (amt ≤ currentBid a)%Qc then (bidNotHigher a, db)
    else if bool_decide (bidCount a = 0) && bool_decide (amt < startingBid a)%Qc
    then (belowStartingBid a, db)
    else
    match castObjectId (user_id (req_user req)) with
    | None => failed (castError "highestBidder")
    | Some bidderOid =>
    match fault env OpFindByIdAndUpdate with
    | Some error => failed error
    | None =>
    let updatedAuction := set_updatedAt (now env) (bidUpdate amt bidderOid a) in
    let newBid := newBidDoc env (req_auctionId req) bidderOid amt in
    match validateBid newBid with
    | _ :: _ => failed (validationError "Bid" (validateBid newBid))
    | [] =>
    match fault env OpSave with
    | Some error => failed error
    | None =>
    match fault env OpCommit with
    | Some error => failed error
    | None =>
        (bidPlaced newBid (req_auctionId req) updatedAuction,
         {| auctions := <[req_auctionId req := updatedAuction]> (auctions db);
            bids := bids db ++ [newBid] |})
    end end end end end end end end.
Proof.
  unfold placeBid, placeBidTry. open_session.
  cbv zeta.
  repeat (case_match; simplify_eq/=; try reflexivity).
Qed.

(** ** The shape of every execution of [placeBid] *)

(** Every execution of [placeBid] either leaves the database as it was
    and answers with a status other than 201, or answers 201 after
    both writes. *)
Lemma placeBid_outcome env req db :
  (httpStatus (placeBid env req db).1 <> 201 /\ (placeBid env req db).2 = db)
  \/ exists a amt bidderOid,
       auctions db !! req_auctionId req = Some a
       /\ req_amount req = Some amt
       /\ castObjectId (user_id (req_user req)) = Some bidderOid
       /\ sellerIs (seller a) (user_id (req_user req)) = false
       /\ (currentBid a < amt)%Qc
       /\ placeBid env req db =
            (bidPlaced (newBidDoc env (req_auctionId req) bidderOid amt) (req_auctionId req)
               (set_updatedAt (now env) (bidUpdate amt bidderOid a)),
             {| auctions := <[req_auctionId req :=
                               set_updatedAt (now env) (bidUpdate amt bidderOid a)]>
                              (auctions db);
                bids := bids db ++ [newBidDoc env (req_auctionId req) bidderOid amt] |}).
Proof.
  clear_runtime.
  rewrite placeBid_unfold; cbv zeta.
  repeat (case_match; simplify_eq/=); try (left; split; [simpl; lia | reflexivity]).
  right. eexists _, _, _. repeat split; try done.
  apply Qclt_nge. intros Hle. apply (bool_decide_eq_true_2 _) in Hle. congruence.
Qed.

(** C4.  [placeBid] is all-or-nothing.  An execution that does not
    answer 201 (a rejected precondition, a malformed request, or an
    error thrown once the writes have begun) leaves the database exactly
    as it found it; an execution that answers 201 has applied both the
    update of the auction and the insert of the Bid; and so the Bid
    collection changed if and only if the Auction collection did. *)
Theorem placeBid_all_or_nothing env req db :
  (httpStatus (placeBid env req db).1 <> 201 -> (placeBid env req db).2 = db)
  /\ (httpStatus (placeBid env req db).1 = 201 ->
        exists a a' newBid,
          auctions db !! req_auctionId req = Some a
          /\ a' <> a
          /\ auction newBid = req_auctionId req
          /\ r_bid (placeBid env req db).1 = Some newBid
          /\ (placeBid env req db).2 =
               {| auctions := <[req_auctionId req := a']> (auctions db);
                  bids := bids db ++ [newBid] |})
  /\ (bids (placeBid env req db).2 = bids db
       <-> auctions (placeBid env req db).2 = auctions db).
Proof.
  clear_runtime.
  destruct (placeBid_outcome env req db)
    as [[Hcode Hdb] | (a & amt & o & Ha & _ & _ & _ & _ & Heq)].
  - rewrite Hdb. split; [done|]. split; [by intros ?|done].
  - rewrite Heq; simpl.
    assert (Hne : set_updatedAt (now env) (bidUpdate amt o a) <> a).
    { intros E. apply (f_equal bidCount) in E. destruct a; simpl in E. lia. }
    split; [by intros ?|]. split.
    + intros _. eexists a, _, _. by repeat split.
    + split.
      * intros E. apply (f_equal length) in E. rewrite length_app in E. simpl in E. lia.
      * intros E. apply (f_equal (fun m => m !! req_auctionId req)) in E.
        rewrite lookup_insert_eq, Ha in E. congruence.
Qed.

(** Order facts about amounts, in the form the handlers test them. *)
Lemma Qc_le_test_false (x y : Qc) : (y < x)%Qc -> bool_decide (x ≤ y)%Qc = false.
Proof. intros H. apply bool_decide_eq_false_2. by apply Qclt_not_le. Qed.

Lemma Qc_lt_test_false (x y : Qc) : (y ≤ x)%Qc -> bool_decide (x < y)%Qc = false.
Proof. intros H. apply bool_decide_eq_false_2. by apply Qcle_not_lt. Qed.

Lemma biddable_test now_ a :
  status now_ a = active \/ status now_ a = ending_soon ->
  bool_decide (status now_ a <> active) && bool_decide (status now_ a <> ending_soon) = false.
Proof. intros [-> | ->]; reflexivity. Qed.

Lemma first_bid_test a amt :
  ~ (bidCount a = 0 /\ (amt < startingBid a)%Qc) ->
  bool_decide (bidCount a = 0) && bool_decide (amt < startingBid a)%Qc = false.
Proof.
  intros H. apply andb_false_iff.
  destruct (decide (bidCount a = 0)) as [E|E].
  - right. apply bool_decide_eq_false_2. intros Hlt. by apply H.
  - left. by apply bool_decide_eq_false_2.
Qed.

(** C3 (amended).  A request that passes the two input checks and the
    five preconditions, whose amount reaches the minimum of the Bid
    schema (0.01), whose bidder id casts to an ObjectId and whose
    storage calls all succeed, is answered 201 with the new Bid and the
    summary of the updated auction; exactly one Bid is appended, with
    this auction, bidder and amount and the current time; the auction
    gets [currentBid = amount], [highestBidder = bidder],
    [bidCount + 1] and, through the schema's timestamps, [updatedAt =
    now]; every other field keeps its value. *)
Theorem placeBid_success env req db a amt bidderOid :
  isValid (req_auctionId req) = true ->
  req_amount req = Some amt ->
  (0 < amt)%Qc ->
  auctions db !! req_auctionId req = Some a ->
  sellerIs (seller a) (user_id (req_user req)) = false ->
  status (now env) a = active \/ status (now env) a = ending_soon ->
  (currentBid a < amt)%Qc ->
  ~ (bidCount a = 0 /\ (amt < startingBid a)%Qc) ->
  (minBidAmount ≤ amt)%Qc ->
  castObjectId (user_id (req_user req)) = Some bidderOid ->
  noFault env ->
  let newBid := {| bid_id := newId env; auction := req_auctionId req; bidder := bidderOid;
                   amount := amt; bid_createdAt := now env; bid_updatedAt := now env |} in
  exists a',
    placeBid env req db =
      ({| httpStatus := 201; success := true; message := "Bid placed successfully!";
          r_currentBid := None; r_startingBid := None;
          r_bid := Some newBid;
          r_auction := Some {| sum_id := req_auctionId req; sum_currentBid := amt;
                               sum_highestBidder := Some bidderOid;
                               sum_bidCount := bidCount a + 1 |};
          r_error := None |},
       {| auctions := <[req_auctionId req := a']> (auctions db);
          bids := bids db ++ [newBid] |})
    /\ currentBid a' = amt
    /\ highestBidder a' = Some bidderOid
    /\ bidCount a' = bidCount a + 1
    /\ updatedAt a' = now env
    /\ title a' = title a /\ description a' = description a
    /\ imageUrl a' = imageUrl a /\ images a' = images a
    /\ startingBid a' = startingBid a
    /\ views a' = views a /\ likedBy a' = likedBy a /\ seller a' = seller a
    /\ startTime a' = startTime a /\ endTime a' = endTime a
    /\ documents a' = documents a /\ category a' = category a
    /\ location a' = location a /\ createdAt a' = createdAt a.
Proof.
  intros Hvalid Hamt Hpos Ha Hseller Hst Hcur Hfirst Hmin Hcast Hnf newBid.
  exists (set_updatedAt (now env) (bidUpdate amt bidderOid a)).
  split; [|by destruct a].
  pose proof (Qc_le_test_false _ _ Hpos) as T1.
  pose proof (biddable_test _ _ Hst) as T2.
  pose proof (Qc_le_test_false _ _ Hcur) as T3.
  pose proof (first_bid_test _ _ Hfirst) as T4.
  assert (T5 : validateBid (newBidDoc env (req_auctionId req) bidderOid amt) = []).
  { unfold validateBid; simpl. by rewrite (Qc_lt_test_false _ _ Hmin). }
  rewrite placeBid_unfold. cbv zeta.
  rewrite Hvalid, Hamt; simpl. rewrite T1, (Hnf OpFindById), Ha, Hseller, T2, T3, T4, Hcast.
  rewrite (Hnf OpFindByIdAndUpdate), T5, (Hnf OpSave), (Hnf OpCommit).
  destruct a; reflexivity.
Qed.

(** C2 (amended).  For a request that passed the two input checks (a
    well-formed auction id and a positive numeric amount) and whose
    lookup did not fail, [placeBid] tests in this order, each test with
    its own reply and no change of the database: the auction does not
    exist (404); the bidder id is the string form of the seller's id
    (403); for a bidder other than the seller, the status is neither
    active nor ending-soon (400, the status in the message); the amount
    is not above the current bid (400, the current bid in the reply);
    it is a first bid below the starting bid (400, the starting bid in
    the reply). *)
Theorem placeBid_precondition_order env req db amt :
  isValid (req_auctionId req) = true ->
  req_amount req = Some amt ->
  (0 < amt)%Qc ->
  fault env OpFindById = None ->
  (auctions db !! req_auctionId req = None ->
     placeBid env req db = (auctionNotFound, db))
  /\ (forall a, auctions db !! req_auctionId req = Some a ->
        (user_id (req_user req) = IdString (seller a) ->
           placeBid env req db = (sellerCannotBid, db))
        /\ (idValue (user_id (req_user req)) <> seller a ->
             (status (now env) a <> active -> status (now env) a <> ending_soon ->
                placeBid env req db = (auctionNotActive (status (now env) a), db))
             /\ (status (now env) a = active \/ status (now env) a = ending_soon ->
                  ((amt ≤ currentBid a)%Qc ->
                     placeBid env req db = (bidNotHigher a, db))
                  /\ ((currentBid a < amt)%Qc -> bidCount a = 0 ->
                       (amt < startingBid a)%Qc ->
                         placeBid env req db = (belowStartingBid a, db)))))
  /\ (forall a st,
        NoDup [auctionNotFound; sellerCannotBid; auctionNotActive st;
               bidNotHigher a; belowStartingBid a]
        /\ httpStatus auctionNotFound = 404
        /\ httpStatus sellerCannotBid = 403
        /\ auctionNotActive st =
             rejection 400 ("Auction is not active. Status: " ++ statusName st)
        /\ httpStatus (bidNotHigher a) = 400
        /\ r_currentBid (bidNotHigher a) = Some (currentBid a)
        /\ httpStatus (belowStartingBid a) = 400
        /\ r_startingBid (belowStartingBid a) = Some (startingBid a)).
Proof.
  intros Hvalid Hamt Hpos Hfind.
  pose proof (Qc_le_test_false _ _ Hpos) as T1.
  split; [|split].
  - intros Hnone. rewrite placeBid_unfold; cbv zeta.
    by rewrite Hvalid, Hamt; simpl; rewrite T1, Hfind, Hnone.
  - intros a Ha. split.
    + intros Hid. rewrite placeBid_unfold; cbv zeta.
      rewrite Hvalid, Hamt; simpl; rewrite T1, Hfind, Ha, Hid; simpl.
      by rewrite bool_decide_eq_true_2.
    + intros Hother.
      assert (Hs : sellerIs (seller a) (user_id (req_user req)) = false).
      { destruct (user_id (req_user req)); simpl in *; [|done].
        by apply bool_decide_eq_false_2. }
      split; [|intros Hst; split].
      * intros H1 H2. rewrite placeBid_unfold; cbv zeta.
        rewrite Hvalid, Hamt; simpl; rewrite T1, Hfind, Ha, Hs.
        by rewrite (bool_decide_eq_true_2 _ H1), (bool_decide_eq_true_2 _ H2).
      * intros Hle. rewrite placeBid_unfold; cbv zeta.
        rewrite Hvalid, Hamt; simpl; rewrite T1, Hfind, Ha, Hs, (biddable_test _ _ Hst).
        by rewrite (bool_decide_eq_true_2 _ Hle).
      * intros Hlt Hzero Hbelow. rewrite placeBid_unfold; cbv zeta.
        rewrite Hvalid, Hamt; simpl; rewrite T1, Hfind, Ha, Hs, (biddable_test _ _ Hst).
        rewrite (Qc_le_test_false _ _ Hlt).
        by rewrite (bool_decide_eq_true_2 _ Hzero), (bool_decide_eq_true_2 _ Hbelow).
  - intros a st. repeat split.
    repeat (apply NoDup_cons; split;
            [rewrite ?elem_of_cons, elem_of_nil; intros H;
             repeat (destruct H as [H | H]; [discriminate|]); done|]).
    apply NoDup_nil_2.
Qed.

(** C10.  On an auction whose current bid is at least its starting
    bid, the first-bid test of [placeBid] never decides: no reply
    carries the starting bid, none is the starting-bid rejection, an
    accepted amount is above the starting bid, and a bid equal to the
    starting bid that reaches the amount tests is refused by the
    comparison with the current bid. *)
Theorem first_bid_test_unreachable env req db :
  (forall a, auctions db !! req_auctionId req = Some a ->
             (startingBid a ≤ currentBid a)%Qc) ->
  r_startingBid (placeBid env req db).1 = None
  /\ (forall a, (placeBid env req db).1 <> belowStartingBid a)
  /\ (forall a amt,
        auctions db !! req_auctionId req = Some a ->
        req_amount req = Some amt ->
        ((currentBid a < amt)%Qc -> (startingBid a < amt)%Qc)
        /\ (httpStatus (placeBid env req db).1 = 201 -> (startingBid a < amt)%Qc)
        /\ (amt = startingBid a ->
             isValid (req_auctionId req) = true -> (0 < amt)%Qc ->
             fault env OpFindById = None ->
             sellerIs (seller a) (user_id (req_user req)) = false ->
             status (now env) a = active \/ status (now env) a = ending_soon ->
             placeBid env req db = (bidNotHigher a, db))).
Proof.
  clear_runtime.
  intros Hinv.
  assert (Hnone : r_startingBid (placeBid env req db).1 = None).
  { rewrite placeBid_unfold; cbv zeta.
    repeat (case_match; simplify_eq/=); try reflexivity.
    exfalso. pose proof (Hinv _ eq_refl) as Hge.
    repeat match goal with
    | H : _ && _ = true |- _ => apply andb_true_iff in H; destruct H
    | H : bool_decide _ = true |- _ => apply bool_decide_eq_true_1 in H
    | H : bool_decide _ = false |- _ => apply bool_decide_eq_false_1 in H
    end.
    match goal with
    | H : ¬ (_ ≤ currentBid _)%Qc |- _ => apply H
    end.
    eapply Qcle_trans; [apply Qclt_le_weak; eassumption | done]. }
  split; [done|]. split.
  - intros a E. rewrite E in Hnone. discriminate.
  - intros a amt Ha Hamt.
    assert (Hstep : (currentBid a < amt)%Qc -> (startingBid a < amt)%Qc).
    { intros Hlt. eapply Qcle_lt_trans; [by apply Hinv | done]. }
    split; [done|]. split.
    + intros Hcode.
      destruct (placeBid_outcome env req db)
        as [[Hno _] | (a' & amt' & o & Ha' & Hamt' & _ & _ & Hlt & _)]; [done|].
      simplify_eq. by apply Hstep.
    + intros -> Hvalid Hpos Hfind Hs Hst.
      rewrite placeBid_unfold; cbv zeta.
      rewrite Hvalid, Hamt; simpl.
      rewrite (Qc_le_test_false _ _ Hpos), Hfind, Ha, Hs, (biddable_test _ _ Hst).
      by rewrite (bool_decide_eq_true_2 _ (Hinv a Ha)).
Qed.

(** ** The bid log *)

Lemma LogInvariant_Consistent id db : LogInvariant id db -> Consistent id db.
Proof.
  clear_runtime.
  intros (a & Ha & Hcount & Hlog). exists a. split; [done|]. split; [done|].
  destruct Hlog as [(Hnil & Hcur & Hhb) | (older & b & Hl & Hlt & Hcur & Hhb)].
  - rewrite Hnil. split; [done|]. split; [done|].
    intros b [Hin _]. by apply elem_of_nil in Hin.
  - rewrite Hl. split; [by intros E; destruct older|].
    assert (Hmax : IsMaxBid b (older ++ [b])).
    { split; [set_solver|]. intros b' [Hin | Hin]%elem_of_app.
      - apply Qclt_le_weak. by apply (proj1 (Forall_forall _ _) Hlt).
      - apply list_elem_of_singleton in Hin as ->. apply Qcle_refl. }
    split; [by intros _; exists b|].
    intros b2 [[Hin | Hin]%elem_of_app Hge].
    + exfalso. pose proof (proj1 (Forall_forall _ _) Hlt _ Hin) as Hless.
      apply (Qclt_not_le _ _ Hless). apply Hge. set_solver.
    + by apply list_elem_of_singleton in Hin as ->.
Qed.

Lemma placeBid_LogInvariant env req db id :
  LogInvariant id db -> LogInvariant id (placeBid env req db).2.
Proof.
  clear_runtime.
  intros Hinv.
  destruct (placeBid_outcome env req db)
    as [[_ ->] | (a & amt & o & Ha & _ & _ & _ & Hlt & ->)]; [done|].
  simpl. destruct Hinv as (a0 & Ha0 & Hcount & Hlog).
  destruct (decide (req_auctionId req = id)) as [<- | Hne].
  - simplify_eq. eexists. split; [apply lookup_insert_eq|].
    unfold bidsOn in *; simpl. rewrite filter_app, filter_cons, filter_nil; simpl.
    rewrite decide_True by done. split.
    + rewrite length_app; simpl. destruct a0; simpl in *. lia.
    + right. eexists _, _. split; [done|]. split; [|by destruct a0].
      destruct Hlog as [(-> & _ & _) | (older & b & -> & Hold & Hcur & _)]; [done|].
      simpl in Hcur. rewrite Hcur in Hlt.
      apply Forall_app; split.
      * eapply Forall_impl; [exact Hold|]. intros b' Hb'. simpl in *.
        exact (Qclt_trans _ _ _ Hb' Hlt).
      * by apply Forall_singleton.
  - exists a0. split; [simpl; by rewrite lookup_insert_ne|].
    unfold bidsOn in *; simpl. rewrite filter_app, filter_cons, filter_nil; simpl.
    rewrite decide_False by done. by rewrite app_nil_r.
Qed.

Lemma runBids_LogInvariant calls db id :
  LogInvariant id db -> LogInvariant id (runBids calls db).
Proof.
  clear_runtime.
  revert db. induction calls as [|[env req] calls IH]; intros db Hinv; [done|].
  apply IH. by apply placeBid_LogInvariant.
Qed.

(** What a successful [createAuction] leaves behind. *)
Lemma createAuction_created env user body db msg data :
  (createAuction env user body db).1 = Json 201 msg data ->
  exists a,
    (createAuction env user body db).2 =
      {| auctions := <[newId env := a]> (auctions db); bids := bids db |}
    /\ currentBid a = startingBid a
    /\ bidCount a = 0
    /\ highestBidder a = None.
Proof.
  clear_runtime.
  unfold createAuction, catchValidation, catchError. open_session.
  intros H.
  repeat (case_match; simplify_eq/=); eexists; (split; [reflexivity|done]).
Qed.

(** C1.  From the creation of an auction (its id fresh for the Bid
    collection) and through any sequence of [placeBid] requests, the
    auction's [bidCount] is the number of Bid records that reference
    it; with no such record its [currentBid] is its [startingBid];
    otherwise a Bid of greatest amount exists, and [currentBid] and
    [highestBidder] are the amount and the bidder of every such Bid. *)
Theorem bid_state_matches_log env0 user body db0 msg data calls :
  (createAuction env0 user body db0).1 = Json 201 msg data ->
  bidsOn (newId env0) db0 = [] ->
  Consistent (newId env0) (runBids calls (createAuction env0 user body db0).2).
Proof.
  clear_runtime.
  intros Hcreated Hfresh.
  apply LogInvariant_Consistent, runBids_LogInvariant.
  destruct (createAuction_created _ _ _ _ _ _ Hcreated) as (a & -> & Hcur & Hcount & Hhb).
  exists a. split; [apply lookup_insert_eq|].
  unfold bidsOn in *; simpl. rewrite Hfresh. split; [done|]. by left.
Qed.

(** ** The derived status *)

(** C5.  The status is a function of the read time and the two
    timestamps alone, and it is: invalid-dates when a timestamp is not
    a valid date; upcoming before the start; from the start to the end,
    ending-soon when less than one hour (3 600 000 ms) remains and
    active otherwise; ended from the end on. *)
Theorem status_derivation now_ a :
  (forall a', startTime a' = startTime a -> endTime a' = endTime a ->
              status now_ a' = status now_ a)
  /\ oneHour = 3600000
  /\ (startTime a = None \/ endTime a = None -> status now_ a = invalid_dates)
  /\ (forall start end_,
        startTime a = Some start -> endTime a = Some end_ ->
        (now_ < start -> status now_ a = upcoming)
        /\ (start <= now_ < end_ -> end_ - now_ < oneHour -> status now_ a = ending_soon)
        /\ (start <= now_ < end_ -> oneHour <= end_ - now_ -> status now_ a = active)
        /\ (start <= now_ -> end_ <= now_ -> status now_ a = ended)
        /\ (start < end_ -> end_ <= now_ -> status now_ a = ended)).
Proof.
  clear_runtime.
  split; [by intros a' Hs He; unfold status; rewrite Hs, He|].
  split; [reflexivity|]. split.
  - unfold status. intros [-> | ->]; [done|]. by destruct (startTime a).
  - intros start end_ Hs He. unfold status. rewrite Hs, He.
    repeat split; intros; repeat case_match;
      rewrite ?andb_true_iff, ?andb_false_iff in *; try reflexivity; lia.
Qed.

(** ** Likes *)

Lemma isLiked_spec user uid (l : list ObjectId) :
  castObjectId (user_id user) = Some uid ->
  existsb (fun likerId => idEquals likerId (user_id user)) l = bool_decide (uid ∈ l).
Proof.
  clear_runtime.
  intros Hcast. unfold idEquals. rewrite Hcast.
  induction l as [|x l IH]; simpl.
  - reflexivity.
  - rewrite IH. destruct (decide (x = uid)) as [-> | Hne].
    + rewrite (bool_decide_eq_true_2 (uid = uid) eq_refl). simpl.
      symmetry. apply bool_decide_eq_true_2. set_solver.
    + rewrite (bool_decide_eq_false_2 (x = uid) Hne). simpl.
      apply bool_decide_ext. set_solver.
Qed.

Lemma toggleLikeAuction_run env auctionId user db a uid :
  isValid auctionId = true ->
  auctions db !! auctionId = Some a ->
  castObjectId (user_id user) = Some uid ->
  noFault env ->
  exists msg,
    toggleLikeAuction env auctionId user db =
      (Json 200 msg (Some (set_updatedAt (now env) (set_likedBy (toggled uid (likedBy a)) a))),
       {| auctions := <[auctionId := set_updatedAt (now env)
                                       (set_likedBy (toggled uid (likedBy a)) a)]>
                        (auctions db);
          bids := bids db |}).
Proof.
  clear_runtime.
  intros Hvalid Ha Hcast Hnf.
  unfold toggleLikeAuction, runHandler, toggleLikeAuctionTry, toggled.
  rewrite Hvalid; simpl.
  open_session.
  rewrite (Hnf OpFindById); simpl. rewrite Ha, Hcast, (isLiked_spec _ _ _ Hcast); simpl.
  destruct (bool_decide (uid ∈ likedBy a));
    rewrite (Hnf OpFindByIdAndUpdate); simpl; rewrite ?Ha; simpl; eauto.
Qed.

Lemma toggled_self uid (l : list ObjectId) : uid ∈ toggled uid l <-> uid ∉ l.
Proof.
  clear_runtime.
  unfold toggled, pull, addToSet. case_bool_decide as Hin.
  - rewrite list_elem_of_filter. tauto.
  - set_solver.
Qed.

Lemma toggled_other uid v (l : list ObjectId) : v <> uid -> v ∈ toggled uid l <-> v ∈ l.
Proof.
  clear_runtime.
  intros Hne. unfold toggled, pull, addToSet. case_bool_decide as Hin.
  - rewrite list_elem_of_filter. tauto.
  - set_solver.
Qed.

(** C9.  On an existing auction, [toggleLikeAuction] flips the
    caller's membership in [likedBy] and no one else's; two toggles in
    succession give back the original set of likers. *)
Theorem toggleLike_flips env1 env2 auctionId user db a uid :
  isValid auctionId = true ->
  auctions db !! auctionId = Some a ->
  castObjectId (user_id user) = Some uid ->
  noFault env1 ->
  noFault env2 ->
  exists a1 a2,
    auctions (toggleLikeAuction env1 auctionId user db).2 !! auctionId = Some a1
    /\ auctions (toggleLikeAuction env2 auctionId user
                   (toggleLikeAuction env1 auctionId user db).2).2 !! auctionId = Some a2
    /\ (uid ∈ likedBy a1 <-> uid ∉ likedBy a)
    /\ (forall v, v <> uid -> v ∈ likedBy a1 <-> v ∈ likedBy a)
    /\ (forall v, v ∈ likedBy a2 <-> v ∈ likedBy a)
    /\ list_to_set (likedBy a2) =@{gset ObjectId} list_to_set (likedBy a).
Proof.
  clear_runtime.
  intros Hvalid Ha Hcast Hnf1 Hnf2.
  destruct (toggleLikeAuction_run env1 _ _ _ _ _ Hvalid Ha Hcast Hnf1) as [msg1 ->].
  simpl.
  set (a1 := set_updatedAt (now env1) (set_likedBy (toggled uid (likedBy a)) a)).
  assert (Ha1 : auctions {| auctions := <[auctionId := a1]> (auctions db); bids := bids db |}
                  !! auctionId = Some a1) by apply lookup_insert_eq.
  destruct (toggleLikeAuction_run env2 _ _ _ _ _ Hvalid Ha1 Hcast Hnf2) as [msg2 ->].
  simpl. eexists _, _. split; [apply lookup_insert_eq|]. split; [apply lookup_insert_eq|].
  assert (E1 : likedBy a1 = toggled uid (likedBy a)) by (by destruct a).
  assert (E2 : forall l, likedBy (set_updatedAt (now env2) (set_likedBy l a1)) = l)
    by (by destruct a).
  rewrite E2, E1.
  assert (Hboth : forall v, v ∈ toggled uid (toggled uid (likedBy a)) <-> v ∈ likedBy a).
  { intros v. destruct (decide (v = uid)) as [-> | Hne].
    - rewrite !toggled_self. destruct (decide (uid ∈ likedBy a)); tauto.
    - by rewrite !toggled_other. }
  split; [apply toggled_self|]. split; [by intros v; apply toggled_other|].
  split; [done|]. apply set_eq. intros v. rewrite !elem_of_list_to_set. apply Hboth.
Qed.

(** ** Updating and deleting an auction *)

(** Decides that a key is none of the listed ones. *)
Ltac not_listed :=
  let H := fresh in
  intros H; repeat (apply elem_of_cons in H as [H | H]; [discriminate|]);
  by apply elem_of_nil in H.

Lemma assignKey_currentBid b key a :
  key <> "currentBid" -> currentBid (assignKey b key a) = currentBid a.
Proof.
  clear_runtime.
  intros Hkey. unfold assignKey.
  repeat case_bool_decide; try done;
    match goal with
    | |- context [from_option _ _ ?o] => destruct o; simpl; by destruct a
    end.
Qed.

Lemma assignKey_startingBid b key a :
  key <> "startingBid" -> startingBid (assignKey b key a) = startingBid a.
Proof.
  clear_runtime.
  intros Hkey. unfold assignKey.
  repeat case_bool_decide; try done;
    match goal with
    | |- context [from_option _ _ ?o] => destruct o; simpl; by destruct a
    end.
Qed.

(** A field whose key is not allowed survives the [forEach]. *)
Lemma applyUpdates_frame {A} (field : Auction -> A) (name : string) allowedUpdates b a :
  (forall key acc, key <> name -> field (assignKey b key acc) = field acc) ->
  name ∉ allowedUpdates ->
  field (applyUpdates allowedUpdates b a) = field a.
Proof.
  clear_runtime.
  intros Hassign Hnot. unfold applyUpdates.
  generalize (bodyKeys b) as keys. intros keys. revert a.
  induction keys as [|key keys IH]; intros a; simpl; [done|].
  rewrite IH. case_bool_decide as Hin; [|done].
  apply Hassign. by intros ->.
Qed.

(** What [updateAuction] can leave stored under the id of an auction:
    the auction itself, or the auction with the allowed keys of the
    body assigned; [currentBid] is never allowed, and [startingBid]
    only for an admin or on an upcoming auction without bids. *)
Lemma updateAuction_stored env auctionId user body db a a' :
  auctions db !! auctionId = Some a ->
  auctions (updateAuction env auctionId user body db).2 !! auctionId = Some a' ->
  a' = a
  \/ exists allowedUpdates body1,
       a' = set_updatedAt (now env) (applyUpdates allowedUpdates body1 a)
       /\ ("currentBid" ∉ allowedUpdates)
       /\ (("startingBid" ∈ allowedUpdates) ->
            user_isAdmin user = true
            \/ (status (now env) a = upcoming /\ bidCount a = 0)).
Proof.
  clear_runtime.
  intros Ha.
  unfold updateAuction, updateAuctionTry. open_session.
  repeat (case_match; simplify_eq/=); intros Ha'; simplify_eq; try (by left).
  all: rewrite lookup_insert_eq in Ha'; simplify_eq.
  all: right; eexists _, _; split; [reflexivity|]; (split; [not_listed|]).
  all: intros Hin; try (exfalso; revert Hin; not_listed).
  all: destruct (user_isAdmin user); [by left|right].
  all: simpl in *.
  all: repeat match goal with
       | H : _ && _ = true |- _ => apply andb_true_iff in H as [? ?]
       | H : bool_decide _ = true |- _ => apply bool_decide_eq_true_1 in H
       end.
  all: done.
Qed.

(** Whatever the request, [updateAuction] leaves the stored
    [currentBid] of the auction as it was. *)
Lemma updateAuction_keeps_currentBid env auctionId user body db a a' :
  auctions db !! auctionId = Some a ->
  auctions (updateAuction env auctionId user body db).2 !! auctionId = Some a' ->
  currentBid a' = currentBid a.
Proof.
  clear_runtime.
  intros Ha Ha'.
  destruct (updateAuction_stored _ _ _ _ _ _ _ Ha Ha')
    as [-> | (allowedUpdates & body1 & -> & Hcur & _)]; [done|].
  transitivity (currentBid (applyUpdates allowedUpdates body1 a)).
  - by destruct (applyUpdates allowedUpdates body1 a).
  - apply (applyUpdates_frame currentBid "currentBid"); [|done].
    intros. by apply assignKey_currentBid.
Qed.

(** A caller who is not an admin changes [startingBid] only on an
    upcoming auction without bids. *)
Lemma updateAuction_startingBid_gate env auctionId user body db a a' :
  user_isAdmin user = false ->
  auctions db !! auctionId = Some a ->
  auctions (updateAuction env auctionId user body db).2 !! auctionId = Some a' ->
  startingBid a' <> startingBid a ->
  status (now env) a = upcoming /\ bidCount a = 0.
Proof.
  clear_runtime.
  intros Hadmin Ha Ha' Hchanged.
  destruct (updateAuction_stored _ _ _ _ _ _ _ Ha Ha')
    as [-> | (allowedUpdates & body1 & -> & _ & Hgate)]; [done|].
  destruct (decide ("startingBid" ∈ allowedUpdates)) as [Hin | Hout].
  - destruct (Hgate Hin) as [Hyes | ?]; [congruence|done].
  - exfalso. apply Hchanged.
    transitivity (startingBid (applyUpdates allowedUpdates body1 a)).
    + by destruct (applyUpdates allowedUpdates body1 a).
    + apply (applyUpdates_frame startingBid "startingBid"); [|done].
      intros. by apply assignKey_startingBid.
Qed.

(** [deleteAuction] refuses a caller who is not an admin when the
    auction is active or ended and has bids, and deletes nothing. *)
Lemma deleteAuction_guard env auctionId user db a :
  user_isAdmin user = false ->
  auctions db !! auctionId = Some a ->
  status (now env) a = active \/ status (now env) a = ended ->
  0 < bidCount a ->
  exists error, deleteAuction env auctionId user db = (Next error, db).
Proof.
  clear_runtime.
  intros Hadmin Ha Hst Hbids.
  assert (T : bool_decide (status (now env) a ∈ [active; ended]) = true).
  { apply bool_decide_eq_true_2. destruct Hst as [-> | ->]; set_solver. }
  assert (T' : (0 <? bidCount a) = true) by by apply Z.ltb_lt.
  unfold deleteAuction, deleteAuctionTry, catchError. open_session.
  rewrite Hadmin.
  repeat (case_match; simplify_eq/=); eauto; try congruence.
  rewrite T, T' in *. discriminate.
Qed.

(** [deleteAuction] deletes an upcoming auction without bids for a
    caller who passes its authorization test. *)
Lemma deleteAuction_authorized env auctionId user db a :
  isValid auctionId = true ->
  noFault env ->
  auctions db !! auctionId = Some a ->
  sellerIs (seller a) (user_id user) = true \/ user_isAdmin user = true ->
  bidCount a = 0 ->
  status (now env) a = upcoming ->
  deleteAuction env auctionId user db =
    (Json 200 "Auction deleted successfully" None,
     {| auctions := delete auctionId (auctions db); bids := bids db |}).
Proof.
  clear_runtime.
  intros Hvalid Hnf Ha Hauth Hcount Hst.
  unfold deleteAuction, deleteAuctionTry, catchError. open_session.
  rewrite Hvalid, (Hnf OpFindById), (Hnf OpFindByIdAndDelete); simpl.
  rewrite Ha, Hst, Hcount; simpl.
  by destruct Hauth as [-> | ->]; simpl; rewrite ?andb_false_r.
Qed.

(** An identity supplied by [protect] never passes the seller test:
    for a caller who is not an admin, [deleteAuction] deletes nothing,
    whoever owns the auction. *)
Lemma sellerIs_object s o : sellerIs s (IdObject o) = false.
Proof. reflexivity. Qed.

Lemma deleteAuction_signed_in_non_admin foundUser user env auctionId db :
  protect foundUser = inr user ->
  user_isAdmin user = false ->
  (deleteAuction env auctionId user db).2 = db.
Proof.
  clear_runtime.
  unfold protect. destruct (u_isBanned foundUser); [done|].
  intros [= <-]; simpl. intros ->.
  unfold deleteAuction, deleteAuctionTry, catchError. open_session.
  by repeat (case_match; simplify_eq/=).
Qed.

(** * Further properties of the handlers *)

(** ** The status over time *)

(** X1.  Read later, the status of an auction is the same or a later
    one: upcoming, active, ending-soon, ended, in this order; no write
    is needed for the change, and none undoes it. *)
Theorem status_never_goes_back now1 now2 a :
  now1 <= now2 ->
  statusRank (status now1 a) <= statusRank (status now2 a).
Proof.
  clear_runtime.
  intros Hle. unfold status, oneHour.
  destruct (startTime a) as [start|], (endTime a) as [end_|]; simpl; try lia.
  repeat case_match; simpl; try lia;
    rewrite ?andb_true_iff, ?andb_false_iff in *; lia.
Qed.

(** ** What [placeBid] leaves alone *)

(** X2.  Whatever the request and the outcome, [placeBid] leaves every
    other auction as it was, creates and deletes no auction, keeps
    every Bid already recorded, in place, adding at most one at the end
    and only for the auction of the request; and of that auction it
    changes nothing but the bid state and [updatedAt]. *)
Theorem placeBid_frame env req db :
  (forall id, id <> req_auctionId req ->
              auctions (placeBid env req db).2 !! id = auctions db !! id)
  /\ dom (auctions (placeBid env req db).2) = dom (auctions db)
  /\ (exists added,
        bids (placeBid env req db).2 = bids db ++ added
        /\ (length added <= 1)%nat
        /\ Forall (fun b => auction b = req_auctionId req) added)
  /\ (forall a a',
        auctions db !! req_auctionId req = Some a ->
        auctions (placeBid env req db).2 !! req_auctionId req = Some a' ->
        set_updatedAt (updatedAt a)
          (set_bidCount (bidCount a)
             (set_highestBidder (highestBidder a) (set_currentBid (currentBid a) a'))) = a).
Proof.
  clear_runtime.
  destruct (placeBid_outcome env req db)
    as [[_ ->] | (a & amt & o & Ha & _ & _ & _ & _ & ->)].
  - split; [done|]. split; [done|]. split.
    + exists []. rewrite app_nil_r. split; [done|]. split; [simpl; lia|constructor].
    + intros a a' Ha Ha'. rewrite Ha in Ha'. injection Ha' as <-. by destruct a.
  - simpl. split; [by intros id Hne; rewrite lookup_insert_ne|]. split.
    + rewrite dom_insert_L. apply elem_of_dom_2 in Ha. set_solver.
    + split.
      * eexists [_]. split; [done|]. split; [simpl; lia|]. by apply Forall_singleton.
      * intros a0 a' Ha0 Ha'. rewrite lookup_insert_eq in Ha'. rewrite Ha in Ha0.
        injection Ha0 as <-. injection Ha' as <-. by destruct a.
Qed.

(** X3.  Over any sequence of [placeBid] requests an auction stays in
    the collection, its price and its bid count never go down, and they
    move together: either both are what they were, or both are
    strictly greater. *)
Theorem runBids_price_never_falls calls db id a :
  auctions db !! id = Some a ->
  exists a',
    auctions (runBids calls db) !! id = Some a'
    /\ ((currentBid a' = currentBid a /\ bidCount a' = bidCount a)
        \/ ((currentBid a < currentBid a')%Qc /\ bidCount a < bidCount a'))
    /\ startingBid a' = startingBid a
    /\ seller a' = seller a
    /\ startTime a' = startTime a
    /\ endTime a' = endTime a.
Proof.
  clear_runtime.
  revert db a. induction calls as [|[env req] calls IH]; intros db a Ha.
  - exists a. split; [done|]. split; [by left|done].
  - assert (Hstep : exists a1,
              auctions (placeBid env req db).2 !! id = Some a1
              /\ ((currentBid a1 = currentBid a /\ bidCount a1 = bidCount a)
                  \/ ((currentBid a < currentBid a1)%Qc /\ bidCount a < bidCount a1))
              /\ startingBid a1 = startingBid a /\ seller a1 = seller a
              /\ startTime a1 = startTime a /\ endTime a1 = endTime a).
    { destruct (placeBid_outcome env req db)
        as [[_ ->] | (a0 & amt & o & Ha0 & _ & _ & _ & Hlt & ->)].
      - exists a. split; [done|]. split; [by left|done].
      - simpl. destruct (decide (req_auctionId req = id)) as [<- | Hne].
        + simplify_eq. eexists. split; [apply lookup_insert_eq|].
          split; [right|by destruct a]. destruct a; simpl in *. split; [done|lia].
        + exists a. rewrite lookup_insert_ne by done. split; [done|].
          split; [by left|done]. }
    destruct Hstep as (a1 & Ha1 & Hmove1 & Hs1 & Hse1 & Hst1 & Het1).
    destruct (IH _ _ Ha1) as (a' & Ha' & Hmove & Hs & Hse & Hst & Het).
    exists a'. split; [exact Ha'|]. split.
    + destruct Hmove1 as [[E1 E2] | [L1 L2]], Hmove as [[E3 E4] | [L3 L4]].
      * left. split; congruence.
      * right. rewrite <- E1, <- E2. done.
      * right. rewrite E3, E4. done.
      * right. split; [by eapply Qclt_trans|lia].
    + repeat split; congruence.
Qed.

(** The status test of [placeBid] passes only inside the window. *)
Lemma biddable_window now_ a :
  bool_decide (status now_ a <> active) && bool_decide (status now_ a <> ending_soon) = false ->
  exists start end_,
    startTime a = Some start /\ endTime a = Some end_ /\ start <= now_ < end_.
Proof.
  clear_runtime.
  unfold status.
  destruct (startTime a) as [start|], (endTime a) as [end_|]; try discriminate.
  intros H. exists start, end_. split; [done|]. split; [done|].
  repeat case_match; try discriminate;
    rewrite ?andb_true_iff in *; lia.
Qed.

(** X4.  A bid is accepted only inside the auction's window: when
    [placeBid] answers 201 the auction exists, its two dates are valid
    and [startTime <= now < endTime]; the amount is above the current
    bid and at least the minimum of the Bid schema; the id of the
    request is well formed and the bidder's id casts to an ObjectId. *)
Theorem placeBid_accepts_only_when_open env req db :
  httpStatus (placeBid env req db).1 = 201 ->
  exists a amt start end_ bidderOid,
    isValid (req_auctionId req) = true
    /\ auctions db !! req_auctionId req = Some a
    /\ req_amount req = Some amt
    /\ castObjectId (user_id (req_user req)) = Some bidderOid
    /\ startTime a = Some start
    /\ endTime a = Some end_
    /\ start <= now env < end_
    /\ (currentBid a < amt)%Qc
    /\ (minBidAmount ≤ amt)%Qc
    /\ (0 < amt)%Qc.
Proof.
  rewrite placeBid_unfold; cbv zeta.
  repeat (case_match; simplify_eq/=); try discriminate.
  intros _.
  match goal with
  | H : _ && _ = false, Ha : auctions db !! _ = Some ?a |- _ =>
      destruct (biddable_window (now env) a H) as (start & end_ & Hs & He & Hwin)
  end.
  match goal with
  | H : validateBid _ = [] |- _ =>
      unfold validateBid in H; simpl in H; case_bool_decide as Hmin; [discriminate|]
  end.
  repeat match goal with
  | H : negb _ = false |- _ => apply negb_false_iff in H
  | H : bool_decide _ = false |- _ => apply bool_decide_eq_false_1 in H
  end.
  eexists _, _, start, end_, _. repeat split; try done; try lia.
  - by apply Qclt_nge.
  - by apply Qcle_ngt.
  - by apply Qclt_nge.
Qed.

(** ** Creating an auction *)

(** What the validators of AuctionSchema guarantee of a document they
    pass. *)
Lemma validateAuction_passed a :
  validateAuction a = [] ->
  title a <> "" /\ description a <> ""
  /\ (images a <> [] \/ truthy (imageUrl a) = true)
  /\ (0 ≤ startingBid a)%Qc /\ (0 ≤ currentBid a)%Qc
  /\ 0 <= bidCount a /\ 0 <= views a
  /\ exists start end_,
       startTime a = Some start /\ endTime a = Some end_ /\ start < end_.
Proof.
  clear trim isValid.
  unfold validateAuction, required, minZero. intros H.
  apply app_eq_nil in H as [Htitle H]. apply app_eq_nil in H as [Hdesc H].
  apply app_eq_nil in H as [Himg H]. apply app_eq_nil in H as [Hsb H].
  apply app_eq_nil in H as [Hcb H]. apply app_eq_nil in H as [Hbc H].
  apply app_eq_nil in H as [Hvw H]. apply app_eq_nil in H as [Hstart H].
  apply app_eq_nil in H as [Hend _].
  repeat case_bool_decide; try discriminate.
  split; [done|]. split; [done|]. split.
  { destruct (0 <? Z.of_nat (length (images a))) eqn:Hlen.
    - left. apply Z.ltb_lt in Hlen. by destruct (images a).
    - right. simpl in Himg. by destruct (truthy (imageUrl a)). }
  split; [by apply Qcle_ngt|]. split; [by apply Qcle_ngt|].
  split; [apply Z2Qc_inj_le; rewrite Z2Qc_inj_0; by apply Qcle_ngt|].
  split; [apply Z2Qc_inj_le; rewrite Z2Qc_inj_0; by apply Qcle_ngt|].
  destruct (startTime a) as [start|], (endTime a) as [end_|]; try discriminate.
  exists start, end_. split; [done|]. split; [done|].
  simpl in Hend. destruct (start <? end_) eqn:Hlt; [by apply Z.ltb_lt|discriminate].
Qed.

(** Every execution of [createAuction]: an error handed to [next] and
    no change, or the insert of the new document under the new id. *)
Lemma createAuction_cases env user body db :
  (exists error, createAuction env user body db = (Next error, db))
  \/ exists title_ description_ startingBid_ auctionEndTime sellerId,
       c_title body = Some title_
       /\ c_description body = Some description_
       /\ c_startingBid body = Some startingBid_
       /\ c_endTime body = Some auctionEndTime
       /\ castObjectId (user_id user) = Some sellerId
       /\ auctions db !! newId env = None
       /\ dateLe auctionEndTime (Some (now env))
          && dateLe (default (Some (now env)) (c_startTime body)) (Some (now env)) = false
       /\ validateAuction
            (newAuction env body title_ description_ startingBid_
               (default (Some (now env)) (c_startTime body)) auctionEndTime sellerId) = []
       /\ createAuction env user body db =
            (Json 201 "Auction created successfully"
               (Some (newAuction env body title_ description_ startingBid_
                        (default (Some (now env)) (c_startTime body)) auctionEndTime
                        sellerId)),
             {| auctions :=
                  <[newId env :=
                      newAuction env body title_ description_ startingBid_
                        (default (Some (now env)) (c_startTime body)) auctionEndTime
                        sellerId]> (auctions db);
                bids := bids db |}).
Proof.
  unfold createAuction.
  destruct (c_title body) as [t|], (c_description body) as [d|],
    (c_startingBid body) as [sb|], (c_endTime body) as [et|];
    try (left; eexists; reflexivity).
  destruct (bool_decide (t = "") || bool_decide (d = "")); [left; eexists; reflexivity|].
  destruct (dateLe et (default (Some (now env)) (c_startTime body)));
    [left; eexists; reflexivity|].
  destruct (dateLe et (Some (now env))
            && dateLe (default (Some (now env)) (c_startTime body)) (Some (now env)))
    eqn:Hfuture; [left; eexists; reflexivity|].
  unfold runHandler, insertAuction, bind, storageCall, writeView, bind, ret, throw,
    startSession, view.
  destruct (castObjectId (user_id user)) as [sid|] eqn:Hcast;
    [|left; eexists; reflexivity].
  destruct (validateAuction (newAuction env body t d sb
              (default (Some (now env)) (c_startTime body)) et sid)) eqn:Hvalid;
    [|left; eexists; reflexivity].
  destruct (fault env OpSave) eqn:Hsave; simpl.
  { left. unfold catchValidation, catchError. repeat case_match; eexists; reflexivity. }
  destruct (auctions db !! newId env) eqn:Hfree; simpl; [left; eexists; reflexivity|].
  right. eexists _, _, _, _, _. repeat split; done.
Qed.

(** X5.  An auction that [createAuction] stores is a sound listing:
    the validators of the schema pass on it; its two dates are valid,
    the end after the start and after the present, so its status at
    creation is upcoming, active or ending-soon; its price is its
    starting bid, which is not negative; it has no bid, no bidder, no
    like and no view; its seller is the caller; and the id it is stored
    under was free. *)
Theorem createAuction_stores_open_auction env user body db msg data :
  (createAuction env user body db).1 = Json 201 msg data ->
  exists a start end_,
    data = Some a
    /\ auctions db !! newId env = None
    /\ (createAuction env user body db).2 =
         {| auctions := <[newId env := a]> (auctions db); bids := bids db |}
    /\ validateAuction a = []
    /\ startTime a = Some start /\ endTime a = Some end_
    /\ start < end_ /\ now env < end_
    /\ status (now env) a ∈ [upcoming; active; ending_soon]
    /\ currentBid a = startingBid a /\ (0 ≤ startingBid a)%Qc
    /\ bidCount a = 0 /\ highestBidder a = None
    /\ likedBy a = [] /\ views a = 0
    /\ castObjectId (user_id user) = Some (seller a)
    /\ createdAt a = now env.
Proof.
  intros Hcreated.
  destruct (createAuction_cases env user body db)
    as [[error E] | (t & d & sb & et & sid & _ & _ & Hsb & Het & Hcast & Hfree & Hfuture
                     & Hvalid & E)];
    rewrite E in Hcreated |- *; simpl in *; [discriminate|].
  injection Hcreated as <- <-.
  destruct (validateAuction_passed _ Hvalid)
    as (_ & _ & _ & Hnonneg & _ & _ & _ & start & end_ & Hs & He & Horder).
  eexists _, start, end_. split; [reflexivity|]. split; [done|]. split; [reflexivity|].
  split; [done|]. split; [done|]. split; [done|]. split; [done|].
  simpl in Hs, He. rewrite Hs, He in Hfuture. simpl in Hfuture.
  assert (Hnow : now env < end_).
  { apply andb_false_iff in Hfuture as [H | H]; apply Z.leb_gt in H; lia. }
  split; [done|]. split.
  { unfold status. simpl. rewrite Hs, He.
    destruct (now env <? start) eqn:Hstarted; [set_solver|].
    apply Z.ltb_ge in Hstarted.
    rewrite (proj2 (Z.leb_le _ _) Hstarted), (proj2 (Z.ltb_lt _ _) Hnow). simpl.
    destruct (end_ - now env <? oneHour); set_solver. }
  repeat split; done.
Qed.



(** ** What [updateAuction] can and cannot do *)

Lemma assignKey_bidState b key a :
  key <> "currentBid" -> bidState (assignKey b key a) = bidState a.
Proof.
  clear_runtime.
  intros Hkey. unfold assignKey.
  repeat case_bool_decide; try done;
    match goal with
    | |- context [from_option _ _ ?o] => destruct o; simpl; by destruct a
    end.
Qed.


(** Every execution of [updateAuction]: a refusal or an error, with the
    database as it was, or the save of the auction with the allowed keys
    of the body assigned. *)
Lemma updateAuction_cases env auctionId user body db :
  (exists error, updateAuction env auctionId user body db = (Next error, db))
  \/ exists a allowedUpdates body1,
       isValid auctionId = true
       /\ auctions db !! auctionId = Some a
       /\ (sellerIs (seller a) (user_id user) = true \/ user_isAdmin user = true)
       /\ (status (now env) a = ended -> user_isAdmin user = true)
       /\ ("currentBid" ∉ allowedUpdates)
       /\ ("startingBid" ∈ allowedUpdates ->
             user_isAdmin user = true
             \/ (status (now env) a = upcoming /\ bidCount a = 0))
       /\ ("endTime" ∈ allowedUpdates \/ "startTime" ∈ allowedUpdates ->
             user_isAdmin user = true \/ status (now env) a = upcoming)
       /\ validateAuction (applyUpdates allowedUpdates body1 a) = []
       /\ updateAuction env auctionId user body db =
            if bool_decide (applyUpdates allowedUpdates body1 a = a) then
              (Json 200 "Auction updated successfully" (Some a), db)
            else
              (Json 200 "Auction updated successfully"
                 (Some (set_updatedAt (now env) (applyUpdates allowedUpdates body1 a))),
               {| auctions :=
                    <[auctionId := set_updatedAt (now env)
                                     (applyUpdates allowedUpdates body1 a)]> (auctions db);
                  bids := bids db |}).
Proof.
  unfold updateAuction, updateAuctionTry, runHandler.
  destruct (isValid auctionId) eqn:Hvalid; simpl; [|left; eexists; reflexivity].
  unfold bind at 1. unfold findById, storageCall, bind, ret, throw, startSession, view; simpl.
  destruct (fault env OpFindById) as [e|]; simpl.
  { left. unfold catchValidation, catchError. repeat case_match; eexists; reflexivity. }
  destruct (auctions db !! auctionId) as [a|] eqn:Ha; [|left; eexists; reflexivity].
  destruct (negb (sellerIs (seller a) (user_id user)) && negb (user_isAdmin user))
    eqn:Hauth; [left; eexists; reflexivity|].
  destruct (bool_decide (status (now env) a = ended) && negb (user_isAdmin user))
    eqn:Hended; [left; eexists; reflexivity|].
  destruct (_ && (_ || _ || (0 <? bidCount a)) && negb (user_isAdmin user));
    [left; eexists; reflexivity|].
  match goal with |- context [applyUpdates ?l ?b a] =>
    set (allowedUpdates := l); set (body1 := b) end.
  destruct (_ && dateLe _ _); [left; eexists; reflexivity|].
  unfold saveAuction, bind, storageCall, writeView, bind, ret, throw, view; simpl.
  destruct (validateAuction (applyUpdates allowedUpdates body1 a)) eqn:Hok;
    [|left; eexists; reflexivity].
  assert (Hwho : sellerIs (seller a) (user_id user) = true \/ user_isAdmin user = true).
  { destruct (sellerIs (seller a) (user_id user)); [by left|].
    destruct (user_isAdmin user); [by right|discriminate]. }
  assert (Hopen : status (now env) a = ended -> user_isAdmin user = true).
  { intros Hst. destruct (user_isAdmin user); [done|].
    by rewrite (bool_decide_eq_true_2 _ Hst) in Hended. }
  assert (Hcur : "currentBid" ∉ allowedUpdates).
  { subst allowedUpdates. repeat case_match; not_listed. }
  assert (Hsb : "startingBid" ∈ allowedUpdates ->
                user_isAdmin user = true
                \/ (status (now env) a = upcoming /\ bidCount a = 0)).
  { subst allowedUpdates. destruct (user_isAdmin user); [by left|]. simpl.
    destruct (bool_decide (status (now env) a = upcoming)) eqn:Hup; simpl;
      [|intros Hin; exfalso; revert Hin; not_listed].
    destruct (sellerIs (seller a) (user_id user)); simpl;
      [|intros Hin; exfalso; revert Hin; not_listed].
    destruct (bool_decide (bidCount a = 0)) eqn:Hnone; simpl;
      [|intros Hin; exfalso; revert Hin; not_listed].
    intros _. right. split; by eapply bool_decide_eq_true_1. }
  assert (Htimes : "endTime" ∈ allowedUpdates \/ "startTime" ∈ allowedUpdates ->
                   user_isAdmin user = true \/ status (now env) a = upcoming).
  { subst allowedUpdates. destruct (user_isAdmin user); [by left|]. simpl.
    destruct (bool_decide (status (now env) a = upcoming)) eqn:Hup; simpl;
      [intros _; right; by eapply bool_decide_eq_true_1|].
    intros [Hin | Hin]; exfalso; revert Hin; not_listed. }
  destruct (bool_decide (applyUpdates allowedUpdates body1 a = a)) eqn:Hsame.
  { right. exists a, allowedUpdates, body1. rewrite Hsame.
    apply bool_decide_eq_true_1 in Hsame. repeat split; try done. by rewrite Hsame. }
  destruct (fault env OpSave) as [e|] eqn:Hsave.
  { left. unfold catchValidation, catchError. repeat case_match; eexists; reflexivity. }
  right. exists a, allowedUpdates, body1. rewrite Hsame. repeat split; done.
Qed.

Lemma applyUpdates_bidState allowedUpdates b a :
  "currentBid" ∉ allowedUpdates -> bidState (applyUpdates allowedUpdates b a) = bidState a.
Proof.
  clear_runtime.
  intros Hcur. apply (applyUpdates_frame bidState "currentBid"); [|done].
  intros. by apply assignKey_bidState.
Qed.

(** X7.  Whatever the request, the caller and the outcome,
    [updateAuction] writes no Bid, creates and deletes no auction,
    leaves every other auction as it was, and of the auction it names
    never changes the price, the highest bidder, the bid count, the
    seller, the likes, the views or the creation time. *)
Theorem updateAuction_keeps_bid_state env auctionId user body db :
  bids (updateAuction env auctionId user body db).2 = bids db
  /\ dom (auctions (updateAuction env auctionId user body db).2) = dom (auctions db)
  /\ (forall id, id <> auctionId ->
        auctions (updateAuction env auctionId user body db).2 !! id = auctions db !! id)
  /\ (forall a a',
        auctions db !! auctionId = Some a ->
        auctions (updateAuction env auctionId user body db).2 !! auctionId = Some a' ->
        currentBid a' = currentBid a
        /\ highestBidder a' = highestBidder a
        /\ bidCount a' = bidCount a
        /\ seller a' = seller a
        /\ likedBy a' = likedBy a
        /\ views a' = views a
        /\ createdAt a' = createdAt a).
Proof.
  destruct (updateAuction_cases env auctionId user body db)
    as [[error ->] | (a & allowedUpdates & body1 & _ & Ha & _ & _ & Hcur & _ & _ & _ & ->)].
  { simpl. split; [done|]. split; [done|]. split; [done|].
    intros a a' Ha Ha'. rewrite Ha in Ha'. by injection Ha' as <-. }
  case_bool_decide as Hsame; simpl.
  { split; [done|]. split; [done|]. split; [done|].
    intros a0 a' Ha0 Ha'. rewrite Ha0 in Ha'. by injection Ha' as <-. }
  split; [done|]. split.
  { rewrite dom_insert_L. apply elem_of_dom_2 in Ha. set_solver. }
  split; [by intros id Hne; rewrite lookup_insert_ne|].
  intros a0 a' Ha0 Ha'. rewrite lookup_insert_eq in Ha'. rewrite Ha in Ha0.
  injection Ha0 as <-. injection Ha' as <-.
  pose proof (applyUpdates_bidState _ body1 a Hcur) as Hkept.
  unfold bidState in Hkept. destruct (applyUpdates allowedUpdates body1 a).
  simpl in *. by injection Hkept as -> -> -> -> -> -> ->.
Qed.

(** X8.  What a caller who is not an admin can change: nothing on an
    auction the seller test does not give to the caller, nothing once
    the auction has ended, its times only while it is upcoming, and its
    starting bid only while it is upcoming and has no bid. *)
Theorem updateAuction_gates env auctionId user body db a a' :
  user_isAdmin user = false ->
  auctions db !! auctionId = Some a ->
  auctions (updateAuction env auctionId user body db).2 !! auctionId = Some a' ->
  (a' <> a ->
     sellerIs (seller a) (user_id user) = true /\ status (now env) a <> ended)
  /\ (startTime a' <> startTime a \/ endTime a' <> endTime a ->
        status (now env) a = upcoming)
  /\ (startingBid a' <> startingBid a ->
        status (now env) a = upcoming /\ bidCount a = 0).
Proof.
  intros Hadmin Ha Ha'.
  destruct (updateAuction_cases env auctionId user body db)
    as [[error E] | (a0 & allowedUpdates & body1 & _ & Ha0 & Hwho & Hopen & _ & Hsb
                     & Htimes & _ & E)];
    rewrite E in Ha'.
  { simpl in Ha'. rewrite Ha in Ha'. injection Ha' as <-.
    split; [by intros []|]. split; [by intros [[] | []]|]. by intros []. }
  rewrite Ha in Ha0. injection Ha0 as <-.
  case_bool_decide as Hsame; simpl in Ha'.
  { rewrite Ha in Ha'. injection Ha' as <-.
    split; [by intros []|]. split; [by intros [[] | []]|]. by intros []. }
  rewrite lookup_insert_eq in Ha'. injection Ha' as <-.
  rewrite Hadmin in *.
  split.
  { intros _. split; [by destruct Hwho|]. intros Hst. by specialize (Hopen Hst). }
  split.
  - intros Hchanged.
    destruct (decide ("endTime" ∈ allowedUpdates \/ "startTime" ∈ allowedUpdates))
      as [Hin | Hout]; [by destruct (Htimes Hin)|].
    exfalso.
    assert (Hs : startTime (applyUpdates allowedUpdates body1 a) = startTime a).
    { apply (applyUpdates_frame startTime "startTime"); [|tauto].
      intros key acc Hkey. unfold assignKey.
      repeat case_bool_decide; try done;
        match goal with
        | |- context [from_option _ _ ?o] => destruct o; simpl; by destruct acc
        end. }
    assert (He : endTime (applyUpdates allowedUpdates body1 a) = endTime a).
    { apply (applyUpdates_frame endTime "endTime"); [|tauto].
      intros key acc Hkey. unfold assignKey.
      repeat case_bool_decide; try done;
        match goal with
        | |- context [from_option _ _ ?o] => destruct o; simpl; by destruct acc
        end. }
    destruct (applyUpdates allowedUpdates body1 a); simpl in *.
    destruct Hchanged; congruence.
  - intros Hchanged.
    destruct (decide ("startingBid" ∈ allowedUpdates)) as [Hin | Hout];
      [by destruct (Hsb Hin)|].
    exfalso. apply Hchanged.
    transitivity (startingBid (applyUpdates allowedUpdates body1 a)).
    + by destruct (applyUpdates allowedUpdates body1 a).
    + apply (applyUpdates_frame startingBid "startingBid"); [|done].
      intros. by apply assignKey_startingBid.
Qed.


(** X10.  An identity that [protect] supplies carries the ObjectId of
    the user, which the seller test never takes for the seller: for a
    signed-in caller who is not an admin, the seller included,
    [updateAuction] and [deleteAuction] answer with an error and change
    nothing, whatever the auction and the request. *)
Theorem signed_in_seller_locked_out foundUser user env auctionId body db :
  protect foundUser = inr user ->
  user_isAdmin user = false ->
  (exists error, updateAuction env auctionId user body db = (Next error, db))
  /\ (exists error, deleteAuction env auctionId user db = (Next error, db)).
Proof.
  unfold protect. destruct (u_isBanned foundUser); [done|].
  intros [= <-]; simpl. intros Hadmin. split.
  - destruct (updateAuction_cases env auctionId
                {| user_id := IdObject (u_id foundUser);
                   user_isAdmin := u_isAdmin foundUser |} body db)
      as [Herr | (a & allowedUpdates & body1 & _ & _ & Hwho & _)]; [done|].
    simpl in Hwho. destruct Hwho; congruence.
  - clear trim numberToString.
    unfold deleteAuction, deleteAuctionTry, catchError. open_session. simpl.
    rewrite Hadmin.
    destruct (isValid auctionId); simpl; [|eexists; reflexivity].
    destruct (fault env OpFindById); simpl; [case_match; eexists; reflexivity|].
    destruct (auctions db !! auctionId); simpl; eexists; reflexivity.
Qed.

(** ** What [deleteAuction] does *)

(** Every execution of [deleteAuction]: a refusal or an error, with the
    database as it was, or the removal of the auction. *)
Lemma deleteAuction_cases env auctionId user db :
  (exists error, deleteAuction env auctionId user db = (Next error, db))
  \/ exists a,
       isValid auctionId = true
       /\ auctions db !! auctionId = Some a
       /\ (sellerIs (seller a) (user_id user) = true \/ user_isAdmin user = true)
       /\ (user_isAdmin user = true
           \/ (status (now env) a <> active /\ status (now env) a <> ended)
           \/ bidCount a <= 0)
       /\ deleteAuction env auctionId user db =
            (Json 200 "Auction deleted successfully" None,
             {| auctions := delete auctionId (auctions db); bids := bids db |}).
Proof.
  clear_runtime.
  unfold deleteAuction, deleteAuctionTry, runHandler.
  destruct (isValid auctionId) eqn:Hvalid; simpl; [|left; eexists; reflexivity].
  unfold bind at 1. unfold findById, storageCall, bind, ret, throw, startSession, view; simpl.
  destruct (fault env OpFindById) as [e|]; simpl.
  { left. unfold catchError. case_match; eexists; reflexivity. }
  destruct (auctions db !! auctionId) as [a|] eqn:Ha; [|left; eexists; reflexivity].
  destruct (negb (sellerIs (seller a) (user_id user)) && negb (user_isAdmin user))
    eqn:Hauth; [left; eexists; reflexivity|].
  destruct (bool_decide (status (now env) a ∈ [active; ended]) && (0 <? bidCount a)
            && negb (user_isAdmin user)) eqn:Hguard; [left; eexists; reflexivity|].
  unfold findByIdAndDelete, bind, storageCall, writeView, bind, ret, throw, view; simpl.
  destruct (fault env OpFindByIdAndDelete) as [e|]; simpl.
  { left. unfold catchError. case_match; eexists; reflexivity. }
  right. exists a. split; [done|]. split; [done|]. split.
  { destruct (sellerIs (seller a) (user_id user)); [by left|].
    destruct (user_isAdmin user); [by right|discriminate]. }
  split; [|done].
  destruct (user_isAdmin user); [by left|right].
  rewrite andb_true_r in Hguard. apply andb_false_iff in Hguard as [Hst | Hcount].
  - left. apply bool_decide_eq_false_1 in Hst. split; intros E; apply Hst; rewrite E.
    + set_solver.
    + set_solver.
  - right. by apply Z.ltb_ge.
Qed.

(** X11.  [deleteAuction] either changes nothing or removes the one
    auction it names, and that only for an admin or for a caller the
    seller test accepts while the auction is not both bid on and active
    or ended.  It never writes to the Bid collection: the Bids of a
    deleted auction stay behind, referring to an auction that no longer
    exists. *)
Theorem deleteAuction_effect env auctionId user db :
  bids (deleteAuction env auctionId user db).2 = bids db
  /\ (forall id, id <> auctionId ->
        auctions (deleteAuction env auctionId user db).2 !! id = auctions db !! id)
  /\ ((deleteAuction env auctionId user db).2 = db
      \/ exists a,
           auctions db !! auctionId = Some a
           /\ auctions (deleteAuction env auctionId user db).2 !! auctionId = None
           /\ bidsOn auctionId (deleteAuction env auctionId user db).2 = bidsOn auctionId db
           /\ (deleteAuction env auctionId user db).1 =
                Json 200 "Auction deleted successfully" None
           /\ (user_isAdmin user = true
               \/ (sellerIs (seller a) (user_id user) = true
                   /\ ((status (now env) a <> active /\ status (now env) a <> ended)
                       \/ bidCount a <= 0)))).
Proof.
  clear_runtime.
  destruct (deleteAuction_cases env auctionId user db)
    as [[error ->] | (a & _ & Ha & Hwho & Hguard & ->)]; simpl.
  { split; [done|]. split; [done|]. by left. }
  split; [done|]. split; [by intros id Hne; rewrite lookup_delete_ne|].
  right. exists a. split; [done|]. split; [apply lookup_delete_eq|].
  split; [done|]. split; [done|].
  destruct (user_isAdmin user); [by left|right].
  split; [by destruct Hwho|]. by destruct Hguard.
Qed.

(** X12.  The guard of [deleteAuction] names the statuses active and
    ended only: in its last hour an auction is ending-soon, and a caller
    the seller test accepts can delete it with its bids, which stay in
    the Bid collection. *)
Theorem deleteAuction_ending_soon env auctionId user db a :
  isValid auctionId = true ->
  noFault env ->
  auctions db !! auctionId = Some a ->
  sellerIs (seller a) (user_id user) = true ->
  status (now env) a = ending_soon ->
  deleteAuction env auctionId user db =
    (Json 200 "Auction deleted successfully" None,
     {| auctions := delete auctionId (auctions db); bids := bids db |})
  /\ bidsOn auctionId (deleteAuction env auctionId user db).2 = bidsOn auctionId db.
Proof.
  clear_runtime.
  intros Hvalid Hnf Ha Hseller Hst.
  assert (E : deleteAuction env auctionId user db =
                (Json 200 "Auction deleted successfully" None,
                 {| auctions := delete auctionId (auctions db); bids := bids db |})).
  { unfold deleteAuction, deleteAuctionTry, catchError. open_session.
    rewrite Hvalid, (Hnf OpFindById), (Hnf OpFindByIdAndDelete); simpl.
    rewrite Ha, Hseller, Hst; simpl. reflexivity. }
  by rewrite E.
Qed.


(** ** What [toggleLikeAuction] does *)

(** Every execution of [toggleLikeAuction]: an error, with the database
    as it was, or the update of [likedBy]. *)
Lemma toggleLikeAuction_cases env auctionId user db :
  (exists error, toggleLikeAuction env auctionId user db = (Next error, db))
  \/ exists a uid msg,
       isValid auctionId = true
       /\ auctions db !! auctionId = Some a
       /\ castObjectId (user_id user) = Some uid
       /\ toggleLikeAuction env auctionId user db =
            (Json 200 msg
               (Some (set_updatedAt (now env) (set_likedBy (toggled uid (likedBy a)) a))),
             {| auctions :=
                  <[auctionId := set_updatedAt (now env)
                                   (set_likedBy (toggled uid (likedBy a)) a)]> (auctions db);
                bids := bids db |}).
Proof.
  clear_runtime.
  unfold toggleLikeAuction, toggleLikeAuctionTry, runHandler.
  destruct (isValid auctionId) eqn:Hvalid; simpl; [|left; eexists; reflexivity].
  unfold bind at 1. unfold findById, storageCall, bind, ret, throw, startSession, view; simpl.
  destruct (fault env OpFindById) as [e|]; simpl.
  { left. unfold catchError. case_match; eexists; reflexivity. }
  destruct (auctions db !! auctionId) as [a|] eqn:Ha; [|left; eexists; reflexivity].
  unfold castId, bind, ret, throw.
  destruct (castObjectId (user_id user)) as [uid|] eqn:Hcast;
    [|left; unfold catchError; case_match; eexists; reflexivity].
  rewrite (isLiked_spec _ _ _ Hcast).
  unfold findByIdAndUpdate, bind, storageCall, writeView, bind, ret, throw, view; simpl.
  destruct (decide (uid ∈ likedBy a)) as [Hin | Hin];
    [rewrite (bool_decide_eq_true_2 _ Hin) | rewrite (bool_decide_eq_false_2 _ Hin)];
    (destruct (fault env OpFindByIdAndUpdate) as [e|]; simpl;
     [left; unfold catchError; case_match; eexists; reflexivity|]);
    rewrite Ha; simpl; right; exists a, uid; eexists;
    (split; [done|]); (split; [done|]); (split; [done|]); unfold toggled;
    [rewrite (bool_decide_eq_true_2 _ Hin) | rewrite (bool_decide_eq_false_2 _ Hin)];
    reflexivity.
Qed.

Lemma pull_length uid (l : list ObjectId) :
  NoDup l -> uid ∈ l -> S (length (pull uid l)) = length l.
Proof.
  clear_runtime.
  unfold pull. induction l as [|x l IH]; intros Hnodup Hin.
  - by apply elem_of_nil in Hin.
  - apply NoDup_cons in Hnodup as [Hx Hnodup]. rewrite filter_cons.
    destruct (decide (x = uid)) as [-> | Hne].
    + rewrite decide_False by (by intros ?). simpl. f_equal.
      clear IH Hin Hnodup. induction l as [|y l IH]; [done|].
      rewrite filter_cons. apply not_elem_of_cons in Hx as [Hy Hx].
      rewrite decide_True by done. simpl. f_equal. by apply IH.
    + rewrite decide_True by done. simpl. f_equal. apply IH; [done|].
      apply elem_of_cons in Hin as [-> | Hin]; done.
Qed.

Lemma toggled_NoDup uid (l : list ObjectId) : NoDup l -> NoDup (toggled uid l).
Proof.
  clear_runtime.
  intros Hnodup. unfold toggled, pull, addToSet. case_bool_decide as Hin.
  - by apply NoDup_filter.
  - apply NoDup_app. split; [done|].
    split; [|apply NoDup_singleton]. intros x Hx Hx'. set_solver.
Qed.

Lemma likedBy_toggled t l a : likedBy (set_updatedAt t (set_likedBy l a)) = l.
Proof. clear_runtime. by destruct a. Qed.

(** X13.  While no id is listed twice in [likedBy], a toggle moves the
    like count by exactly one, up when the caller had not liked the
    auction and down when the caller had, and leaves no id listed
    twice. *)
Theorem toggleLike_counts env auctionId user db a uid :
  isValid auctionId = true ->
  auctions db !! auctionId = Some a ->
  castObjectId (user_id user) = Some uid ->
  noFault env ->
  NoDup (likedBy a) ->
  exists a1,
    auctions (toggleLikeAuction env auctionId user db).2 !! auctionId = Some a1
    /\ NoDup (likedBy a1)
    /\ (uid ∉ likedBy a -> likes a1 = S (likes a))
    /\ (uid ∈ likedBy a -> S (likes a1) = likes a).
Proof.
  clear_runtime.
  intros Hvalid Ha Hcast Hnf Hnodup.
  destruct (toggleLikeAuction_run env _ _ _ _ _ Hvalid Ha Hcast Hnf) as [msg ->].
  simpl. eexists. split; [apply lookup_insert_eq|].
  unfold likes. rewrite likedBy_toggled.
  split; [by apply toggled_NoDup|]. unfold toggled, addToSet. split; intros Hin.
  - rewrite !bool_decide_eq_false_2 by done. rewrite length_app. simpl. lia.
  - rewrite bool_decide_eq_true_2 by done. by apply pull_length.
Qed.

(** X14.  Whatever the request and the outcome, [toggleLikeAuction]
    writes no Bid, creates and deletes no auction, leaves every other
    auction as it was, and of the auction it names changes nothing but
    [likedBy] and [updatedAt]; and it lists no id twice where none
    was. *)
Theorem toggleLike_frame env auctionId user db :
  bids (toggleLikeAuction env auctionId user db).2 = bids db
  /\ dom (auctions (toggleLikeAuction env auctionId user db).2) = dom (auctions db)
  /\ (forall id, id <> auctionId ->
        auctions (toggleLikeAuction env auctionId user db).2 !! id = auctions db !! id)
  /\ (forall a a',
        auctions db !! auctionId = Some a ->
        auctions (toggleLikeAuction env auctionId user db).2 !! auctionId = Some a' ->
        set_updatedAt (updatedAt a) (set_likedBy (likedBy a) a') = a
        /\ (NoDup (likedBy a) -> NoDup (likedBy a'))).
Proof.
  clear_runtime.
  destruct (toggleLikeAuction_cases env auctionId user db)
    as [[error ->] | (a & uid & msg & _ & Ha & _ & ->)]; simpl.
  { split; [done|]. split; [done|]. split; [done|].
    intros a a' Ha Ha'. rewrite Ha in Ha'. injection Ha' as <-. split; [by destruct a|done]. }
  split; [done|]. split.
  { rewrite dom_insert_L. apply elem_of_dom_2 in Ha. set_solver. }
  split; [by intros id Hne; rewrite lookup_insert_ne|].
  intros a0 a' Ha0 Ha'. rewrite lookup_insert_eq in Ha'. rewrite Ha in Ha0.
  injection Ha0 as <-. injection Ha' as <-. split; [by destruct a|].
  rewrite likedBy_toggled. apply toggled_NoDup.
Qed.

(** ** Viewing an auction *)

Lemma getAuctionById_cases users env viewFailure auctionId db :
  (exists error, getAuctionById users env viewFailure auctionId db = (DetailNext error, db))
  \/ exists a,
       isValid auctionId = true
       /\ auctions db !! auctionId = Some a
       /\ (getAuctionById users env viewFailure auctionId db).1 =
            DetailJson 200
              {| d_auction := a;
                 d_seller :=
                   populate users ["fullName"; "profilePictureUrl"; "email"] (seller a);
                 d_highestBidder := highestBidder a ≫= populate users ["fullName"] |}
       /\ (getAuctionById users env viewFailure auctionId db).2 =
            if viewFailure is None then
              {| auctions := <[auctionId := set_updatedAt (now env)
                                              (set_views (views a + 1) a)]> (auctions db);
                 bids := bids db |}
            else db.
Proof.
  unfold getAuctionById.
  destruct (isValid auctionId) eqn:Hvalid; simpl; [|left; eexists; reflexivity].
  unfold findById, storageCall, bind, ret, throw, startSession, view; simpl.
  destruct (fault env OpFindById) as [e|]; simpl; [left; eexists; reflexivity|].
  destruct (auctions db !! auctionId) as [a|] eqn:Ha; [|left; eexists; reflexivity].
  right. exists a. split; [done|]. split; [done|]. split; [done|].
  unfold incrementViews, writeView, throw, ret, view.
  destruct viewFailure; simpl; [done|]. by rewrite Ha.
Qed.

(** X15.  [getAuctionById] answers with the auction as it is stored,
    before this view is counted; whether or not the count succeeds the
    answer is the same 200, and a failed count changes nothing.  The
    answer never names the seller or the highest bidder: the selection
    asks for [fullName], a path the schema of User does not have. *)
Theorem getAuctionById_reply users env viewFailure auctionId db a :
  isValid auctionId = true ->
  fault env OpFindById = None ->
  auctions db !! auctionId = Some a ->
  exists data,
    (getAuctionById users env viewFailure auctionId db).1 = DetailJson 200 data
    /\ d_auction data = a
    /\ (forall s, d_seller data = Some s -> pu_id s = seller a /\ pu_name s = None)
    /\ (forall h, d_highestBidder data = Some h ->
          highestBidder a = Some (pu_id h)
          /\ pu_name h = None /\ pu_email h = None /\ pu_profilePictureUrl h = None)
    /\ (viewFailure <> None -> (getAuctionById users env viewFailure auctionId db).2 = db)
    /\ (viewFailure = None ->
          (getAuctionById users env viewFailure auctionId db).2 =
            {| auctions := <[auctionId := set_updatedAt (now env)
                                            (set_views (views a + 1) a)]> (auctions db);
               bids := bids db |}).
Proof.
  intros Hvalid Hfind Ha.
  unfold getAuctionById, findById, storageCall, bind, ret, throw, startSession, view.
  rewrite Hvalid, Hfind; simpl. rewrite Ha; simpl.
  eexists. split; [reflexivity|]. split; [reflexivity|]. simpl.
  split.
  { unfold populate. intros s Hs. destruct (users !! seller a); [|discriminate].
    by injection Hs as <-. }
  split.
  { unfold populate. intros h Hh. destruct (highestBidder a) as [o|]; [|discriminate].
    simpl in Hh. destruct (users !! o); [|discriminate]. by injection Hh as <-. }
  unfold incrementViews, writeView, throw, ret, view.
  split; [by destruct viewFailure|]. intros ->. simpl. by rewrite Ha.
Qed.

(** X16.  Each view of an auction that succeeds adds one to its view
    count, and views change nothing else but [updatedAt]: after any
    number of them the count is up by that number, and every other
    field, every other auction and every Bid is as it was. *)
Theorem getAuctionById_counts_views users (envs : list Env) auctionId db a :
  isValid auctionId = true ->
  Forall (fun env => fault env OpFindById = None) envs ->
  auctions db !! auctionId = Some a ->
  let db' := foldl (fun acc env => (getAuctionById users env None auctionId acc).2) db envs in
  exists a',
    auctions db' !! auctionId = Some a'
    /\ views a' = views a + Z.of_nat (length envs)
    /\ set_updatedAt (updatedAt a) (set_views (views a) a') = a
    /\ bids db' = bids db
    /\ forall id, id <> auctionId -> auctions db' !! id = auctions db !! id.
Proof.
  intros Hvalid Hfind. revert db a.
  induction Hfind as [|env envs Henv _ IH]; intros db a Ha; simpl.
  - exists a. split; [done|]. split; [lia|]. split; [by destruct a|done].
  - destruct (getAuctionById_cases users env None auctionId db)
      as [[error E] | (a0 & _ & Ha0 & _ & E)].
    + exfalso. revert E. unfold getAuctionById, findById, storageCall, bind, ret, throw,
        startSession, view. rewrite Hvalid, Henv; simpl. by rewrite Ha.
    + rewrite E. rewrite Ha in Ha0. injection Ha0 as <-.
      set (a1 := set_updatedAt (now env) (set_views (views a + 1) a)).
      destruct (IH {| auctions := <[auctionId := a1]> (auctions db); bids := bids db |} a1
                  (lookup_insert_eq _ _ _))
        as (a' & Ha' & Hviews & Hsame & Hbids & Hothers).
      exists a'. split; [done|]. split.
      { rewrite Hviews. subst a1. destruct a; simpl. lia. }
      split.
      { clear -Hsame. subst a1. destruct a, a'; simpl in Hsame |- *.
        injection Hsame; intros; subst; reflexivity. }
      split; [done|]. intros id Hne. rewrite (Hothers id Hne). simpl.
      by rewrite lookup_insert_ne.
Qed.

(** ** Any sequence of requests *)


Lemma bidsOn_app id db added :
  bidsOn id {| auctions := auctions db; bids := bids db ++ added |} =
  bidsOn id db ++ filter (fun b => auction b = id) added.
Proof. clear_runtime. unfold bidsOn. simpl. apply filter_app. Qed.











(** ** The listings of bids *)

Global Instance newerFirst_total : Total newerFirst.
Proof. intros b1 b2. unfold newerFirst. lia. Qed.

(** X18.  For an auction that exists, [getBidsForAuction] lists
    exactly the Bids that refer to it, each once, newest first, with
    their number as [count]; where the bid state is in agreement the
    count is the [bidCount] of the auction.  Of a bidder it gives the
    name and the picture, never the email address. *)
Theorem getBidsForAuction_lists_the_bids users env auctionId db a :
  isValid auctionId = true ->
  fault env OpFindById = None ->
  auctions db !! auctionId = Some a ->
  exists listed,
    getBidsForAuction users env None auctionId db = BidsJson (length listed) listed
    /\ pb_bid <$> listed ≡ₚ bidsOn auctionId db
    /\ Sorted newerFirst (pb_bid <$> listed)
    /\ Forall (fun entry => auction (pb_bid entry) = auctionId) listed
    /\ Forall (fun entry => forall u, pb_bidder entry = Some u ->
                 pu_id u = bidder (pb_bid entry) /\ pu_email u = None
                 /\ exists profile, users !! bidder (pb_bid entry) = Some profile
                                    /\ pu_name u = Some (p_name profile)) listed
    /\ (WellFormed auctionId db a -> Z.of_nat (length listed) = bidCount a).
Proof.
  intros Hvalid Hfind Ha.
  unfold getBidsForAuction, findById, storageCall, bind, ret, throw, startSession, view.
  fold (bidsOn auctionId db).
  rewrite Hvalid, Hfind; simpl. rewrite Ha.
  eexists. split; [reflexivity|].
  rewrite <- list_fmap_compose.
  assert (Hid : forall l : list Bid,
            (pb_bid ∘ (fun b => {| pb_bid := b;
                                   pb_bidder := populate users
                                     ["name"; "profilePictureUrl"; "_id"] (bidder b) |}))
              <$> l = l).
  { intros l. induction l as [|b l IH]; [done|]. rewrite fmap_cons. by f_equal. }
  rewrite Hid. unfold sortNewestFirst.
  split; [apply merge_sort_Permutation|]. split; [apply Sorted_merge_sort, _|].
  split.
  { apply Forall_fmap, Forall_forall. intros b Hb. simpl.
    rewrite merge_sort_Permutation in Hb. unfold bidsOn in Hb.
    by apply list_elem_of_filter in Hb as [? _]. }
  split.
  { apply Forall_fmap, Forall_forall. intros b _ u. simpl. unfold populate.
    destruct (users !! bidder b) as [profile|]; [|discriminate].
    intros [= <-]. simpl. split; [done|]. split; [done|]. by exists profile. }
  intros (Hcount & _). rewrite length_fmap, merge_sort_Permutation. by rewrite Hcount.
Qed.

Lemma status_without_startTime now_ a : status now_ (set_startTime None a) = invalid_dates.
Proof. clear_runtime. by destruct a. Qed.

(** X19.  For an identity that [protect] supplies, [getMyBids] marks
    no bid as the highest, whoever leads the auction: the id of the
    highest bidder is compared as a string with the ObjectId that
    [protect] puts in [req.user.id]. *)
Theorem getMyBids_never_marks_highest foundUser user env findFailure db count listed :
  protect foundUser = inr user ->
  getMyBids env findFailure user db = MyBidsJson count listed ->
  Forall (fun entry => mb_isHighestBidder entry = false) listed.
Proof.
  unfold protect. destruct (u_isBanned foundUser); [done|].
  intros [= <-]. unfold getMyBids. simpl.
  destruct findFailure; [done|]. intros [= _ <-].
  apply Forall_fmap, Forall_forall. intros b _. simpl.
  unfold isHighestBidder. destruct (auctions db !! auction b); simpl; [|done].
  by destruct (highestBidder _).
Qed.

(** X20.  Every entry that [getMyBids] lists belongs to the caller and
    carries an auction whose status reads invalid-dates, the selection
    having left [startTime] out; on what [res.json] sends of it the
    client's [getBidStatus] answers unknown, whoever is signed in: no
    bid of the listing shows as winning, outbid, won or lost. *)
Theorem getMyBids_status_unknown env findFailure user db count listed :
  getMyBids env findFailure user db = MyBidsJson count listed ->
  count = length listed
  /\ Forall (fun entry =>
       castObjectId (user_id user) = Some (bidder (mb_bid entry))
       /\ mb_bid entry ∈ bids db
       /\ (forall p, mb_auction entry = Some p -> pa_status p = invalid_dates)
       /\ forall userId, getBidStatus (Some (myBidJson entry)) userId = unknown) listed.
Proof.
  unfold getMyBids.
  destruct (castObjectId (user_id user)) as [uid|]; [|done].
  destruct findFailure; [done|]. intros [= <- <-]. split; [done|].
  apply Forall_fmap, Forall_forall. intros b Hb. simpl.
  unfold sortNewestFirst in Hb. rewrite merge_sort_Permutation in Hb.
  apply list_elem_of_filter in Hb as [Hmine Hb].
  split; [by rewrite Hmine|]. split; [done|].
  destruct (auctions db !! auction b) as [a|]; simpl.
  - split; [intros p [= <-]; apply status_without_startTime|].
    intros userId. unfold getBidStatus, myBidJson. simpl.
    rewrite status_without_startTime. simpl. by destruct (negb (truthy userId)).
  - split; [done|]. by intros userId.
Qed.

(** ** The listing of auctions *)

(** X21.  Without [sortBy], [listAuctions] fails before it queries
    anything: with no status, or with one of the four it knows, it
    assigns to [sortOptions], a constant, and hands the TypeError to
    [next] with status 500.  So the listing with no parameters always
    fails. *)
Theorem listAuctions_without_sortBy js defaultPageLimit now_ query :
  truthy (q_sortBy query) = false ->
  truthy (q_sellerId query) = false \/ isValid (default "" (q_sellerId query)) = true ->
  truthy (q_status query) = false
  \/ default "" (q_status query) ∈ ["upcoming"; "active"; "ending-soon"; "ended"] ->
  listAuctionsQuery js defaultPageLimit now_ query =
    inl {| err_name := "TypeError"; err_message := "Assignment to constant variable.";
           err_statusCode := Some 500; err_errors := [] |}.
Proof.
  intros Hsort Hseller Hstatus. unfold listAuctionsQuery.
  assert (Hid : truthy (q_sellerId query)
                && negb (isValid (default "" (q_sellerId query))) = false).
  { destruct Hseller as [-> | ->]; [done|]. by rewrite andb_false_r. }
  rewrite Hid, Hsort.
  destruct Hstatus as [-> | Hknown]; [done|].
  destruct (truthy (q_status query)); [|done].
  repeat (apply elem_of_cons in Hknown as [-> | Hknown]; [done|]).
  by apply elem_of_nil in Hknown.
Qed.

(** X22.  When [listAuctions] reaches its query, the sort is the one
    the request named, or by end time when it named none, and the
    filter on the times is the window of the requested status: upcoming
    selects the upcoming auctions and ended the ended ones, while
    active, ending-soon and no status at all select the same auctions,
    every one that is active or ending-soon; a status the handler does
    not know selects every auction. *)
Theorem listAuctions_status_window js defaultPageLimit now_ query plan a start end_ :
  listAuctionsQuery js defaultPageLimit now_ query = inr plan ->
  startTime a = Some start ->
  endTime a = Some end_ ->
  start < end_ ->
  o_sortOptions (l_options plan) =
    (if truthy (q_sortBy query)
     then (default "" (q_sortBy query),
           if bool_decide (q_sortOrder query = Some "desc") then -1 else 1)
     else ("endTime", 1))
  /\ (q_status query = Some "upcoming" ->
        inWindow (l_filter plan) a = true <-> status now_ a = upcoming)
  /\ (q_status query = Some "ended" ->
        inWindow (l_filter plan) a = true <-> status now_ a = ended)
  /\ (truthy (q_status query) = false
      \/ q_status query = Some "active" \/ q_status query = Some "ending-soon" ->
        inWindow (l_filter plan) a = true
        <-> status now_ a = active \/ status now_ a = ending_soon)
  /\ (truthy (q_status query) = true ->
      default "" (q_status query) ∉ ["upcoming"; "active"; "ending-soon"; "ended"] ->
        inWindow (l_filter plan) a = true).
Proof.
  intros Hplan Hs He Horder.
  assert (Hst : forall t,
    (status t a = upcoming <-> t < start)
    /\ (status t a = ended <-> end_ <= t)
    /\ (status t a = active \/ status t a = ending_soon <-> start <= t < end_)).
  { intros t. unfold status. rewrite Hs, He.
    assert (Hfacts : forall s : Status,
      (s = upcoming -> t < start) -> (t < start -> s = upcoming) ->
      (s = ended -> end_ <= t) -> (end_ <= t -> s = ended) ->
      (s = active \/ s = ending_soon -> start <= t < end_) ->
      (start <= t < end_ -> s = active \/ s = ending_soon) ->
      (s = upcoming <-> t < start)
      /\ (s = ended <-> end_ <= t)
      /\ (s = active \/ s = ending_soon <-> start <= t < end_)) by (by intros).
    destruct (t <? start) eqn:H1; [apply Z.ltb_lt in H1|apply Z.ltb_ge in H1].
    { apply Hfacts; intros; try done; try lia.
      match goal with Hor : _ \/ _ |- _ => by destruct Hor end. }
    destruct ((start <=? t) && (t <? end_)) eqn:H2.
    - apply andb_true_iff in H2 as [_ H2]. apply Z.ltb_lt in H2.
      destruct (end_ - t <? oneHour); apply Hfacts; intros; try done; try lia; auto.
    - apply andb_false_iff in H2 as [H2 | H2];
        [apply Z.leb_gt in H2 | apply Z.ltb_ge in H2];
        apply Hfacts; intros; try done; try lia;
        match goal with Hor : _ \/ _ |- _ => by destruct Hor end. }
  destruct (Hst now_) as (Hup & Hend & Hrun).
  revert Hplan. unfold listAuctionsQuery.
  destruct (truthy (q_sellerId query) && negb (isValid (default "" (q_sellerId query))));
    [done|].
  assert (Hcases :
    forall tests : option DateTest * option DateTest * bool,
      (let '(startTest, endTest, assigns) := tests in
       if assigns && negb (truthy (q_sortBy query)) then
         inl (withStatusCode (thrown "TypeError" "Assignment to constant variable."))
       else
         match (if truthy (q_search query)
                then regExpError js (default "" (q_search query)) else None) with
         | Some error => inl (withStatusCode error)
         | None =>
         inr {| l_options := parseQueryOptions js defaultPageLimit query;
                l_filter :=
                  {| f_category := if truthy (q_category query) then q_category query
                                   else None;
                     f_seller := if truthy (q_sellerId query) then q_sellerId query
                                 else None;
                     f_minPrice := if truthy (q_minPrice query)
                                   then Some (q_minPrice query ≫= parseFloat js) else None;
                     f_maxPrice := if truthy (q_maxPrice query)
                                   then Some (q_maxPrice query ≫= parseFloat js) else None;
                     f_startTime := startTest;
                     f_endTime := endTest;
                     f_search := if truthy (q_search query) then q_search query
                                 else None |} |}
         end) = inr plan ->
      o_sortOptions (l_options plan) = o_sortOptions (parseQueryOptions js defaultPageLimit query)
      /\ inWindow (l_filter plan) a
         = dateTest tests.1.1 (startTime a) && dateTest tests.1.2 (endTime a)).
  { intros [[startTest endTest] assigns].
    destruct (assigns && negb (truthy (q_sortBy query))); [done|].
    destruct (if truthy (q_search query)
              then regExpError js (default "" (q_search query)) else None);
      [done|].
    by intros [= <-]. }
  intros Hplan. apply Hcases in Hplan as [Hsort Hwin]. clear Hcases.
  split; [by rewrite Hsort|]. rewrite Hwin, Hs, He. clear Hwin Hsort.
  split.
  { intros ->. simpl. rewrite Hup. rewrite andb_true_r. apply Z.ltb_lt. }
  split.
  { intros ->. simpl. rewrite Hend. apply Z.leb_le. }
  split.
  { rewrite Hrun. intros [-> | [-> | ->]]; simpl;
      rewrite andb_true_iff, Z.leb_le, Z.ltb_lt; lia. }
  intros Htruthy Hunknown. rewrite Htruthy.
  rewrite !bool_decide_eq_false_2; [done|..];
    intros Heq; apply Hunknown; rewrite Heq;
    repeat first [apply list_elem_of_here | apply list_elem_of_further].
Qed.

(** ** The routers *)

(** X23.  No request reaches [getMyAuctions] or [getLikedAuctions]:
    their routes are registered after [/:id], which takes every GET of
    one segment first; [GET /my-auctions] and [GET /liked-auctions] are
    served by [getAuctionById], with the word as the id. *)
Theorem my_auctions_unreachable method path :
  (forall r params,
     dispatch auctionRoutes method path = Some (r, params) ->
     r_controller r <> GetMyAuctions /\ r_controller r <> GetLikedAuctions)
  /\ (forall word, word <> "" ->
        exists r, dispatch auctionRoutes GET [word] = Some (r, [("id", word)])
                  /\ r_controller r = GetAuctionById).
Proof.
  clear_runtime.
  split.
  - intros r params. unfold auctionRoutes.
    destruct path as [|s [|s' [|s'' path]]], method; simpl; intros Hroute;
      simplify_eq/=; repeat (case_bool_decide; simplify_eq/=); done.
  - intros word Hword. eexists. simpl. rewrite bool_decide_eq_false_2 by done.
    simpl. done.
Qed.

(** X24.  The bid router is mounted on a path without [:auctionId],
    and none of its routes has the parameter: every request that
    reaches [placeBid] or [getBidsForAuction] is answered 400, Invalid
    Auction ID format, and no bid is recorded. *)
Theorem bid_routes_have_no_auction method path r params :
  dispatch bidRoutes method path = Some (r, params) ->
  param "auctionId" params = None
  /\ (forall env amount user db,
        placeBidRouted env params amount user db =
          (rejection 400 "Invalid Auction ID format.", db))
  /\ (forall users env findFailure db,
        getBidsForAuctionRouted users env findFailure params db =
          BidsFailed (rejection 400 "Invalid Auction ID format.")).
Proof.
  clear_runtime.
  intros Hroute.
  assert (Hparams : params = []).
  { revert Hroute. unfold bidRoutes.
    destruct path as [|s [|s' path]], method; simpl; intros Hroute;
      simplify_eq/=; repeat (case_bool_decide; simplify_eq/=); done. }
  subst params. unfold placeBidRouted, getBidsForAuctionRouted. done.
Qed.

(** ** Errors and identities in [placeBid] *)

(** X25.  A reply of [placeBid] carries an error object only with
    status 500, and in production not even then: there the 500 reply
    has the fixed message and no error, while elsewhere it has the
    message of the error and the error itself. *)
Theorem placeBid_discloses_errors_outside_production env req db :
  (httpStatus (placeBid env req db).1 <> 500 -> r_error (placeBid env req db).1 = None)
  /\ (httpStatus (placeBid env req db).1 = 500 ->
        if production env then
          r_error (placeBid env req db).1 = None
          /\ message (placeBid env req db).1 = "Failed to place bid due to a server error."
        else
          exists error,
            r_error (placeBid env req db).1 = Some error
            /\ message (placeBid env req db).1 = err_message error).
Proof.
  rewrite placeBid_unfold; cbv zeta.
  unfold handleServerError.
  repeat (case_match; simplify_eq/=); split; intros Hstatus; try done; eauto.
Qed.

(** X26.  No caller whose identity [protect] supplied is ever refused
    as the seller: [placeBid] never answers 403 to a signed-in user,
    the seller of the auction included. *)
Theorem signed_in_seller_may_bid foundUser user env auctionId amount db :
  protect foundUser = inr user ->
  httpStatus (placeBid env {| req_auctionId := auctionId; req_amount := amount;
                              req_user := user |} db).1 <> 403.
Proof.
  unfold protect. destruct (u_isBanned foundUser); [done|].
  intros [= <-]. rewrite placeBid_unfold; cbv zeta. simpl.
  repeat (case_match; simplify_eq/=); done.
Qed.

(** ** The life of one auction *)

Lemma LaterState_refl a : LaterState a a.
Proof.
  clear_runtime. unfold LaterState. split; [apply Qcle_refl|]. repeat split; try done; lia.
Qed.

Lemma LaterState_same a a' :
  currentBid a' = currentBid a -> bidCount a' = bidCount a -> views a' = views a ->
  seller a' = seller a -> createdAt a' = createdAt a ->
  LaterState a a'.
Proof.
  clear_runtime. unfold LaterState. intros -> -> -> -> ->. apply LaterState_refl.
Qed.

Lemma LaterState_trans a1 a2 a3 : LaterState a1 a2 -> LaterState a2 a3 -> LaterState a1 a3.
Proof.
  clear_runtime.
  intros (Hp & Hc & Hv & Hs & Ht) (Hp' & Hc' & Hv' & Hs' & Ht').
  split; [by eapply Qcle_trans|]. split; [lia|]. split; [lia|]. split; congruence.
Qed.

(** A request does not bring an auction into being under an id,
    unless it is the id a [createAuction] draws. *)
Lemma step_absent users env call db id :
  auctions db !! id = None ->
  (forall user body, call = CallCreateAuction user body -> newId env <> id) ->
  auctions (step users env call db) !! id = None.
Proof.
  intros Hnone Hfresh.
  assert (Hinsert : forall key a a',
            auctions db !! key = Some a -> <[key := a']> (auctions db) !! id = None).
  { intros key a a' Hkey. rewrite lookup_insert_ne; [done|]. intros ->. congruence. }
  destruct call as [req | user body | auctionId user body | auctionId user
                   | auctionId user | auctionId viewFailure]; simpl.
  - destruct (placeBid_outcome env req db)
      as [[_ ->] | (a & amt & o & Ha & _ & _ & _ & _ & ->)]; [done|].
    simpl. by eapply Hinsert.
  - destruct (createAuction_cases env user body db)
      as [[error ->] | (t & d & sb & et & sid & _ & _ & _ & _ & _ & _ & _ & _ & ->)];
      [done|].
    simpl. rewrite lookup_insert_ne; [done|]. by eapply Hfresh.
  - destruct (updateAuction_cases env auctionId user body db)
      as [[error ->] | (a & allowedUpdates & body1 & _ & Ha & _ & _ & _ & _ & _ & _ & ->)];
      [done|].
    case_bool_decide; [done|]. simpl. by eapply Hinsert.
  - destruct (deleteAuction_cases env auctionId user db)
      as [[error ->] | (a & _ & _ & _ & _ & ->)]; [done|].
    simpl. apply lookup_delete_None. by right.
  - destruct (toggleLikeAuction_cases env auctionId user db)
      as [[error ->] | (a & uid & msg & _ & Ha & _ & ->)]; [done|].
    simpl. by eapply Hinsert.
  - destruct (getAuctionById_cases users env viewFailure auctionId db)
      as [[error ->] | (a & _ & Ha & _ & ->)]; [done|].
    destruct viewFailure; [done|]. simpl. by eapply Hinsert.
Qed.

(** A request leaves an auction in a later state, or deletes it. *)
Lemma step_LaterState users env call db id a :
  auctions db !! id = Some a ->
  auctions (step users env call db) !! id = None
  \/ exists a', auctions (step users env call db) !! id = Some a' /\ LaterState a a'.
Proof.
  intros Ha.
  assert (Hsame : auctions db !! id = None
                  \/ exists a', auctions db !! id = Some a' /\ LaterState a a').
  { right. exists a. split; [done|]. apply LaterState_refl. }
  assert (Hinsert : forall key a0 a',
            auctions db !! key = Some a0 -> LaterState a0 a' ->
            <[key := a']> (auctions db) !! id = None
            \/ exists a'', <[key := a']> (auctions db) !! id = Some a''
                           /\ LaterState a a'').
  { intros key a0 a' Hkey Hlater. right. destruct (decide (key = id)) as [-> | Hne].
    - exists a'. split; [apply lookup_insert_eq|]. congruence.
    - exists a. split; [by rewrite lookup_insert_ne|]. apply LaterState_refl. }
  destruct call as [req | user body | auctionId user body | auctionId user
                   | auctionId user | auctionId viewFailure]; simpl.
  - destruct (placeBid_outcome env req db)
      as [[_ ->] | (a0 & amt & o & Ha0 & _ & _ & _ & Hlt & ->)]; [done|].
    simpl. eapply Hinsert; [done|].
    split; [apply Qclt_le_weak; by destruct a0|]. destruct a0; simpl. repeat split; lia.
  - destruct (createAuction_cases env user body db)
      as [[error ->] | (t & d & sb & et & sid & _ & _ & _ & _ & _ & Hfree & _ & _ & ->)];
      [done|].
    simpl. right. exists a. split; [|apply LaterState_refl].
    rewrite lookup_insert_ne; [done|]. intros E. congruence.
  - destruct (updateAuction_cases env auctionId user body db)
      as [[error ->] | (a0 & allowedUpdates & body1 & _ & Ha0 & _ & _ & Hcur & _ & _ & _
                        & ->)]; [done|].
    case_bool_decide; [done|]. simpl. eapply Hinsert; [done|].
    pose proof (applyUpdates_bidState _ body1 a0 Hcur) as Hkept. unfold bidState in Hkept.
    destruct (applyUpdates allowedUpdates body1 a0); simpl in *.
    injection Hkept; intros. by apply LaterState_same.
  - destruct (deleteAuction_cases env auctionId user db)
      as [[error ->] | (a0 & _ & _ & _ & _ & ->)]; [done|].
    simpl. destruct (decide (auctionId = id)) as [-> | Hne].
    + left. apply lookup_delete_eq.
    + right. exists a. split; [by rewrite lookup_delete_ne|]. apply LaterState_refl.
  - destruct (toggleLikeAuction_cases env auctionId user db)
      as [[error ->] | (a0 & uid & msg & _ & Ha0 & _ & ->)]; [done|].
    simpl. eapply Hinsert; [done|]. by apply LaterState_same; destruct a0.
  - destruct (getAuctionById_cases users env viewFailure auctionId db)
      as [[error ->] | (a0 & _ & Ha0 & _ & ->)]; [done|].
    destruct viewFailure; [done|]. simpl. eapply Hinsert; [done|].
    destruct a0; unfold LaterState; simpl. split; [apply Qcle_refl|].
    repeat split; try done; lia.
Qed.

(** X27.  Through any sequence of requests that draws no new auction
    under its id, an auction is deleted for good or is in a later state
    of itself: its seller and its creation time are the same, and its
    price, its bid count and its view count have not gone down. *)
Theorem run_never_sets_back users calls db id a :
  auctions db !! id = Some a ->
  id ∉ createIds calls ->
  auctions (run users calls db) !! id = None
  \/ exists a', auctions (run users calls db) !! id = Some a' /\ LaterState a a'.
Proof.
  intros Ha Hfresh.
  assert (Hgone : forall calls db,
            id ∉ createIds calls -> auctions db !! id = None ->
            auctions (run users calls db) !! id = None).
  { clear. intros calls. induction calls as [|[env call] calls IH]; intros db Hfresh Hnone;
      [done|].
    simpl. apply IH.
    - intros Hin. apply Hfresh. unfold createIds in *. simpl.
      destruct call; simpl; try done. by apply list_elem_of_further.
    - apply step_absent; [done|]. intros user body -> Heq. apply Hfresh.
      unfold createIds. simpl. rewrite Heq. apply list_elem_of_here. }
  revert db a Ha Hfresh. induction calls as [|[env call] calls IH]; intros db a Ha Hfresh.
  { right. exists a. split; [done|]. apply LaterState_refl. }
  assert (Hrest : id ∉ createIds calls).
  { intros Hin. apply Hfresh. unfold createIds in *. simpl.
    destruct call; simpl; try done. by apply list_elem_of_further. }
  simpl. destruct (step_LaterState users env call db id a Ha) as [Hnone | (a1 & Ha1 & H1)].
  - left. by apply Hgone.
  - destruct (IH _ _ Ha1 Hrest) as [Hnone | (a' & Ha' & H')]; [by left|].
    right. exists a'. split; [done|]. by eapply LaterState_trans.
Qed.

End Handlers.

(** * The properties on the sample data *)

Local Open Scope list_scope.

(** C2, as first stated, fails: a request with amount 0 for an id no
    auction has is refused for its amount, not as not found. *)
Lemma placeBid_checks_amount_before_lookup :
  auctions emptyDB !! lotId = None
  /\ isHex24 lotId = true
  /\ placeBid isHex24 showOpaque (quietEnv 2000 bidId1)
       (bidOf (IdObject bobOid) (Qc_of_Z 0)) emptyDB
     = (invalidAmount, emptyDB)
  /\ invalidAmount <> auctionNotFound.
Proof. repeat split; discriminate. Qed.

(** The order on the sample lot: the seller's string id is refused
    first; on the ended lot another bidder is refused for the status. *)
Lemma placeBid_precondition_order_witness :
  placeBid isHex24 showOpaque (quietEnv 2000 bidId1)
    (bidOf (IdString sellerOid) (Qc_of_Z 15)) (oneLot tenLot)
  = (sellerCannotBid, oneLot tenLot)
  /\ placeBid isHex24 showOpaque (quietEnv 20000000 bidId1)
       (bidOf (IdObject bobOid) (Qc_of_Z 15)) (oneLot tenLot)
     = (auctionNotActive ended, oneLot tenLot).
Proof.
  split.
  - destruct (placeBid_precondition_order isHex24 showOpaque (quietEnv 2000 bidId1)
                (bidOf (IdString sellerOid) (Qc_of_Z 15)) (oneLot tenLot) (Qc_of_Z 15))
      as (_ & H & _); [reflexivity..|].
    destruct (H tenLot) as [Hseller _]; [reflexivity|]. by apply Hseller.
  - destruct (placeBid_precondition_order isHex24 showOpaque (quietEnv 20000000 bidId1)
                (bidOf (IdObject bobOid) (Qc_of_Z 15)) (oneLot tenLot) (Qc_of_Z 15))
      as (_ & H & _); [reflexivity..|].
    destruct (H tenLot) as [_ Hother]; [reflexivity|].
    destruct Hother as [Hstatus _]; [discriminate|].
    apply Hstatus; discriminate.
Defined.

(** C3, as first stated, fails twice.  A bid of 0.005 on a lot whose
    current bid is 0.001 passes every precondition, yet no Bid is
    inserted: the Bid schema refuses an amount under 0.01, the
    transaction is aborted and the answer is 500.  And an accepted bid
    changes one more field of the auction, [updatedAt]. *)
Lemma placeBid_below_schema_minimum :
  let env := quietEnv 2000 bidId1 in
  let small := bidOf (IdObject bobOid) (Q2Qc (1 # 200)) in
  let fair := bidOf (IdObject bobOid) (Qc_of_Z 15) in
  (isHex24 (req_auctionId small) = true
   /\ auctions (oneLot milliLot) !! req_auctionId small = Some milliLot
   /\ sellerIs (seller milliLot) (user_id (req_user small)) = false
   /\ status (now env) milliLot = active
   /\ (0 < Q2Qc (1 # 200))%Qc
   /\ (currentBid milliLot < Q2Qc (1 # 200))%Qc
   /\ ~ (Q2Qc (1 # 200) < startingBid milliLot)%Qc
   /\ httpStatus (placeBid isHex24 showOpaque env small (oneLot milliLot)).1 = 500
   /\ (placeBid isHex24 showOpaque env small (oneLot milliLot)).2 = oneLot milliLot)
  /\ (exists a',
        auctions (placeBid isHex24 showOpaque env fair (oneLot tenLot)).2 !! lotId = Some a'
        /\ updatedAt tenLot = 0
        /\ updatedAt a' = 2000).
Proof.
  cbv zeta. split.
  - repeat split; discriminate.
  - eexists. split; [vm_compute; reflexivity|]. split; reflexivity.
Qed.

(** A bid of 15 on the sample lot at 10 is accepted. *)
Lemma placeBid_success_witness :
  httpStatus (placeBid isHex24 showOpaque (quietEnv 2000 bidId1)
                (bidOf (IdObject bobOid) (Qc_of_Z 15)) (oneLot tenLot)).1 = 201
  /\ length (bids (placeBid isHex24 showOpaque (quietEnv 2000 bidId1)
                     (bidOf (IdObject bobOid) (Qc_of_Z 15)) (oneLot tenLot)).2) = 1%nat.
Proof.
  destruct (placeBid_success isHex24 showOpaque (quietEnv 2000 bidId1)
              (bidOf (IdObject bobOid) (Qc_of_Z 15)) (oneLot tenLot) tenLot
              (Qc_of_Z 15) bobOid)
    as (a' & -> & _);
    [reflexivity | reflexivity | reflexivity | reflexivity | reflexivity
    | by left | reflexivity
    | intros [_ H]; vm_compute in H; discriminate
    | discriminate | reflexivity | intros op; reflexivity | ].
  split; reflexivity.
Defined.

(** The lot is created, then bid on three times (15 accepted, 12
    refused, 20 accepted). *)
Lemma bid_state_matches_log_witness :
  Consistent lotId
    (runBids isHex24 showOpaque
       [(quietEnv 2000 bidId1, bidOf (IdObject bobOid) (Qc_of_Z 15));
        (quietEnv 3000 bidId2, bidOf (IdObject aliceOid) (Qc_of_Z 12));
        (quietEnv 4000 bidId3, bidOf (IdObject aliceOid) (Qc_of_Z 20))]
       (createAuction isHex24 showOpaque noTrim (quietEnv 0 lotId)
          {| user_id := IdObject sellerOid; user_isAdmin := false |} lampBody emptyDB).2).
Proof.
  apply (bid_state_matches_log isHex24 showOpaque noTrim (quietEnv 0 lotId)
           {| user_id := IdObject sellerOid; user_isAdmin := false |} lampBody emptyDB
           "Auction created successfully"
           (Some tenLot)).
  - vm_compute. reflexivity.
  - reflexivity.
Defined.

(** A first bid equal to the starting bid of the sample lot. *)
Lemma first_bid_test_unreachable_witness :
  r_startingBid (placeBid isHex24 showOpaque (quietEnv 2000 bidId1)
                   (bidOf (IdObject bobOid) (Qc_of_Z 10)) (oneLot tenLot)).1 = None
  /\ placeBid isHex24 showOpaque (quietEnv 2000 bidId1)
       (bidOf (IdObject bobOid) (Qc_of_Z 10)) (oneLot tenLot)
     = (bidNotHigher showOpaque tenLot, oneLot tenLot).
Proof.
  destruct (first_bid_test_unreachable isHex24 showOpaque (quietEnv 2000 bidId1)
              (bidOf (IdObject bobOid) (Qc_of_Z 10)) (oneLot tenLot))
    as (Hnone & _ & Hfirst).
  - intros a Ha. apply (inj Some) in Ha. subst a. discriminate.
  - split; [exact Hnone|].
    destruct (Hfirst tenLot (Qc_of_Z 10)) as (_ & _ & Hequal); [reflexivity..|].
    apply Hequal; try reflexivity. by left.
Defined.

(** Bob likes the sample lot, then takes the like back. *)
Lemma toggleLike_flips_witness :
  exists a1 a2,
    auctions (toggleLikeAuction isHex24 (quietEnv 2000 bidId1) lotId
                {| user_id := IdObject bobOid; user_isAdmin := false |}
                (oneLot tenLot)).2 !! lotId = Some a1
    /\ auctions (toggleLikeAuction isHex24 (quietEnv 3000 bidId1) lotId
                   {| user_id := IdObject bobOid; user_isAdmin := false |}
                   (toggleLikeAuction isHex24 (quietEnv 2000 bidId1) lotId
                      {| user_id := IdObject bobOid; user_isAdmin := false |}
                      (oneLot tenLot)).2).2 !! lotId = Some a2
    /\ likedBy a1 = [bobOid]
    /\ likedBy a2 = likedBy tenLot.
Proof.
  destruct (toggleLike_flips isHex24 (quietEnv 2000 bidId1) (quietEnv 3000 bidId1) lotId
              {| user_id := IdObject bobOid; user_isAdmin := false |}
              (oneLot tenLot) tenLot bobOid)
    as (a1 & a2 & H1 & H2 & _);
    [reflexivity | reflexivity | reflexivity | intros op; reflexivity
    | intros op; reflexivity |].
  exists a1, a2. split; [exact H1|]. split; [exact H2|].
  vm_compute in H1. vm_compute in H2.
  apply (inj Some) in H1. apply (inj Some) in H2. subst a1 a2. split; reflexivity.
Defined.

(** ** The spec's examples of the status *)

Example status_examples :
  let hour := 3600000 in
  let opens_at (start end_ : Z) := set_endTime (Some end_) (set_startTime (Some start) tenLot) in
  status (10 * hour) (opens_at hour (10 * hour + hour / 2)) = ending_soon
  /\ status (10 * hour) (opens_at hour (12 * hour)) = active
  /\ status (10 * hour) (opens_at hour (11 * hour)) = active
  /\ status (10 * hour) (opens_at hour (9 * hour)) = ended
  /\ status (10 * hour) (opens_at hour (10 * hour)) = ended
  /\ status (10 * hour) (opens_at (11 * hour) (12 * hour)) = upcoming
  /\ status (10 * hour) (set_endTime None tenLot) = invalid_dates.
Proof. repeat split. Qed.

(** ** A failure between the two writes *)

(** When the insert of the Bid fails, the working copy of the
    transaction already holds the updated auction and no new Bid; the
    store is untouched, and [placeBid] answers 500 and leaves the
    database as it was. *)
Example write_failure_rolled_back :
  let env := {| now := 2000; newId := bidId1; production := true;
                fault := fun op => match op with
                                   | OpSave => Some (mkError "connection lost")
                                   | _ => None
                                   end |} in
  let db := oneLot tenLot in
  let run := placeBidTry isHex24 showOpaque env lotId (IdObject bobOid) (Qc_of_Z 15)
               (startTransaction (startSession db)) in
  run.1 = inl (mkError "connection lost")
  /\ store run.2 = db
  /\ (exists w a', txn run.2 = Some w
                   /\ auctions w !! lotId = Some a'
                   /\ currentBid a' = Qc_of_Z 15
                   /\ bids w = [])
  /\ placeBid isHex24 showOpaque env (bidOf (IdObject bobOid) (Qc_of_Z 15)) db
     = (rejection 500 "Failed to place bid due to a server error.", db).
Proof.
  cbv zeta. split; [reflexivity|]. split; [reflexivity|]. split; [|reflexivity].
  eexists _, _. split; [vm_compute; reflexivity|]. split; [vm_compute; reflexivity|].
  split; reflexivity.
Qed.

(** ** The identity [protect] supplies *)

(** The seller, signed in through [protect], bids on the seller's own
    active auction and the bid is accepted: [req.user.id] is the
    ObjectId, never the string the seller test compares with. *)
Example seller_bid_accepted :
  exists user,
    protect sellerUser = inr user
    /\ u_id sellerUser = seller tenLot
    /\ status 2000 tenLot = active
    /\ httpStatus (placeBid isHex24 showOpaque (quietEnv 2000 bidId1)
                     {| req_auctionId := lotId; req_amount := Some (Qc_of_Z 15);
                        req_user := user |}
                     (oneLot tenLot)).1 = 201.
Proof. eexists. repeat split. Qed.

(** C8, where the code departs from it.  The seller, signed in through
    [protect] and not an admin, deletes the seller's own upcoming
    auction that has no bid: the handler answers 403 and deletes
    nothing. *)
Theorem seller_delete_refused :
  exists user,
    protect sellerUser = inr user
    /\ user_isAdmin user = false
    /\ u_id sellerUser = seller tenLot
    /\ bidCount tenLot = 0
    /\ status 0 tenLot = upcoming
    /\ deleteAuction isHex24 (quietEnv 0 bidId1) lotId user (oneLot tenLot)
       = (Next (httpError 403 "Not authorized to delete this auction"), oneLot tenLot).
Proof. eexists. repeat split. Qed.

(** C7, where the code departs from it.  An admin raises the starting
    bid of an upcoming auction that has no bid from 10 to 20: the
    update is accepted, [startingBid] becomes 20, and [currentBid]
    stays 10, below the new starting bid. *)
Theorem updateAuction_leaves_currentBid_behind :
  exists user saved,
    protect adminUser = inr user
    /\ user_isAdmin user = true
    /\ bidCount tenLot = 0
    /\ status 500 tenLot = upcoming
    /\ startingBid tenLot = Qc_of_Z 10
    /\ currentBid tenLot = Qc_of_Z 10
    /\ updateAuction isHex24 showOpaque noTrim (quietEnv 500 bidId1) lotId user
         (newStartingBid (Qc_of_Z 20)) (oneLot tenLot)
       = (Json 200 "Auction updated successfully" (Some saved), oneLot saved)
    /\ startingBid saved = Qc_of_Z 20
    /\ currentBid saved = Qc_of_Z 10
    /\ (currentBid saved < startingBid saved)%Qc.
Proof.
  eexists _, (set_updatedAt 500 (set_startingBid (Qc_of_Z 20) tenLot)).
  repeat split.
Qed.

(** A bid of 5 on the sample lot at 10 is refused and changes
    nothing. *)
Lemma placeBid_all_or_nothing_witness :
  httpStatus (placeBid isHex24 showOpaque (quietEnv 2000 bidId1)
                (bidOf (IdObject bobOid) (Qc_of_Z 5)) (oneLot tenLot)).1 = 400
  /\ (placeBid isHex24 showOpaque (quietEnv 2000 bidId1)
        (bidOf (IdObject bobOid) (Qc_of_Z 5)) (oneLot tenLot)).2 = oneLot tenLot.
Proof.
  split; [reflexivity|].
  apply (placeBid_all_or_nothing isHex24 showOpaque (quietEnv 2000 bidId1)
           (bidOf (IdObject bobOid) (Qc_of_Z 5)) (oneLot tenLot)).
  vm_compute. discriminate.
Defined.

(** Half an hour before the end of the sample lot. *)
Lemma status_derivation_witness :
  status (10000000 - 1800000) tenLot = ending_soon.
Proof.
  destruct (status_derivation (10000000 - 1800000) tenLot) as (_ & _ & _ & H).
  destruct (H 1000 10000000) as (_ & Hsoon & _); [reflexivity | reflexivity |].
  apply Hsoon; unfold oneHour; lia.
Defined.

(** * The further properties on the sample data *)

(** Half a second before its start the sample lot is upcoming; in its
    last hour it is ending-soon. *)
Lemma status_never_goes_back_witness :
  statusRank (status 500 tenLot) <= statusRank (status 9000000 tenLot).
Proof. apply status_never_goes_back. lia. Defined.

(** After a bid of 15 the lot is still there, at a higher price. *)
Lemma runBids_price_never_falls_witness :
  exists a',
    auctions (runBids isHex24 showOpaque
                [(quietEnv 2000 bidId1, bidOf (IdObject bobOid) (Qc_of_Z 15))]
                (oneLot tenLot)) !! lotId = Some a'
    /\ startingBid a' = Qc_of_Z 10
    /\ seller a' = sellerOid.
Proof.
  destruct (runBids_price_never_falls isHex24 showOpaque
              [(quietEnv 2000 bidId1, bidOf (IdObject bobOid) (Qc_of_Z 15))]
              (oneLot tenLot) lotId tenLot)
    as (a' & Ha' & _ & Hstart & Hseller & _); [reflexivity|].
  exists a'. by rewrite Hstart, Hseller.
Defined.

(** The bid of 15 was accepted at 2 000 ms: inside the window of the
    lot. *)
Lemma placeBid_accepts_only_when_open_witness :
  exists a start end_,
    auctions (oneLot tenLot) !! lotId = Some a
    /\ startTime a = Some start /\ endTime a = Some end_
    /\ start <= 2000 < end_.
Proof.
  destruct (placeBid_accepts_only_when_open isHex24 showOpaque (quietEnv 2000 bidId1)
              (bidOf (IdObject bobOid) (Qc_of_Z 15)) (oneLot tenLot))
    as (a & amt & start & end_ & o & _ & Ha & _ & _ & Hs & He & Hopen & _);
    [reflexivity|].
  by exists a, start, end_.
Defined.

(** The lamp is listed: it is stored under the new id with no bid, and
    the signed-in caller is its seller. *)
Lemma createAuction_stores_open_auction_witness :
  exists a,
    auctions (createAuction isHex24 showOpaque noTrim (quietEnv 0 lotId)
                {| user_id := IdObject sellerOid; user_isAdmin := false |} lampBody
                emptyDB).2 !! lotId = Some a
    /\ bidCount a = 0
    /\ currentBid a = startingBid a
    /\ seller a = sellerOid.
Proof.
  destruct (createAuction_stores_open_auction isHex24 showOpaque noTrim (quietEnv 0 lotId)
              {| user_id := IdObject sellerOid; user_isAdmin := false |} lampBody emptyDB
              "Auction created successfully" (Some tenLot))
    as (a & start & end_ & _ & _ & -> & _ & _ & _ & _ & _ & _ & Hcur & _ & Hcount & _ & _
        & _ & Hseller & _); [vm_compute; reflexivity|].
  exists a. split; [apply lookup_insert_eq|]. split; [done|]. split; [done|].
  simpl in Hseller. by injection Hseller as <-.
Defined.

(** The seller, under a string id, doubles the starting bid of the
    upcoming lot: the auction changed, so it was upcoming and without
    bids. *)
Lemma updateAuction_gates_witness :
  status 500 tenLot = upcoming /\ bidCount tenLot = 0.
Proof.
  destruct (updateAuction_gates isHex24 showOpaque noTrim (quietEnv 500 bidId1) lotId
              {| user_id := IdString sellerOid; user_isAdmin := false |}
              (newStartingBid (Qc_of_Z 20)) (oneLot tenLot) tenLot
              (set_updatedAt 500 (set_startingBid (Qc_of_Z 20) tenLot)))
    as (_ & _ & Hgate); [reflexivity | reflexivity | vm_compute; reflexivity |].
  apply Hgate. vm_compute. discriminate.
Defined.


(** The seller of the sample lot, signed in, can neither update nor
    delete it. *)
Lemma signed_in_seller_locked_out_witness :
  (exists error,
     updateAuction isHex24 showOpaque noTrim (quietEnv 500 bidId1) lotId
       {| user_id := IdObject sellerOid; user_isAdmin := false |}
       (newStartingBid (Qc_of_Z 20)) (oneLot tenLot) = (Next error, oneLot tenLot))
  /\ (exists error,
        deleteAuction isHex24 (quietEnv 500 bidId1) lotId
          {| user_id := IdObject sellerOid; user_isAdmin := false |} (oneLot tenLot)
        = (Next error, oneLot tenLot)).
Proof.
  apply (signed_in_seller_locked_out isHex24 showOpaque noTrim sellerUser
           {| user_id := IdObject sellerOid; user_isAdmin := false |}
           (quietEnv 500 bidId1) lotId (newStartingBid (Qc_of_Z 20)) (oneLot tenLot));
    reflexivity.
Defined.

(** In its last hour the lot, bid on, is deleted by its seller under a
    string id; Bob's bid stays behind. *)
Lemma deleteAuction_ending_soon_witness :
  auctions (deleteAuction isHex24 (quietEnv 9000000 bidId2) lotId
              {| user_id := IdString sellerOid; user_isAdmin := false |} bidDB).2
    !! lotId = None
  /\ bidsOn lotId (deleteAuction isHex24 (quietEnv 9000000 bidId2) lotId
                     {| user_id := IdString sellerOid; user_isAdmin := false |} bidDB).2
     = [bobBid].
Proof.
  destruct (deleteAuction_ending_soon isHex24 (quietEnv 9000000 bidId2) lotId
              {| user_id := IdString sellerOid; user_isAdmin := false |} bidDB bidLot)
    as [-> ->]; [reflexivity | intros op; reflexivity | reflexivity | reflexivity
                | reflexivity |].
  split; [apply lookup_delete_eq | reflexivity].
Defined.

(** Bob likes the lot: one like. *)
Lemma toggleLike_counts_witness :
  exists a1,
    auctions (toggleLikeAuction isHex24 (quietEnv 2000 bidId1) lotId
                {| user_id := IdObject bobOid; user_isAdmin := false |}
                (oneLot tenLot)).2 !! lotId = Some a1
    /\ likes a1 = 1%nat.
Proof.
  destruct (toggleLike_counts isHex24 (quietEnv 2000 bidId1) lotId
              {| user_id := IdObject bobOid; user_isAdmin := false |}
              (oneLot tenLot) tenLot bobOid)
    as (a1 & Ha1 & _ & Hup & _);
    [reflexivity | reflexivity | reflexivity | intros op; reflexivity | constructor |].
  exists a1. split; [done|]. apply Hup. intros Hin. by apply elem_of_nil in Hin.
Defined.

(** The lot is viewed: the answer shows it as stored, with its seller
    unnamed. *)
Lemma getAuctionById_reply_witness :
  exists data,
    (getAuctionById isHex24 sampleUsers (quietEnv 2000 bidId1) None lotId
       (oneLot tenLot)).1 = DetailJson 200 data
    /\ views (d_auction data) = 0
    /\ (forall s, d_seller data = Some s -> pu_name s = None).
Proof.
  destruct (getAuctionById_reply isHex24 sampleUsers (quietEnv 2000 bidId1) None lotId
              (oneLot tenLot) tenLot)
    as (data & Hreply & Hshown & Hseller & _); [reflexivity..|].
  exists data. split; [done|]. split; [by rewrite Hshown|].
  intros s Hs. by destruct (Hseller s Hs).
Defined.

(** Viewed three times, the lot has three views. *)
Lemma getAuctionById_counts_views_witness :
  exists a',
    auctions (foldl (fun acc env => (getAuctionById isHex24 sampleUsers env None lotId acc).2)
                (oneLot tenLot)
                [quietEnv 2000 bidId1; quietEnv 3000 bidId1; quietEnv 4000 bidId1])
      !! lotId = Some a'
    /\ views a' = 3.
Proof.
  destruct (getAuctionById_counts_views isHex24 sampleUsers
              [quietEnv 2000 bidId1; quietEnv 3000 bidId1; quietEnv 4000 bidId1]
              lotId (oneLot tenLot) tenLot)
    as (a' & Ha' & Hviews & _); [reflexivity | by repeat constructor | reflexivity |].
  by exists a'.
Defined.


(** The bids on the lot are listed: Bob's, with his name and without
    his email address. *)
Lemma getBidsForAuction_lists_the_bids_witness :
  exists listed,
    getBidsForAuction isHex24 sampleUsers (quietEnv 5000 bidId2) None lotId bidDB
    = BidsJson 1 listed
    /\ pb_bid <$> listed = [bobBid]
    /\ Forall (fun entry => forall u, pb_bidder entry = Some u ->
                 pu_name u = Some "Bob" /\ pu_email u = None) listed.
Proof.
  destruct (getBidsForAuction_lists_the_bids isHex24 sampleUsers (quietEnv 5000 bidId2)
              lotId bidDB bidLot)
    as (listed & Hreply & _); [reflexivity..|].
  exists listed. rewrite Hreply. vm_compute in Hreply. injection Hreply as Hlen <-.
  split; [reflexivity|]. split; [reflexivity|].
  apply Forall_singleton. simpl. intros u [= <-]. by split.
Defined.

(** Bob leads the lot, and his own listing does not say so. *)
Lemma getMyBids_never_marks_highest_witness :
  highestBidder bidLot = Some bobOid
  /\ Forall (fun entry => mb_isHighestBidder entry = false)
       match getMyBids isHex24 (quietEnv 5000 bidId2) None
               {| user_id := IdObject bobOid; user_isAdmin := false |} bidDB with
       | MyBidsJson _ listed => listed
       | MyBidsFailed _ => []
       end.
Proof.
  split; [reflexivity|].
  apply (getMyBids_never_marks_highest isHex24 bobUser
           {| user_id := IdObject bobOid; user_isAdmin := false |}
           (quietEnv 5000 bidId2) None bidDB 1%nat); reflexivity.
Defined.

(** The one bid of Bob's listing shows as unknown to Bob. *)
Lemma getMyBids_status_unknown_witness :
  Forall (fun entry => getBidStatus (Some (myBidJson entry)) (Some bobOid) = unknown)
    match getMyBids isHex24 (quietEnv 5000 bidId2) None
            {| user_id := IdObject bobOid; user_isAdmin := false |} bidDB with
    | MyBidsJson _ listed => listed
    | MyBidsFailed _ => []
    end.
Proof.
  destruct (getMyBids_status_unknown isHex24 (quietEnv 5000 bidId2) None
              {| user_id := IdObject bobOid; user_isAdmin := false |} bidDB 1%nat
              match getMyBids isHex24 (quietEnv 5000 bidId2) None
                      {| user_id := IdObject bobOid; user_isAdmin := false |} bidDB with
              | MyBidsJson _ listed => listed
              | MyBidsFailed _ => []
              end)
    as [_ Hall]; [reflexivity|].
  eapply Forall_impl; [exact Hall|]. intros entry (_ & _ & _ & Hunknown). apply Hunknown.
Defined.

(** The listing with no parameter fails. *)
Lemma listAuctions_without_sortBy_witness :
  listAuctionsQuery isHex24 sampleRuntime None 2000 noQuery =
    inl {| err_name := "TypeError"; err_message := "Assignment to constant variable.";
           err_statusCode := Some 500; err_errors := [] |}.
Proof. apply listAuctions_without_sortBy; [reflexivity | by left | by left]. Defined.

(** The lot has more than an hour to run: it is active, and the
    listing of the auctions ending soon selects it. *)
Lemma listAuctions_status_window_witness :
  exists plan,
    listAuctionsQuery isHex24 sampleRuntime None 2000 endingSoonQuery = inr plan
    /\ o_limit (l_options plan) = Some 12
    /\ inWindow (l_filter plan) tenLot = true
    /\ status 2000 tenLot = active.
Proof.
  eexists. split; [reflexivity|]. split; [reflexivity|]. split; [|reflexivity].
  match goal with
  | |- inWindow (l_filter ?plan) _ = _ =>
      destruct (listAuctions_status_window isHex24 sampleRuntime None 2000 endingSoonQuery
                  plan tenLot 1000 10000000)
        as (_ & _ & _ & Hwindow & _); [reflexivity | reflexivity | reflexivity | lia |]
  end.
  apply Hwindow; [by right; right | by left].
Defined.

(** A bid posted to the bid router is refused for its auction id. *)
Lemma bid_routes_have_no_auction_witness :
  exists r,
    dispatch bidRoutes POST [] = Some (r, [])
    /\ r_controller r = PlaceBid
    /\ placeBidRouted isHex24 showOpaque (quietEnv 2000 bidId1) [] (Some (Qc_of_Z 15))
         {| user_id := IdObject bobOid; user_isAdmin := false |} (oneLot tenLot)
       = (rejection 400 "Invalid Auction ID format.", oneLot tenLot).
Proof.
  eexists. split; [reflexivity|]. split; [reflexivity|].
  match goal with
  | |- placeBidRouted _ _ _ _ _ _ _ = _ =>
      destruct (bid_routes_have_no_auction isHex24 showOpaque POST []
                  {| r_method := POST; r_path := []; r_protect := true;
                     r_controller := PlaceBid |} [])
        as (_ & Hplace & _); [reflexivity|]
  end.
  apply Hplace.
Defined.

(** The seller of the lot, signed in, bids on it and is not refused as
    the seller. *)
Lemma signed_in_seller_may_bid_witness :
  httpStatus (placeBid isHex24 showOpaque (quietEnv 2000 bidId1)
                {| req_auctionId := lotId; req_amount := Some (Qc_of_Z 15);
                   req_user := {| user_id := IdObject sellerOid; user_isAdmin := false |} |}
                (oneLot tenLot)).1 <> 403.
Proof.
  apply (signed_in_seller_may_bid isHex24 showOpaque sellerUser
           {| user_id := IdObject sellerOid; user_isAdmin := false |}).
  reflexivity.
Defined.

(** From its first bid to the end of its day the lamp is not set
    back. *)
Lemma run_never_sets_back_witness :
  exists a',
    auctions (run isHex24 showOpaque noTrim sampleUsers (drop 1 lampDay) (oneLot tenLot))
      !! lotId = Some a'
    /\ LaterState tenLot a'.
Proof.
  destruct (run_never_sets_back isHex24 showOpaque noTrim sampleUsers (drop 1 lampDay)
              (oneLot tenLot) lotId tenLot)
    as [Hnone | Hlater]; [reflexivity | | | exact Hlater].
  - vm_compute. intros Hin. apply list_elem_of_singleton in Hin. discriminate.
  - vm_compute in Hnone. discriminate.
Defined.
